(** * Natural-language task parser: shallow embedding and properties

    Source: [src/utils/natural-language-parser.ts] (dates, times, tags and
    title clean-up of a free-text task line).

    Modelling conventions.
    - A JavaScript string is a [list ascii]; a character is read as a UTF-16
      code unit below 256 (Latin-1).  Every letter, digit and separator the
      patterns of the parser mention is ASCII.
    - A regular-expression literal is a value of [regex] with its flags, run
      by a backtracking matcher written in continuation-passing style after
      the ECMAScript matcher semantics (greedy quantifiers, ordered
      alternation, leftmost match, numbered capture groups).
    - A [Date] object is its time value, in milliseconds of local time, or
      the invalid date (time value NaN).  The local zone is taken to have a
      constant offset, so local midnight is a multiple of [msPerDay].  Where
      a statement depends on the zone, the functions with the suffix [_in]
      are used: they keep the time value in UTC and take the zone as an
      argument; at offset zero they are the functions without the suffix.
      Arithmetic on time values is exact integer arithmetic followed by
      [TimeClip]; the doubles of the source differ from it only once an
      intermediate value exceeds 2^53, and the clipped result is then the
      invalid date on both sides.
    - The clock read by [new Date()] is the explicit parameter [now]; all
      the reads made during one call see the same instant. *)

From Stdlib Require Import Ascii String DecimalString.
From Stdlib Require Import List ZArith Lia Bool Arith Sorted.
Import ListNotations.

Open Scope string_scope.
Open Scope list_scope.

(** ** Strings *)

Definition str := list ascii.

Coercion list_ascii_of_string : string >-> list.

Definition code (c : ascii) : N := N_of_ascii c.

Definition in_range (c : ascii) (r : ascii * ascii) : bool :=
  (code (fst r) <=? code c)%N && (code c <=? code (snd r))%N.

Definition in_ranges (c : ascii) (rs : list (ascii * ascii)) : bool :=
  existsb (in_range c) rs.

Definition is_upper (c : ascii) : bool := in_range c ("A", "Z")%char.
Definition is_lower (c : ascii) : bool := in_range c ("a", "z")%char.
Definition is_digit (c : ascii) : bool := in_range c ("0", "9")%char.

(** Latin-1 capitals: A-Z, and U+00C0..U+00DE without the multiplication
    sign U+00D7. *)
Definition is_latin1_upper (c : ascii) : bool :=
  ((192 <=? code c)%N && (code c <=? 222)%N && negb (code c =? 215)%N).

(** [String.prototype.toLowerCase] on one code unit. *)
Definition lower_char (c : ascii) : ascii :=
  if is_upper c || is_latin1_upper c then ascii_of_N (code c + 32) else c.

(** ASCII-only case folding, as used by the [i] flag on ASCII patterns. *)
Definition ascii_upper (c : ascii) : ascii :=
  if is_lower c then ascii_of_N (code c - 32) else c.
Definition ascii_lower (c : ascii) : ascii :=
  if is_upper c then ascii_of_N (code c + 32) else c.

Definition toLowerCase (s : str) : str := map lower_char s.

(** WhiteSpace and LineTerminator code units below 256: TAB, LF, VT, FF, CR,
    SP and NBSP.  This is what [\s] and [trim] recognise. *)
Definition is_space (c : ascii) : bool :=
  ((9 <=? code c)%N && (code c <=? 13)%N) || (code c =? 32)%N || (code c =? 160)%N.

(** [\w]: the basic word characters. *)
Definition is_word (c : ascii) : bool :=
  is_lower c || is_upper c || is_digit c || (code c =? 95)%N.

Fixpoint trimStart (s : str) : str :=
  match s with
  | c :: s' => if is_space c then trimStart s' else s
  | [] => []
  end.

Definition trimEnd (s : str) : str := rev (trimStart (rev s)).

Definition trim (s : str) : str := trimEnd (trimStart s).

Definition str_eqb (a b : str) : bool :=
  if list_eq_dec ascii_dec a b then true else false.

Definition is_empty (s : str) : bool :=
  match s with [] => true | _ => false end.

(** ** Regular expressions *)

Inductive regex : Type :=
| Empty
| Chr (c : ascii)
| Class (ranges : list (ascii * ascii))
| Seq (r1 r2 : regex)
| Alt (r1 r2 : regex)
| Star (r : regex)
| Group (n : nat) (r : regex)
| NonCapture (r : regex)
| WordBoundary
| Bol
| Eol.

Definition Plus (r : regex) : regex := Seq r (Star r).
Definition Opt (r : regex) : regex := Alt r Empty.

(** [r{lo,lo+extra}], greedy. *)
Fixpoint UpTo (extra : nat) (r : regex) : regex :=
  match extra with
  | 0 => Empty
  | S n => Opt (Seq r (UpTo n r))
  end.
Fixpoint Rep (lo extra : nat) (r : regex) : regex :=
  match lo with
  | 0 => UpTo extra r
  | S n => Seq r (Rep n extra r)
  end.

(** A literal run of characters, and the concatenation of a list of
    pieces. *)
Fixpoint Lit (s : str) : regex :=
  match s with
  | [] => Empty
  | c :: s' => Seq (Chr c) (Lit s')
  end.

Fixpoint Cat (rs : list regex) : regex :=
  match rs with
  | [] => Empty
  | r :: rs' => Seq r (Cat rs')
  end.

(** [r1|r2|...] *)
Fixpoint AltOf (rs : list regex) : regex :=
  match rs with
  | [] => Empty
  | [r] => r
  | r :: rs' => Alt r (AltOf rs')
  end.

Definition Words (ws : list string) : regex :=
  AltOf (map (fun w : string => Lit w) ws).

Definition digit : regex := Class [("0", "9")%char].
Definition space : regex :=
  Class [("009", "013"); (" ", " "); ("160", "160")]%char.

(** A match state: the character before the current position (if any), the
    text still to read, and the captures recorded so far (latest first). *)
Record mstate : Type := MState {
  prev : option ascii;
  rest : str;
  caps : list (nat * str)
}.

Definition consumed (before after : str) : str :=
  firstn (length before - length after) before.

Definition chr_match (ci : bool) (p c : ascii) : bool :=
  if ci then Ascii.eqb (ascii_upper p) (ascii_upper c) else Ascii.eqb p c.

Definition class_match (ci : bool) (rs : list (ascii * ascii)) (c : ascii) : bool :=
  in_ranges c rs
  || (ci && (in_ranges (ascii_upper c) rs || in_ranges (ascii_lower c) rs)).

(** [\b] holds where exactly one of the two neighbours is a word
    character; the ends of the text count as non-word. *)
Definition word_before (pv : option ascii) : bool :=
  match pv with Some c => is_word c | None => false end.
Definition word_after (s : str) : bool :=
  match s with c :: _ => is_word c | [] => false end.
Definition at_word_boundary (st : mstate) : bool :=
  xorb (word_before (prev st)) (word_after (rest st)).

Definition step_char (ok : ascii -> bool) (k : mstate -> option mstate)
    (st : mstate) : option mstate :=
  match rest st with
  | c :: s' => if ok c then k (MState (Some c) s' (caps st)) else None
  | [] => None
  end.

Definition or_else (a : option mstate) (b : unit -> option mstate) : option mstate :=
  match a with
  | Some x => Some x
  | None => b tt
  end.

(** The iterations of a greedy [*]: try the body once more, then the rest
    of the pattern; without it the rest of the pattern alone.  An iteration
    that reads nothing is rejected, so [n], an upper bound on the number of
    iterations still possible, can be the length of the text left. *)
Fixpoint star_loop (body : (mstate -> option mstate) -> mstate -> option mstate)
    (k : mstate -> option mstate) (n : nat) (st : mstate) : option mstate :=
  match n with
  | 0 => k st
  | S n' =>
      or_else
        (body
           (fun st' =>
              if (length (rest st') <? length (rest st))%nat
              then star_loop body k n' st' else None) st)
        (fun _ => k st)
  end.

(** The matcher: [m ci r k st] tries [r] at [st] and hands every way of
    matching, in priority order, to the continuation [k] until one
    succeeds. *)
Fixpoint m (ci : bool) (r : regex) (k : mstate -> option mstate)
    (st : mstate) {struct r} : option mstate :=
  match r with
  | Empty => k st
  | Chr p => step_char (chr_match ci p) k st
  | Class rs => step_char (class_match ci rs) k st
  | Seq r1 r2 => m ci r1 (m ci r2 k) st
  | Alt r1 r2 => or_else (m ci r1 k st) (fun _ => m ci r2 k st)
  | Star r' => star_loop (m ci r') k (length (rest st)) st
  | Group n r' =>
      m ci r'
        (fun st' =>
           k (MState (prev st') (rest st')
                ((n, consumed (rest st) (rest st')) :: caps st'))) st
  | NonCapture r' => m ci r' k st
  | WordBoundary => if at_word_boundary st then k st else None
  | Bol => match prev st with None => k st | Some _ => None end
  | Eol => match rest st with [] => k st | _ :: _ => None end
  end.

(** A regular-expression literal with its flags. *)
Record RegExp : Type := MkRegExp {
  re : regex;
  ignoreCase : bool;
  global : bool
}.

(** The result of a successful [exec]: text before the match, the match
    and the captures. *)
Record MatchResult : Type := MkMatch {
  before : str;
  matched : str;
  groups : list (nat * str);
  after : str
}.

Definition match_here (p : RegExp) (pv : option ascii) (s : str) : option mstate :=
  m (ignoreCase p) (re p) (fun st => Some st) (MState pv s []).

Fixpoint exec_from (p : RegExp) (pre_rev : str) (pv : option ascii) (s : str)
    : option MatchResult :=
  match match_here p pv s with
  | Some st =>
      Some (MkMatch (rev pre_rev) (consumed s (rest st)) (caps st) (rest st))
  | None =>
      match s with
      | c :: s' => exec_from p (c :: pre_rev) (Some c) s'
      | [] => None
      end
  end.

(** [RegExp.prototype.exec] / [String.prototype.match] without the [g] flag. *)
Definition exec (p : RegExp) (s : str) : option MatchResult :=
  exec_from p [] None s.

(** [RegExp.prototype.test] (the literals tested by the parser carry no
    [g] flag, so no [lastIndex] is involved). *)
Definition test (p : RegExp) (s : str) : bool :=
  match exec p s with Some _ => true | None => false end.

(** Capture [n] of a match; [None] is [undefined]. *)
Fixpoint assoc (n : nat) (l : list (nat * str)) : option str :=
  match l with
  | (i, v) :: l' => if Nat.eqb i n then Some v else assoc n l'
  | [] => None
  end.

Definition group (n : nat) (r : MatchResult) : option str := assoc n (groups r).

(** The scan of [replace] with the [g] flag: walk the text once and put
    [by_] in the place of every match; [skip] counts the characters of the
    current match still to be passed over.  After an empty match the scan
    moves on by one character. *)
Fixpoint replace_all_from (p : RegExp) (by_ : str) (pv : option ascii) (s : str)
    (skip : nat) : str :=
  match skip with
  | S n =>
      match s with
      | c :: s' => replace_all_from p by_ (Some c) s' n
      | [] => []
      end
  | 0 =>
      match match_here p pv s with
      | Some st =>
          by_ ++
          match s with
          | c :: s' =>
              match length s - length (rest st) with
              | 0 => c :: replace_all_from p by_ (Some c) s' 0
              | S n => replace_all_from p by_ (Some c) s' n
              end
          | [] => []
          end
      | None =>
          match s with
          | c :: s' => c :: replace_all_from p by_ (Some c) s' 0
          | [] => []
          end
      end
  end.

(** The scan of [match] with the [g] flag: the matched texts, in order. *)
Fixpoint match_all_from (p : RegExp) (pv : option ascii) (s : str) (skip : nat)
    : list str :=
  match skip with
  | S n =>
      match s with
      | c :: s' => match_all_from p (Some c) s' n
      | [] => []
      end
  | 0 =>
      match match_here p pv s with
      | Some st =>
          consumed s (rest st) ::
          match s with
          | c :: s' => match_all_from p (Some c) s' (length s - length (rest st) - 1)
          | [] => []
          end
      | None =>
          match s with
          | c :: s' => match_all_from p (Some c) s' 0
          | [] => []
          end
      end
  end.

(** [s.replace(p, by_)] for a replacement text without [$] patterns: every
    match with the [g] flag, the first one without it. *)
Definition replace (p : RegExp) (by_ : str) (s : str) : str :=
  if global p then replace_all_from p by_ None s 0
  else match exec p s with
       | Some r => before r ++ by_ ++ after r
       | None => s
       end.

(** [s.replace(p, '')] *)
Definition remove (p : RegExp) (s : str) : str := replace p [] s.

(** [s.match(p)] for a pattern with the [g] flag: the matched texts, or
    [None] ([null]) when there is none. *)
Definition match_global (p : RegExp) (s : str) : option (list str) :=
  match match_all_from p None s 0 with
  | [] => None
  | l => Some l
  end.

(** [s.split(p)] for a pattern without capture groups: the pieces between
    the matches.  [cur_rev] is the piece being read, in reverse; a match
    that is empty and stands at the start of the piece does not split. *)
Fixpoint split_from (p : RegExp) (pv : option ascii) (s : str) (cur_rev : str)
    (skip : nat) : list str :=
  match skip with
  | S n =>
      match s with
      | c :: s' => split_from p (Some c) s' cur_rev n
      | [] => [rev cur_rev]
      end
  | 0 =>
      match s with
      | [] => [rev cur_rev]
      | c :: s' =>
          match match_here p pv s with
          | Some st =>
              match length s - length (rest st) with
              | 0 =>
                  if is_empty cur_rev
                  then split_from p (Some c) s' [c] 0
                  else rev cur_rev :: split_from p (Some c) s' [c] 0
              | S n => rev cur_rev :: split_from p (Some c) s' [] n
              end
          | None => split_from p (Some c) s' (c :: cur_rev) 0
          end
      end
  end.

Definition split (p : RegExp) (s : str) : list str :=
  match s with
  | [] => match match_here p None [] with Some _ => [] | None => [[]] end
  | _ => split_from p None s [] 0
  end.

(** ** The patterns of the parser *)

Definition weekday_names : list string :=
  ["monday"; "tuesday"; "wednesday"; "thursday"; "friday"; "saturday"; "sunday"].
Definition weekday_abbrevs : list string :=
  ["mon"; "tue"; "wed"; "thu"; "fri"; "sat"; "sun"].
Definition month_names : list string :=
  ["january"; "february"; "march"; "april"; "may"; "june"; "july"; "august";
   "september"; "october"; "november"; "december"; "jan"; "feb"; "mar"; "apr";
   "may"; "jun"; "jul"; "aug"; "sep"; "oct"; "nov"; "dec"].
Definition unit_names : list string :=
  ["day"; "days"; "week"; "weeks"; "month"; "months"; "hour"; "hours";
   "minute"; "minutes"].
Definition meridiems : list string := ["am"; "pm"; "AM"; "PM"].

(** [(0?[0-9]|1[0-9]|2[0-3])] *)
Definition hour_digits : regex :=
  Alt (Seq (Opt (Chr "0")) (Class [("0", "9")%char]))
      (Alt (Seq (Chr "1") (Class [("0", "9")%char]))
           (Seq (Chr "2") (Class [("0", "3")%char]))).

(** [[\/\-.]] *)
Definition date_sep : regex :=
  Class [("/", "/"); ("-", "-"); (".", ".")]%char.

(** [[a-zA-Z0-9_-]] and [[a-zA-Z0-9_\s,]] *)
Definition hashtag_char : regex :=
  Class [("a", "z"); ("A", "Z"); ("0", "9"); ("_", "_"); ("-", "-")]%char.
Definition taglist_char : regex :=
  Class [("a", "z"); ("A", "Z"); ("0", "9"); ("_", "_");
         ("009", "013"); (" ", " "); ("160", "160"); (",", ",")]%char.

Definition word_re (w : str) (ci : bool) : RegExp :=
  MkRegExp (Cat [WordBoundary; Lit w; WordBoundary]) ci false.

(** [const TIME_PATTERNS] *)
Definition TIME_PATTERNS : list RegExp :=
  [ (* /\b(0?[0-9]|1[0-9]|2[0-3]):([0-5][0-9])\s*(am|pm|AM|PM)?\b/ *)
    MkRegExp
      (Cat [WordBoundary; Group 1 hour_digits; Chr ":";
            Group 2 (Seq (Class [("0", "5")%char]) (Class [("0", "9")%char]));
            Star space; Opt (Group 3 (Words meridiems)); WordBoundary])
      false false;
    (* /\b(morning|afternoon|evening|night|tonight)\b/i *)
    MkRegExp
      (Cat [WordBoundary;
            Group 1 (Words ["morning"; "afternoon"; "evening"; "night"; "tonight"]);
            WordBoundary])
      true false;
    (* /\b(at\s+)?(\d{1,2})(?::(\d{2}))?\s*(am|pm|AM|PM)\b/i *)
    MkRegExp
      (Cat [WordBoundary; Opt (Group 1 (Seq (Lit "at") (Plus space)));
            Group 2 (Rep 1 1 digit);
            Opt (NonCapture (Seq (Chr ":") (Group 3 (Rep 2 0 digit))));
            Star space; Group 4 (Words meridiems); WordBoundary])
      true false ].

(** [const DATE_PATTERNS] *)
Definition DATE_PATTERNS : list RegExp :=
  [ (* /\b(today)\b/i *)
    MkRegExp (Cat [WordBoundary; Group 1 (Lit "today"); WordBoundary]) true false;
    (* /\b(tomorrow)\b/i *)
    MkRegExp (Cat [WordBoundary; Group 1 (Lit "tomorrow"); WordBoundary]) true false;
    (* /\b(tonight)\b/i *)
    MkRegExp (Cat [WordBoundary; Group 1 (Lit "tonight"); WordBoundary]) true false;
    (* /\b(next\s+(monday|...|sunday))\b/i *)
    MkRegExp
      (Cat [WordBoundary;
            Group 1 (Cat [Lit "next"; Plus space; Group 2 (Words weekday_names)]);
            WordBoundary])
      true false;
    (* /\b(mon|tue|wed|thu|fri|sat|sun)\b/i *)
    MkRegExp (Cat [WordBoundary; Group 1 (Words weekday_abbrevs); WordBoundary])
      true false;
    (* /\b(monday|...|sunday)\b/i *)
    MkRegExp (Cat [WordBoundary; Group 1 (Words weekday_names); WordBoundary])
      true false;
    (* /\b(\d{1,2})[\/\-.](\d{1,2})[\/\-.](\d{2,4})\b/ *)
    MkRegExp
      (Cat [WordBoundary; Group 1 (Rep 1 1 digit); date_sep;
            Group 2 (Rep 1 1 digit); date_sep; Group 3 (Rep 2 2 digit);
            WordBoundary])
      false false;
    (* /\b(january|...|dec)\s+(\d{1,2})\b/i *)
    MkRegExp
      (Cat [WordBoundary; Group 1 (Words month_names); Plus space;
            Group 2 (Rep 1 1 digit); WordBoundary])
      true false;
    (* /\b(in\s+)?(\d+)\s+(day|days|...|minutes)\b/i *)
    MkRegExp
      (Cat [WordBoundary; Opt (Group 1 (Seq (Lit "in") (Plus space)));
            Group 2 (Plus digit); Plus space; Group 3 (Words unit_names);
            WordBoundary])
      true false ].

(** The literals of [parseDate]. *)
Definition re_today : RegExp := word_re "today" false.
Definition re_tomorrow : RegExp := word_re "tomorrow" false.
Definition re_nextDay : RegExp :=
  MkRegExp
    (Cat [WordBoundary; Lit "next"; Plus space;
          Group 1 (Words (weekday_names ++ weekday_abbrevs)); WordBoundary])
    true false.
Definition re_day : RegExp :=
  MkRegExp
    (Cat [WordBoundary; Group 1 (Words (weekday_names ++ weekday_abbrevs));
          WordBoundary])
    true false.
Definition re_monthDay : RegExp :=
  MkRegExp
    (Cat [WordBoundary; Group 1 (Words month_names); Plus space;
          Group 2 (Rep 1 1 digit); WordBoundary])
    true false.
Definition re_relative : RegExp :=
  MkRegExp
    (Cat [WordBoundary; Lit "in"; Plus space; Group 1 (Plus digit); Plus space;
          Group 2 (Words unit_names); WordBoundary])
    true false.
Definition re_numeric : RegExp :=
  MkRegExp
    (Cat [WordBoundary; Group 1 (Rep 1 1 digit); date_sep;
          Group 2 (Rep 1 1 digit); date_sep; Group 3 (Rep 2 2 digit);
          WordBoundary])
    false false.

(** The literals of [parseTime]. *)
Definition re_standard : RegExp :=
  (* /\b(0?[0-9]|1[0-9]|2[0-3]):([0-5][0-9])\s*(am|pm)?\b/i *)
  MkRegExp
    (Cat [WordBoundary; Group 1 hour_digits; Chr ":";
          Group 2 (Seq (Class [("0", "5")%char]) (Class [("0", "9")%char]));
          Star space; Opt (Group 3 (Words ["am"; "pm"])); WordBoundary])
    true false.

(** The literals of [extractTags] and [cleanInput]. *)
Definition re_hashtag : RegExp :=
  MkRegExp (Seq (Chr "#") (Group 1 (Plus hashtag_char))) false true.
Definition re_tagList : RegExp :=
  MkRegExp (Cat [Lit "tag:"; Star space; Group 1 (Plus taglist_char)]) true true.
(** [const TAG_PATTERNS] *)
Definition TAG_PATTERNS : list RegExp := [re_hashtag; re_tagList].
Definition re_tagWord : RegExp := MkRegExp (Lit "tag:") true false.
Definition re_separator : RegExp :=
  MkRegExp (Class [(",", ","); (";", ";")]%char) false false.
Definition re_hashtag_strip : RegExp :=
  MkRegExp (Seq (Chr "#") (Plus hashtag_char)) false true.
Definition re_tagList_strip : RegExp :=
  MkRegExp (Cat [Lit "tag:"; Star space; Plus taglist_char]) true true.
Definition re_spaces : RegExp := MkRegExp (Plus space) false true.

(** The literals of [getDateSuggestions]: every letter optional. *)
Definition optional_letters (s : str) : list regex := map (fun c => Opt (Chr c)) s.
Definition re_partial_today : RegExp :=
  MkRegExp (Cat (Bol :: optional_letters "today" ++ [Eol])) true false.
Definition re_partial_tomorrow : RegExp :=
  MkRegExp (Cat (Bol :: optional_letters "tomorrow" ++ [Eol])) true false.
Definition re_partial_nextWeek : RegExp :=
  MkRegExp
    (Cat (Bol :: optional_letters "next" ++ [Opt (Chr "."); Opt space]
                 ++ optional_letters "week" ++ [Eol]))
    true false.

(** ** Dates *)

Module JsDate.
Local Open Scope Z_scope.

Definition msPerSecond : Z := 1000.
Definition msPerMinute : Z := 60000.
Definition msPerHour : Z := 3600000.
Definition msPerDay : Z := 86400000.

(** A [Date] object: a time value in local milliseconds, or the invalid
    date. *)
Inductive Date : Type :=
| DateAt (t : Z)
| InvalidDate.

(** A JavaScript number that is an integer, or NaN ([None]). *)
Definition num : Type := option Z.

Definition lift2 (f : Z -> Z -> Z) (a b : num) : num :=
  match a, b with
  | Some x, Some y => Some (f x y)
  | _, _ => None
  end.
Definition nadd : num -> num -> num := lift2 Z.add.
Definition nsub : num -> num -> num := lift2 Z.sub.
Definition nmul : num -> num -> num := lift2 Z.mul.
(** [%]: the remainder has the sign of the dividend; a zero divisor gives NaN. *)
Definition nrem (a b : num) : num :=
  match a, b with
  | Some x, Some y => if y =? 0 then None else Some (Z.rem x y)
  | _, _ => None
  end.
(** [<] and [===] on numbers: false as soon as one side is NaN. *)
Definition nlt (a b : num) : bool :=
  match a, b with
  | Some x, Some y => x <? y
  | _, _ => false
  end.
Definition neq (a b : num) : bool :=
  match a, b with
  | Some x, Some y => x =? y
  | _, _ => false
  end.

Definition TimeClip (t : Z) : Date :=
  if Z.abs t <=? 8640000000000000 then DateAt t else InvalidDate.

Definition Day (t : Z) : Z := t / msPerDay.
Definition TimeWithinDay (t : Z) : Z := t mod msPerDay.

Definition DayFromYear (y : Z) : Z :=
  365 * (y - 1970) + (y - 1969) / 4 - (y - 1901) / 100 + (y - 1601) / 400.

Definition InLeapYear (y : Z) : bool :=
  (y mod 4 =? 0) && (negb (y mod 100 =? 0) || (y mod 400 =? 0)).

(** The largest year whose first day is not after the day of [t]. *)
Definition YearFromTime (t : Z) : Z :=
  let d := Day t in
  let y := 1970 + (d * 400) / 146097 in
  if DayFromYear (y + 1) <=? d then y + 1
  else if DayFromYear y <=? d then y
  else y - 1.

Definition DayWithinYear (t : Z) : Z := Day t - DayFromYear (YearFromTime t).

(** Days of the year before month [mn] (0 = January). *)
Definition DaysBeforeMonth (mn : Z) (leap : bool) : Z :=
  let l := if leap then 1 else 0 in
  if mn <=? 0 then 0
  else if mn =? 1 then 31
  else if mn =? 2 then 59 + l
  else if mn =? 3 then 90 + l
  else if mn =? 4 then 120 + l
  else if mn =? 5 then 151 + l
  else if mn =? 6 then 181 + l
  else if mn =? 7 then 212 + l
  else if mn =? 8 then 243 + l
  else if mn =? 9 then 273 + l
  else if mn =? 10 then 304 + l
  else 334 + l.

Definition MonthFromTime (t : Z) : Z :=
  let d := DayWithinYear t in
  let leap := InLeapYear (YearFromTime t) in
  if d <? DaysBeforeMonth 1 leap then 0
  else if d <? DaysBeforeMonth 2 leap then 1
  else if d <? DaysBeforeMonth 3 leap then 2
  else if d <? DaysBeforeMonth 4 leap then 3
  else if d <? DaysBeforeMonth 5 leap then 4
  else if d <? DaysBeforeMonth 6 leap then 5
  else if d <? DaysBeforeMonth 7 leap then 6
  else if d <? DaysBeforeMonth 8 leap then 7
  else if d <? DaysBeforeMonth 9 leap then 8
  else if d <? DaysBeforeMonth 10 leap then 9
  else if d <? DaysBeforeMonth 11 leap then 10
  else 11.

Definition DateFromTime (t : Z) : Z :=
  DayWithinYear t
  - DaysBeforeMonth (MonthFromTime t) (InLeapYear (YearFromTime t)) + 1.

(** 1 January 1970 was a Thursday; 0 is Sunday. *)
Definition WeekDay (t : Z) : Z := (Day t + 4) mod 7.

Definition HourFromTime (t : Z) : Z := (t / msPerHour) mod 24.
Definition MinFromTime (t : Z) : Z := (t / msPerMinute) mod 60.
Definition SecFromTime (t : Z) : Z := (t / msPerSecond) mod 60.
Definition msFromTime (t : Z) : Z := t mod msPerSecond.

Definition MakeTime (h mi s ms : Z) : Z :=
  h * msPerHour + mi * msPerMinute + s * msPerSecond + ms.

Definition MakeDay (year month date : Z) : Z :=
  let ym := year + month / 12 in
  let mn := month mod 12 in
  DayFromYear ym + DaysBeforeMonth mn (InLeapYear ym) + date - 1.

Definition MakeDate (day time : Z) : Z := day * msPerDay + time.

(** [new Date(year, month, day)]: a year from 0 to 99 stands for 1900 + year. *)
Definition newDate (year month day : num) : Date :=
  match year, month, day with
  | Some y, Some mo, Some dt =>
      let yr := if (0 <=? y) && (y <=? 99) then 1900 + y else y in
      TimeClip (MakeDate (MakeDay yr mo dt) (MakeTime 0 0 0 0))
  | _, _, _ => InvalidDate
  end.

Definition getTime (d : Date) : num :=
  match d with DateAt t => Some t | InvalidDate => None end.
Definition getFullYear (d : Date) : num := option_map YearFromTime (getTime d).
Definition getMonth (d : Date) : num := option_map MonthFromTime (getTime d).
Definition getDate (d : Date) : num := option_map DateFromTime (getTime d).
Definition getDay (d : Date) : num := option_map WeekDay (getTime d).
Definition getHours (d : Date) : num := option_map HourFromTime (getTime d).
Definition getMinutes (d : Date) : num := option_map MinFromTime (getTime d).
Definition getSeconds (d : Date) : num := option_map SecFromTime (getTime d).
Definition getMilliseconds (d : Date) : num := option_map msFromTime (getTime d).

Definition setDate (d : Date) (dt : num) : Date :=
  match d, dt with
  | DateAt t, Some dt =>
      TimeClip (MakeDate (MakeDay (YearFromTime t) (MonthFromTime t) dt)
                         (TimeWithinDay t))
  | _, _ => InvalidDate
  end.

Definition setMonth (d : Date) (mo : num) : Date :=
  match d, mo with
  | DateAt t, Some mo =>
      TimeClip (MakeDate (MakeDay (YearFromTime t) mo (DateFromTime t))
                         (TimeWithinDay t))
  | _, _ => InvalidDate
  end.

(** [setFullYear] starts from time value 0 when the date is invalid. *)
Definition setFullYear (d : Date) (y : num) : Date :=
  let t := match d with DateAt t => t | InvalidDate => 0 end in
  match y with
  | Some y =>
      TimeClip (MakeDate (MakeDay y (MonthFromTime t) (DateFromTime t))
                         (TimeWithinDay t))
  | None => InvalidDate
  end.

(** [setHours(h)] *)
Definition setHours (d : Date) (h : num) : Date :=
  match d, h with
  | DateAt t, Some h =>
      TimeClip (MakeDate (Day t)
                  (MakeTime h (MinFromTime t) (SecFromTime t) (msFromTime t)))
  | _, _ => InvalidDate
  end.

(** [setHours(h, m, s, ms)] *)
Definition setHours4 (d : Date) (h mi s ms : Z) : Date :=
  match d with
  | DateAt t => TimeClip (MakeDate (Day t) (MakeTime h mi s ms))
  | InvalidDate => InvalidDate
  end.

(** [setMinutes(m)] *)
Definition setMinutes (d : Date) (mi : num) : Date :=
  match d, mi with
  | DateAt t, Some mi =>
      TimeClip (MakeDate (Day t)
                  (MakeTime (HourFromTime t) mi (SecFromTime t) (msFromTime t)))
  | _, _ => InvalidDate
  end.

(** [a < b] on dates compares time values. *)
Definition date_lt (a b : Date) : bool := nlt (getTime a) (getTime b).

End JsDate.
Export JsDate.

(** [parseInt(s, 10)]: leading white space, an optional sign, then
    digits; NaN when no digit follows. *)
Fixpoint digits_value (acc : Z) (s : str) : Z :=
  match s with
  | c :: s' =>
      if is_digit c
      then digits_value (10 * acc + Z.of_N (code c - 48)) s'
      else acc
  | [] => acc
  end.

Definition starts_with_digit (s : str) : bool :=
  match s with c :: _ => is_digit c | [] => false end.

Definition parseInt (s : str) : num :=
  let s := trimStart s in
  let '(sign, s) :=
    match s with
    | "-"%char :: s' => ((-1)%Z, s')
    | "+"%char :: s' => (1%Z, s')
    | _ => (1%Z, s)
    end in
  if starts_with_digit s then Some (sign * digits_value 0 s)%Z else None.

(** [String(n)] for an integer. *)
Definition String_of (n : Z) : str :=
  NilZero.string_of_int (Z.to_int n).

(** [s.padStart(2, '0')] *)
Definition padStart2 (s : str) : str :=
  match s with
  | [] => "00"
  | [c] => "0"%char :: [c]
  | _ => s
  end.

Definition startsWith (s prefix : str) : bool :=
  str_eqb (firstn (length prefix) s) prefix.

(** A capture that took part in the match; the empty text otherwise. *)
Definition capture (n : nat) (r : MatchResult) : str :=
  match group n r with Some s => s | None => [] end.

(** ** The parser *)

Record ParsedTask : Type := MkParsedTask {
  title : str;
  date : option Date;
  time : option str;
  tags : list str;
  rawInput : str
}.

(** [const DAYS_OF_WEEK]; [None] is [undefined]. *)
Definition DAYS_OF_WEEK (name : str) : num :=
  let key (w : string) := str_eqb name w in
  if key "monday" then Some 1%Z
  else if key "tuesday" then Some 2%Z
  else if key "wednesday" then Some 3%Z
  else if key "thursday" then Some 4%Z
  else if key "friday" then Some 5%Z
  else if key "saturday" then Some 6%Z
  else if key "sunday" then Some 0%Z
  else if key "mon" then Some 1%Z
  else if key "tue" then Some 2%Z
  else if key "wed" then Some 3%Z
  else if key "thu" then Some 4%Z
  else if key "fri" then Some 5%Z
  else if key "sat" then Some 6%Z
  else if key "sun" then Some 0%Z
  else None.

(** [const MONTHS] *)
Definition MONTHS (name : str) : num :=
  let key (w : string) := str_eqb name w in
  if key "january" then Some 0%Z
  else if key "february" then Some 1%Z
  else if key "march" then Some 2%Z
  else if key "april" then Some 3%Z
  else if key "may" then Some 4%Z
  else if key "june" then Some 5%Z
  else if key "july" then Some 6%Z
  else if key "august" then Some 7%Z
  else if key "september" then Some 8%Z
  else if key "october" then Some 9%Z
  else if key "november" then Some 10%Z
  else if key "december" then Some 11%Z
  else if key "jan" then Some 0%Z
  else if key "feb" then Some 1%Z
  else if key "mar" then Some 2%Z
  else if key "apr" then Some 3%Z
  else if key "jun" then Some 5%Z
  else if key "jul" then Some 6%Z
  else if key "aug" then Some 7%Z
  else if key "sep" then Some 8%Z
  else if key "oct" then Some 9%Z
  else if key "nov" then Some 10%Z
  else if key "dec" then Some 11%Z
  else None.

(** The seven rules of [parseDate], each as the source resolves it once its
    pattern has matched. *)

Definition resolve_today (now : Z) : Date :=
  let date := DateAt now in
  setHours4 date 0 0 0 0.

Definition resolve_tomorrow (now : Z) : Date :=
  let date := DateAt now in
  let date := setDate date (nadd (getDate date) (Some 1%Z)) in
  setHours4 date 0 0 0 0.

Definition resolve_nextDay (nextDayMatch : MatchResult) (now : Z) : Date :=
  let dayName := toLowerCase (capture 1 nextDayMatch) in
  let targetDay := DAYS_OF_WEEK dayName in
  let today := DateAt now in
  let currentDay := getDay today in
  let daysUntil := nrem (nadd (nsub targetDay currentDay) (Some 7%Z)) (Some 7%Z) in
  let daysUntil := if neq daysUntil (Some 0%Z) then Some 7%Z else daysUntil in
  let date := today in
  let date := setDate date (nadd (getDate date) daysUntil) in
  setHours4 date 0 0 0 0.

Definition resolve_day (dayMatch : MatchResult) (now : Z) : Date :=
  let dayName := toLowerCase (capture 1 dayMatch) in
  let targetDay := DAYS_OF_WEEK dayName in
  let today := DateAt now in
  let currentDay := getDay today in
  let daysUntil := nrem (nadd (nsub targetDay currentDay) (Some 7%Z)) (Some 7%Z) in
  let daysUntil :=
    if nlt daysUntil (Some 0%Z) then nadd daysUntil (Some 7%Z) else daysUntil in
  let date := today in
  let date := setDate date (nadd (getDate date) daysUntil) in
  setHours4 date 0 0 0 0.

Definition resolve_monthDay (monthDayMatch : MatchResult) (now : Z) : Date :=
  let monthName := toLowerCase (capture 1 monthDayMatch) in
  let day := parseInt (capture 2 monthDayMatch) in
  let month := MONTHS monthName in
  let year := getFullYear (DateAt now) in
  let date := newDate year month day in
  let date :=
    if date_lt date (DateAt now)
    then setFullYear date (nadd year (Some 1%Z)) else date in
  setHours4 date 0 0 0 0.

Definition resolve_relative (relativeMatch : MatchResult) (now : Z) : Date :=
  let amount := parseInt (capture 1 relativeMatch) in
  let unit_ := toLowerCase (capture 2 relativeMatch) in
  let date := DateAt now in
  let date :=
    if startsWith unit_ "day" then
      setDate date (nadd (getDate date) amount)
    else if startsWith unit_ "week" then
      setDate date (nadd (getDate date) (nmul amount (Some 7%Z)))
    else if startsWith unit_ "month" then
      setMonth date (nadd (getMonth date) amount)
    else if startsWith unit_ "hour" then
      setHours date (nadd (getHours date) amount)
    else if startsWith unit_ "minute" then
      setMinutes date (nadd (getMinutes date) amount)
    else date in
  setHours4 date 0 0 0 0.

Definition resolve_numeric (numericMatch : MatchResult) (now : Z) : Date :=
  let month := nsub (parseInt (capture 1 numericMatch)) (Some 1%Z) in
  let day := parseInt (capture 2 numericMatch) in
  let year := parseInt (capture 3 numericMatch) in
  let year :=
    if nlt year (Some 100%Z)
    then nadd year (if nlt year (Some 50%Z) then Some 2000%Z else Some 1900%Z)
    else year in
  let date := newDate year month day in
  setHours4 date 0 0 0 0.

(** [function parseDate(input)]; [None] is [null]. *)
Definition parseDate (input : str) (now : Z) : option Date :=
  let lowerInput := toLowerCase input in
  if test re_today lowerInput then Some (resolve_today now)
  else if test re_tomorrow lowerInput then Some (resolve_tomorrow now)
  else
    match exec re_nextDay lowerInput with
    | Some nextDayMatch => Some (resolve_nextDay nextDayMatch now)
    | None =>
    match exec re_day lowerInput with
    | Some dayMatch => Some (resolve_day dayMatch now)
    | None =>
    match exec re_monthDay lowerInput with
    | Some monthDayMatch => Some (resolve_monthDay monthDayMatch now)
    | None =>
    match exec re_relative lowerInput with
    | Some relativeMatch => Some (resolve_relative relativeMatch now)
    | None =>
    match exec re_numeric lowerInput with
    | Some numericMatch => Some (resolve_numeric numericMatch now)
    | None => None
    end end end end end.

(** [function parseTime(input)] *)
Definition parseTime (input : str) : option str :=
  let lowerInput := toLowerCase input in
  match exec re_standard lowerInput with
  | Some standardMatch =>
      let hours := parseInt (capture 1 standardMatch) in
      let minutes := capture 2 standardMatch in
      let hours :=
        match group 3 standardMatch with
        | Some period =>
            let hours :=
              if str_eqb (toLowerCase period) "pm" && negb (neq hours (Some 12%Z))
              then nadd hours (Some 12%Z) else hours in
            if str_eqb (toLowerCase period) "am" && neq hours (Some 12%Z)
            then Some 0%Z else hours
        | None => hours
        end in
      let shown := match hours with Some h => String_of h | None => "NaN" : str end in
      Some (padStart2 shown ++ ":" ++ minutes)
  | None =>
      if test (word_re "morning" true) lowerInput then Some ("09:00" : str)
      else if test (word_re "afternoon" true) lowerInput then Some ("14:00" : str)
      else if test (word_re "evening" true) lowerInput then Some ("18:00" : str)
      else if test (word_re "night" true) lowerInput then Some ("21:00" : str)
      else if test (word_re "tonight" true) lowerInput then Some ("20:00" : str)
      else None
  end.

(** [Set.prototype.add] on a set kept in insertion order. *)
Definition set_add (x : str) (s : list str) : list str :=
  if existsb (str_eqb x) s then s else s ++ [x].

Definition add_if_nonempty (s : list str) (tag : str) : list str :=
  if is_empty tag then s else set_add tag s.

(** [function extractTags(input)] *)
Definition extractTags (input : str) : list str :=
  let tags : list str := [] in
  let tags :=
    match match_global re_hashtag input with
    | Some hashtagMatches =>
        fold_left
          (fun tags mt => add_if_nonempty tags (toLowerCase (skipn 1 mt)))
          hashtagMatches tags
    | None => tags
    end in
  let tags :=
    match match_global re_tagList input with
    | Some tagMatch =>
        fold_left
          (fun tags mt =>
             let tagPart := trim (remove re_tagWord mt) in
             let tagList :=
               map (fun t => toLowerCase (trim t)) (split re_separator tagPart) in
             fold_left add_if_nonempty tagList tags)
          tagMatch tags
    | None => tags
    end in
  tags.

(** [function cleanInput(input, tags)]: [cleaned_text] is the value of
    [cleaned] when the function returns [cleaned || 'New Task']. *)
Definition cleaned_text (input : str) : str :=
  let cleaned := input in
  let cleaned := remove re_hashtag_strip cleaned in
  let cleaned := remove re_tagList_strip cleaned in
  let cleaned := fold_left (fun cleaned pattern => remove pattern cleaned)
                           DATE_PATTERNS cleaned in
  let cleaned := fold_left (fun cleaned pattern => remove pattern cleaned)
                           TIME_PATTERNS cleaned in
  trim (replace re_spaces " " (trim cleaned)).

Definition cleanInput (input : str) (tags : list str) : str :=
  let cleaned := cleaned_text input in
  if is_empty cleaned then "New Task" : str else cleaned.

(** [function parseTaskInput(input)] *)
Definition parseTaskInput (input : str) (now : Z) : ParsedTask :=
  let tags := extractTags input in
  let date := parseDate input now in
  let time := parseTime input in
  let title := cleanInput input tags in
  MkParsedTask title date time tags input.

(** ** Suggestions *)

Module Suggestion.
Record t : Type := Mk {
  text : str;
  date : Date;
  icon : string
}.
End Suggestion.

(** The icon of every date suggestion. *)
Definition calendar_icon : string := "📅".

Definition some_date (d : Date) (l : list Suggestion.t) : bool :=
  existsb (fun s => neq (getTime (Suggestion.date s)) (getTime d)) l.

(** [function getDateSuggestions(input)] *)
Definition getDateSuggestions (input : str) (now : Z) : list Suggestion.t :=
  let suggestions : list Suggestion.t := [] in
  let suggestions :=
    if test re_partial_today (trim input) then
      let today := setHours4 (DateAt now) 0 0 0 0 in
      suggestions ++ [Suggestion.Mk "Today" today calendar_icon]
    else suggestions in
  let suggestions :=
    if test re_partial_tomorrow (trim input) then
      let tomorrow := DateAt now in
      let tomorrow := setDate tomorrow (nadd (getDate tomorrow) (Some 1%Z)) in
      let tomorrow := setHours4 tomorrow 0 0 0 0 in
      suggestions ++ [Suggestion.Mk "Tomorrow" tomorrow calendar_icon]
    else suggestions in
  let suggestions :=
    if test re_partial_nextWeek (trim input) then
      let nextWeek := DateAt now in
      let nextWeek := setDate nextWeek (nadd (getDate nextWeek) (Some 7%Z)) in
      let nextWeek := setHours4 nextWeek 0 0 0 0 in
      suggestions ++ [Suggestion.Mk "Next Week" nextWeek calendar_icon]
    else suggestions in
  if (0 <? length input)%nat then
    let today := setHours4 (DateAt now) 0 0 0 0 in
    let tomorrow := today in
    let tomorrow := setDate tomorrow (nadd (getDate tomorrow) (Some 1%Z)) in
    let suggestions :=
      if negb (some_date today suggestions)
      then suggestions ++ [Suggestion.Mk "Today" today calendar_icon]
      else suggestions in
    let suggestions :=
      if negb (some_date tomorrow suggestions)
      then suggestions ++ [Suggestion.Mk "Tomorrow" tomorrow calendar_icon]
      else suggestions in
    suggestions
  else suggestions.

(** ** Display *)

(** What a call gives back: a value, or the [RangeError] it throws. *)
Inductive Outcome (A : Type) : Type :=
| Returned (a : A)
| RangeError.
Arguments Returned {A} a.
Arguments RangeError {A}.

Section Display.

(** [new Intl.DateTimeFormat('en-US', {weekday: 'short', month: 'short',
    day: 'numeric'}).format] on a date with a time value; the platform
    library is not part of the repository.  On an invalid date [format]
    throws a [RangeError]. *)
Variable intlFormat : Z -> str.

(** [function formatDateForDisplay(date)] *)
Definition formatDateForDisplay (date : Date) (now : Z) : Outcome str :=
  let today := DateAt now in
  let today := setHours4 today 0 0 0 0 in
  let tomorrow := today in
  let tomorrow := setDate tomorrow (nadd (getDate tomorrow) (Some 1%Z)) in
  let targetDate := date in
  let targetDate := setHours4 targetDate 0 0 0 0 in
  if neq (getTime targetDate) (getTime today) then Returned ("Today" : str)
  else if neq (getTime targetDate) (getTime tomorrow) then Returned ("Tomorrow" : str)
  else match date with
       | DateAt t => Returned (intlFormat t)
       | InvalidDate => RangeError
       end.

End Display.

(** ** The constant suggestions *)

Module TimeSuggestion.
Record t : Type := Mk {
  text : str;
  time : str;
  icon : string
}.
End TimeSuggestion.

Module TagSuggestion.
Record t : Type := Mk {
  text : str;
  icon : string
}.
End TagSuggestion.

(** [function getTimeSuggestions(input)] *)
Definition getTimeSuggestions (input : str) : list TimeSuggestion.t :=
  [ TimeSuggestion.Mk "Morning" "09:00" "🌅";
    TimeSuggestion.Mk "Afternoon" "14:00" "🌤️";
    TimeSuggestion.Mk "Evening" "18:00" "🌆";
    TimeSuggestion.Mk "Night" "21:00" "🌙" ].

(** [function getCommonTags()] *)
Definition getCommonTags : list TagSuggestion.t :=
  [ TagSuggestion.Mk "work" "💼";
    TagSuggestion.Mk "personal" "👤";
    TagSuggestion.Mk "shopping" "🛒";
    TagSuggestion.Mk "health" "💪";
    TagSuggestion.Mk "learning" "📚";
    TagSuggestion.Mk "bug" "🐛";
    TagSuggestion.Mk "feature" "⭐";
    TagSuggestion.Mk "urgent" "⚡" ].

(** ** Clock texts *)

Definition strs_of (l : list string) : list str := map list_ascii_of_string l.

(** The am/pm marker of a clock text, the ways it is written after the
    minutes, and the hour on the 24-hour clock as [parseTime] computes
    it. *)
Inductive Meridiem : Type := NoMeridiem | AM | PM.

Definition meridiem_texts (mer : Meridiem) : list str :=
  match mer with
  | NoMeridiem => [[]]
  | AM => strs_of ["am"; "AM"; " am"]
  | PM => strs_of ["pm"; "PM"; " pm"]
  end.

Definition two_digits (n : nat) : str := padStart2 (String_of (Z.of_nat n)).

(** The hour, written with or without a leading zero when it is below
    10. *)
Definition hour_texts (h : nat) : list str :=
  if (h <? 10)%nat then [String_of (Z.of_nat h); two_digits h]
  else [String_of (Z.of_nat h)].

Definition hour24 (h : nat) (mer : Meridiem) : nat :=
  match mer with
  | NoMeridiem => h
  | AM => if (h =? 12)%nat then 0%nat else h
  | PM => if (h =? 12)%nat then 12%nat else (h + 12)%nat
  end.

(** ** The patterns of the title clean-up, in the order it applies them *)

Definition strip_patterns : list RegExp :=
  re_hashtag_strip :: re_tagList_strip :: DATE_PATTERNS ++ TIME_PATTERNS.

(** ** White space in a text *)

(** Every white-space character of [s] is a space that does not follow
    another white-space character; [prev_space] tells whether the
    character before [s] is one. *)
Fixpoint spaces_single (prev_space : bool) (s : str) : bool :=
  match s with
  | [] => true
  | c :: s' =>
      if is_space c
      then negb prev_space && Ascii.eqb c " " && spaces_single true s'
      else spaces_single false s'
  end.

(** The text does not start with white space. *)
Definition no_space_first (s : str) : Prop :=
  match s with
  | c :: _ => is_space c = false
  | [] => True
  end.

(** A text with no white space at its ends and single spaces inside. *)
Definition single_spaced (s : str) : Prop :=
  no_space_first s /\ no_space_first (rev s) /\ spaces_single false s = true.

(** Every run of white space turned into one space; [in_run] tells
    whether the text starts inside a run already replaced. *)
Fixpoint collapse (in_run : bool) (s : str) : str :=
  match s with
  | [] => []
  | c :: s' =>
      if is_space c
      then (if in_run then collapse true s' else " "%char :: collapse true s')
      else c :: collapse false s'
  end.

(** The number of white-space characters [s] starts with. *)
Fixpoint leading_spaces (s : str) : nat :=
  match s with
  | c :: s' => if is_space c then S (leading_spaces s') else 0
  | [] => 0
  end.

(** ** Month and day as a text *)

(** A month name followed by a day of the month, as one types it. *)
Definition month_day_text (name : string) (d : nat) : str :=
  name ++ (" " : str) ++ String_of (Z.of_nat d).

(** ** The task store ([hooks/use-tasks.ts])

    The hook keeps two lists in React state; every operation is modelled
    by the function it passes to the state setter, or by the filter it
    runs on the current list.  The random task id and the clock are
    parameters. *)

Inductive Priority : Type := low | medium | high.
Inductive Recurrence : Type := none | daily | weekly | monthly.

(** [interface Task extends ParsedTask]; an optional field that is absent
    is [None]. *)
Module Task.
Record t : Type := Mk {
  title : str;
  date : option Date;
  time : option str;
  tags : list str;
  rawInput : str;
  id : str;
  createdAt : Date;
  completedAt : option Date;
  completed : bool;
  description : option str;
  priority : option Priority;
  recurrence : option Recurrence;
  listId : option str
}.
End Task.

(** [interface TaskList] *)
Module TaskList.
Record t : Type := Mk {
  id : str;
  name : str;
  color : option str;
  createdAt : Date
}.
End TaskList.

(** [Partial<Task>]: [Some v] for a key that is present.  A key of an
    optional field can be present with the value [undefined]. *)
Module TaskUpdates.
Record t : Type := Mk {
  title : option str;
  date : option (option Date);
  time : option (option str);
  tags : option (list str);
  rawInput : option str;
  id : option str;
  createdAt : option Date;
  completedAt : option (option Date);
  completed : option bool;
  description : option (option str);
  priority : option (option Priority);
  recurrence : option (option Recurrence);
  listId : option (option str)
}.
Definition empty : t :=
  Mk None None None None None None None None None None None None None.
End TaskUpdates.

Definition or_keep {A : Type} (update : option A) (old : A) : A :=
  match update with Some v => v | None => old end.

(** [{ ...task, ...updates }] *)
Definition apply_updates (task : Task.t) (u : TaskUpdates.t) : Task.t :=
  Task.Mk
    (or_keep (TaskUpdates.title u) (Task.title task))
    (or_keep (TaskUpdates.date u) (Task.date task))
    (or_keep (TaskUpdates.time u) (Task.time task))
    (or_keep (TaskUpdates.tags u) (Task.tags task))
    (or_keep (TaskUpdates.rawInput u) (Task.rawInput task))
    (or_keep (TaskUpdates.id u) (Task.id task))
    (or_keep (TaskUpdates.createdAt u) (Task.createdAt task))
    (or_keep (TaskUpdates.completedAt u) (Task.completedAt task))
    (or_keep (TaskUpdates.completed u) (Task.completed task))
    (or_keep (TaskUpdates.description u) (Task.description task))
    (or_keep (TaskUpdates.priority u) (Task.priority task))
    (or_keep (TaskUpdates.recurrence u) (Task.recurrence task))
    (or_keep (TaskUpdates.listId u) (Task.listId task)).

(** [addTask(parsed)]: the new task, put in front. *)
Definition new_task (parsed : ParsedTask) (id : str) (now : Z) : Task.t :=
  Task.Mk (title parsed) (date parsed) (time parsed) (tags parsed)
    (rawInput parsed) id (DateAt now) None false None None None None.

Definition addTask (parsed : ParsedTask) (id : str) (now : Z)
    (tasks : list Task.t) : list Task.t :=
  new_task parsed id now :: tasks.

(** [updateTask(id, updates)] *)
Definition updateTask (id : str) (updates : TaskUpdates.t)
    (tasks : list Task.t) : list Task.t :=
  map (fun task => if str_eqb (Task.id task) id then apply_updates task updates
                   else task) tasks.

(** [deleteTask(id)] *)
Definition deleteTask (id : str) (tasks : list Task.t) : list Task.t :=
  filter (fun task => negb (str_eqb (Task.id task) id)) tasks.

(** [toggleTask(id)] *)
Definition toggleTask (id : str) (now : Z) (tasks : list Task.t) : list Task.t :=
  map (fun task =>
         if str_eqb (Task.id task) id
         then apply_updates task
                (TaskUpdates.Mk None None None None None None None
                   (Some (if negb (Task.completed task) then Some (DateAt now)
                          else None))
                   (Some (negb (Task.completed task)))
                   None None None None)
         else task) tasks.

(** [>=] on numbers: false as soon as one side is NaN. *)
Definition nge (a b : num) : bool :=
  match a, b with
  | Some x, Some y => (y <=? x)%Z
  | _, _ => false
  end.

(** [getTodaysTasks()] *)
Definition getTodaysTasks (tasks : list Task.t) (now : Z) : list Task.t :=
  let today := setHours4 (DateAt now) 0 0 0 0 in
  let tomorrow := setDate today (nadd (getDate today) (Some 1%Z)) in
  filter (fun task =>
            match Task.date task with
            | None => false
            | Some taskDate =>
                nge (getTime taskDate) (getTime today)
                && nlt (getTime taskDate) (getTime tomorrow)
            end) tasks.

(** [getOverdueTasks()] *)
Definition getOverdueTasks (tasks : list Task.t) (now : Z) : list Task.t :=
  let now_ := setHours4 (DateAt now) 0 0 0 0 in
  filter (fun task =>
            match Task.date task with
            | None => false
            | Some taskDate =>
                if Task.completed task then false
                else nlt (getTime taskDate) (getTime now_)
            end) tasks.

(** [getUpcomingTasks()] *)
Definition getUpcomingTasks (tasks : list Task.t) (now : Z) : list Task.t :=
  let now_ := setHours4 (DateAt now) 0 0 0 0 in
  filter (fun task =>
            match Task.date task with
            | None => false
            | Some taskDate =>
                if Task.completed task then false
                else nge (getTime taskDate) (getTime now_)
            end) tasks.

(** [array.includes(x)] on strings *)
Definition includes (l : list str) (x : str) : bool := existsb (str_eqb x) l.

(** [getTasksByTag(tag)] *)
Definition getTasksByTag (tag : str) (tasks : list Task.t) : list Task.t :=
  filter (fun task => includes (Task.tags task) tag) tasks.

(** The order of [Array.prototype.sort] without a comparator: by code
    units, a proper prefix first. *)
Fixpoint str_ltb (a b : str) : bool :=
  match a, b with
  | _, [] => false
  | [], _ :: _ => true
  | x :: a', y :: b' =>
      if (code x <? code y)%N then true
      else if (code y <? code x)%N then false
      else str_ltb a' b'
  end.

Fixpoint insert_sorted (x : str) (l : list str) : list str :=
  match l with
  | [] => [x]
  | y :: l' => if str_ltb x y then x :: l else y :: insert_sorted x l'
  end.

Definition sort (l : list str) : list str := fold_right insert_sorted [] l.

(** [getAllTags()] *)
Definition getAllTags (tasks : list Task.t) : list str :=
  let tags :=
    fold_left (fun tags task => fold_left (fun tags tag => set_add tag tags)
                                          (Task.tags task) tags)
              tasks [] in
  sort tags.

(** A string or [undefined] read as a condition. *)
Definition truthy (s : option str) : bool :=
  match s with
  | Some (_ :: _) => true
  | _ => false
  end.

(** [getInboxTasks()] *)
Definition getInboxTasks (tasks : list Task.t) : list Task.t :=
  filter (fun task => negb (truthy (Task.listId task))) tasks.

(** [task.listId === listId] *)
Definition in_list (listId : str) (task : Task.t) : bool :=
  match Task.listId task with
  | Some l => str_eqb l listId
  | None => false
  end.

(** [getTasksByList(listId)] *)
Definition getTasksByList (listId : str) (tasks : list Task.t) : list Task.t :=
  filter (in_list listId) tasks.

(** [moveTaskToList(taskId, listId)]; [None] is [null]. *)
Definition moveTaskToList (taskId : str) (listId : option str)
    (tasks : list Task.t) : list Task.t :=
  updateTask taskId
    (TaskUpdates.Mk None None None None None None None None None None None None
       (Some (if truthy listId then listId else None)))
    tasks.

(** [createList(name, color)] *)
Definition createList (name : str) (color : option str) (id : str) (now : Z)
    (lists : list TaskList.t) : list TaskList.t :=
  TaskList.Mk id name color (DateAt now) :: lists.

(** [deleteList(id)]: the lists and the tasks afterwards. *)
Definition deleteList (id : str) (lists : list TaskList.t) (tasks : list Task.t)
    : list TaskList.t * list Task.t :=
  (filter (fun l => negb (str_eqb (TaskList.id l) id)) lists,
   map (fun task =>
          if in_list id task
          then apply_updates task
                 (TaskUpdates.Mk None None None None None None None None None
                    None None None (Some None))
          else task) tasks).

(** ** Editing the tags of a task *)

(** [handleAddTag] of the task detail dialog: the tags after the text
    typed is added. *)
Definition handleAddTag (tagInput : str) (tags : list str) : list str :=
  if negb (is_empty (trim tagInput))
     && negb (includes tags (toLowerCase (trim tagInput)))
  then tags ++ [toLowerCase (trim tagInput)]
  else tags.

(** [handleRemoveTag] of the task detail dialog, [handleTagRemove] of
    the quick-add form. *)
Definition handleRemoveTag (tagToRemove : str) (tags : list str) : list str :=
  filter (fun t => negb (str_eqb t tagToRemove)) tags.

(** [handleTagSelect] of the quick-add form. *)
Definition handleTagSelect (tag : str) (selectedTags : list str) : list str :=
  if negb (includes selectedTags tag) then selectedTags ++ [tag]
  else selectedTags.

(** ** Hashtags in a text *)

(** A character a hashtag can be made of: [[a-zA-Z0-9_-]]. *)
Definition tag_char (c : ascii) : bool :=
  class_match false
    [("a", "z"); ("A", "Z"); ("0", "9"); ("_", "_"); ("-", "-")]%char c.

(** The number of characters at the start of [s] that satisfy [p]. *)
Fixpoint leading (p : ascii -> bool) (s : str) : nat :=
  match s with
  | c :: s' => if p c then S (leading p s') else 0
  | [] => 0
  end.

(** [w] stands in the text as a hashtag: after a [#], and as far as the
    characters of a hashtag reach. *)
Definition hashtag_in (w input : str) : Prop :=
  exists pre post,
    input = pre ++ "#"%char :: w ++ post /\
    w <> [] /\ forallb tag_char w = true /\
    match post with c :: _ => tag_char c = false | [] => True end.

(** ** Relative amounts as a text *)

(** The units of the relative rule that move the clock by a fixed number
    of milliseconds, with that number. *)
Definition relative_units : list (string * Z) :=
  [ ("day", msPerDay); ("days", msPerDay);
    ("week", 7 * msPerDay); ("weeks", 7 * msPerDay);
    ("hour", msPerHour); ("hours", msPerHour);
    ("minute", msPerMinute); ("minutes", msPerMinute) ]%Z.

(** "in N unit", as one types it. *)
Definition relative_text (n : nat) (u : string) : str :=
  ("in " : str) ++ String_of (Z.of_nat n) ++ (" " : str) ++ u.

(** ** Dates in a time zone

    The functions above count the time value on the local clock of a zone
    whose offset never changes.  The functions of this section keep the
    time value in UTC, as the platform does, and go through [LocalTime] and
    [UTC] of an explicit zone wherever the source reads or sets a local
    field (ECMAScript, Date objects: [LocalTime(t) = t + LocalTZA(t, true)],
    [UTC(t) = t - LocalTZA(t, false)]).  At offset zero they are the
    functions above. *)

Section InZone.
Local Open Scope Z_scope.

(** A time zone: the offset of local time from UTC in milliseconds, asked
    either at a UTC time value ([true]) or at a local one ([false]). *)
Record Zone : Type := MkZone {
  LocalTZA : Z -> bool -> Z
}.

Definition LocalTime (z : Zone) (t : Z) : Z := t + LocalTZA z t true.
Definition UTC (z : Zone) (t : Z) : Z := t - LocalTZA z t false.

(** A zone whose offset is [c] throughout. *)
Definition fixed_offset (c : Z) : Zone := MkZone (fun _ _ => c).

(** A zone whose clocks are moved once, at the UTC instant [T], from the
    offset [before] to the offset [after].  A local time that the move
    skips or repeats is read with the offset before the move. *)
Definition one_transition (T before after : Z) : Zone :=
  MkZone (fun t isUTC =>
            if isUTC then (if t <? T then before else after)
            else (if t <? T + Z.max before after then before else after)).

(** Africa/Cairo around 24 April 2026: at 00:00 local time (22:00 UTC of
    23 April) the clocks went from UTC+2 to UTC+3. *)
Definition cairo_april_2026 : Zone :=
  one_transition 1776981600000 (2 * msPerHour) (3 * msPerHour).

Definition local_field (z : Zone) (f : Z -> Z) (d : Date) : num :=
  option_map (fun t => f (LocalTime z t)) (getTime d).

Definition getFullYear_in (z : Zone) : Date -> num := local_field z YearFromTime.
Definition getMonth_in (z : Zone) : Date -> num := local_field z MonthFromTime.
Definition getDate_in (z : Zone) : Date -> num := local_field z DateFromTime.
Definition getDay_in (z : Zone) : Date -> num := local_field z WeekDay.
Definition getHours_in (z : Zone) : Date -> num := local_field z HourFromTime.
Definition getMinutes_in (z : Zone) : Date -> num := local_field z MinFromTime.
Definition getSeconds_in (z : Zone) : Date -> num := local_field z SecFromTime.
Definition getMilliseconds_in (z : Zone) : Date -> num := local_field z msFromTime.

Definition newDate_in (z : Zone) (year month day : num) : Date :=
  match year, month, day with
  | Some y, Some mo, Some dt =>
      let yr := if (0 <=? y) && (y <=? 99) then 1900 + y else y in
      TimeClip (UTC z (MakeDate (MakeDay yr mo dt) (MakeTime 0 0 0 0)))
  | _, _, _ => InvalidDate
  end.

Definition setDate_in (z : Zone) (d : Date) (dt : num) : Date :=
  match d, dt with
  | DateAt tv, Some dt =>
      let t := LocalTime z tv in
      TimeClip (UTC z (MakeDate (MakeDay (YearFromTime t) (MonthFromTime t) dt)
                                (TimeWithinDay t)))
  | _, _ => InvalidDate
  end.

Definition setMonth_in (z : Zone) (d : Date) (mo : num) : Date :=
  match d, mo with
  | DateAt tv, Some mo =>
      let t := LocalTime z tv in
      TimeClip (UTC z (MakeDate (MakeDay (YearFromTime t) mo (DateFromTime t))
                                (TimeWithinDay t)))
  | _, _ => InvalidDate
  end.

Definition setFullYear_in (z : Zone) (d : Date) (y : num) : Date :=
  let t := match d with DateAt tv => LocalTime z tv | InvalidDate => 0 end in
  match y with
  | Some y =>
      TimeClip (UTC z (MakeDate (MakeDay y (MonthFromTime t) (DateFromTime t))
                                (TimeWithinDay t)))
  | None => InvalidDate
  end.

Definition setHours_in (z : Zone) (d : Date) (h : num) : Date :=
  match d, h with
  | DateAt tv, Some h =>
      let t := LocalTime z tv in
      TimeClip (UTC z (MakeDate (Day t)
                         (MakeTime h (MinFromTime t) (SecFromTime t) (msFromTime t))))
  | _, _ => InvalidDate
  end.

Definition setHours4_in (z : Zone) (d : Date) (h mi s ms : Z) : Date :=
  match d with
  | DateAt tv =>
      let t := LocalTime z tv in
      TimeClip (UTC z (MakeDate (Day t) (MakeTime h mi s ms)))
  | InvalidDate => InvalidDate
  end.

Definition setMinutes_in (z : Zone) (d : Date) (mi : num) : Date :=
  match d, mi with
  | DateAt tv, Some mi =>
      let t := LocalTime z tv in
      TimeClip (UTC z (MakeDate (Day t)
                         (MakeTime (HourFromTime t) mi (SecFromTime t) (msFromTime t))))
  | _, _ => InvalidDate
  end.

(** The seven rules of [parseDate] and [parseDate] itself, in the zone. *)

Definition resolve_today_in (z : Zone) (now : Z) : Date :=
  let date := DateAt now in
  setHours4_in z date 0 0 0 0.

Definition resolve_tomorrow_in (z : Zone) (now : Z) : Date :=
  let date := DateAt now in
  let date := setDate_in z date (nadd (getDate_in z date) (Some 1)) in
  setHours4_in z date 0 0 0 0.

Definition resolve_nextDay_in (z : Zone) (nextDayMatch : MatchResult) (now : Z)
    : Date :=
  let dayName := toLowerCase (capture 1 nextDayMatch) in
  let targetDay := DAYS_OF_WEEK dayName in
  let today := DateAt now in
  let currentDay := getDay_in z today in
  let daysUntil := nrem (nadd (nsub targetDay currentDay) (Some 7)) (Some 7) in
  let daysUntil := if neq daysUntil (Some 0) then Some 7 else daysUntil in
  let date := today in
  let date := setDate_in z date (nadd (getDate_in z date) daysUntil) in
  setHours4_in z date 0 0 0 0.

Definition resolve_day_in (z : Zone) (dayMatch : MatchResult) (now : Z) : Date :=
  let dayName := toLowerCase (capture 1 dayMatch) in
  let targetDay := DAYS_OF_WEEK dayName in
  let today := DateAt now in
  let currentDay := getDay_in z today in
  let daysUntil := nrem (nadd (nsub targetDay currentDay) (Some 7)) (Some 7) in
  let daysUntil :=
    if nlt daysUntil (Some 0) then nadd daysUntil (Some 7) else daysUntil in
  let date := today in
  let date := setDate_in z date (nadd (getDate_in z date) daysUntil) in
  setHours4_in z date 0 0 0 0.

Definition resolve_monthDay_in (z : Zone) (monthDayMatch : MatchResult) (now : Z)
    : Date :=
  let monthName := toLowerCase (capture 1 monthDayMatch) in
  let day := parseInt (capture 2 monthDayMatch) in
  let month := MONTHS monthName in
  let year := getFullYear_in z (DateAt now) in
  let date := newDate_in z year month day in
  let date :=
    if date_lt date (DateAt now)
    then setFullYear_in z date (nadd year (Some 1)) else date in
  setHours4_in z date 0 0 0 0.

Definition resolve_relative_in (z : Zone) (relativeMatch : MatchResult) (now : Z)
    : Date :=
  let amount := parseInt (capture 1 relativeMatch) in
  let unit_ := toLowerCase (capture 2 relativeMatch) in
  let date := DateAt now in
  let date :=
    if startsWith unit_ "day" then
      setDate_in z date (nadd (getDate_in z date) amount)
    else if startsWith unit_ "week" then
      setDate_in z date (nadd (getDate_in z date) (nmul amount (Some 7)))
    else if startsWith unit_ "month" then
      setMonth_in z date (nadd (getMonth_in z date) amount)
    else if startsWith unit_ "hour" then
      setHours_in z date (nadd (getHours_in z date) amount)
    else if startsWith unit_ "minute" then
      setMinutes_in z date (nadd (getMinutes_in z date) amount)
    else date in
  setHours4_in z date 0 0 0 0.

Definition resolve_numeric_in (z : Zone) (numericMatch : MatchResult) (now : Z)
    : Date :=
  let month := nsub (parseInt (capture 1 numericMatch)) (Some 1) in
  let day := parseInt (capture 2 numericMatch) in
  let year := parseInt (capture 3 numericMatch) in
  let year :=
    if nlt year (Some 100)
    then nadd year (if nlt year (Some 50) then Some 2000 else Some 1900)
    else year in
  let date := newDate_in z year month day in
  setHours4_in z date 0 0 0 0.

Definition parseDate_in (z : Zone) (input : str) (now : Z) : option Date :=
  let lowerInput := toLowerCase input in
  if test re_today lowerInput then Some (resolve_today_in z now)
  else if test re_tomorrow lowerInput then Some (resolve_tomorrow_in z now)
  else
    match exec re_nextDay lowerInput with
    | Some nextDayMatch => Some (resolve_nextDay_in z nextDayMatch now)
    | None =>
    match exec re_day lowerInput with
    | Some dayMatch => Some (resolve_day_in z dayMatch now)
    | None =>
    match exec re_monthDay lowerInput with
    | Some monthDayMatch => Some (resolve_monthDay_in z monthDayMatch now)
    | None =>
    match exec re_relative lowerInput with
    | Some relativeMatch => Some (resolve_relative_in z relativeMatch now)
    | None =>
    match exec re_numeric lowerInput with
    | Some numericMatch => Some (resolve_numeric_in z numericMatch now)
    | None => None
    end end end end end.

End InZone.

(** * Vocabulary of the statements *)

(** ** Texts and matches *)

(** [a] is what is left of [b] after reading some of it. *)
Definition suffix_of (a b : str) : Prop := exists p, b = p ++ a.

(** The character before the position reached after reading [a]. *)
Fixpoint last_or (pv : option ascii) (a : str) : option ascii :=
  match a with
  | [] => pv
  | c :: a' => last_or (Some c) a'
  end.

(** Reading a literal, character by character. *)
Fixpoint read_lit (ci : bool) (w : str) (st : mstate) : option mstate :=
  match w with
  | [] => Some st
  | p :: w' =>
      match rest st with
      | c :: s' =>
          if chr_match ci p c
          then read_lit ci w' (MState (Some c) s' (caps st))
          else None
      | [] => None
      end
  end.

(** [w] stands in [s] as a whole word: with a word boundary on both
    sides. *)
Definition contains_word (w s : str) : Prop :=
  exists pre post,
    s = pre ++ w ++ post /\
    xorb (word_before (last_or None pre)) (word_after (w ++ post)) = true /\
    xorb (word_before (last_or None (pre ++ w))) (word_after post) = true.

(** The input holds the word [w], in any letter case. *)
Definition mentions (w input : str) : Prop := contains_word w (toLowerCase input).

(** Texts without capitals and words in lower case: on the former the
    [i] flag changes nothing for the latter. *)
Definition no_upper (s : str) : Prop := Forall (fun c => is_upper c = false) s.
Definition lower_word (w : str) : Prop := Forall (fun c => is_lower c = true) w.

(** [s'] is [s] without the leftmost match of [p], or [s] itself when [p]
    matches nowhere in it. *)
Definition removes_first_match (p : RegExp) (s s' : str) : Prop :=
  (test p s = false /\ s' = s) \/
  (exists pre mid post st,
      s = pre ++ mid ++ post /\ s' = pre ++ post /\
      match_here p (last_or None pre) (mid ++ post) = Some st /\
      rest st = post /\
      (forall a b, s = a ++ b -> (length a < length pre)%nat ->
                   match_here p (last_or None a) b = None)).

(** A list of string literals as texts. *)
Definition strs (l : list string) : list str := map list_ascii_of_string l.

(** Facts about single characters are settled by running through all 256
    of them. *)
Definition all_chars : list ascii := map ascii_of_nat (seq 0 256).

(** ** Dates *)

Section DateVocabulary.
Local Open Scope Z_scope.

(** A time value a [Date] object can hold. *)
Definition valid_time (t : Z) : Prop := Z.abs t <= 8640000000000000.

(** Local midnight of the day [t] lies in. *)
Definition startOfDay (t : Z) : Z := Day t * msPerDay.

(** The date reads 00:00:00.000 on the local clock. *)
Definition at_local_midnight (d : Date) : Prop :=
  getHours d = Some 0 /\ getMinutes d = Some 0 /\
  getSeconds d = Some 0 /\ getMilliseconds d = Some 0.

End DateVocabulary.

(** ** The date rules as a list *)

(** The extractor as the specification words it: an ordered list of
    (matcher, resolver) pairs, tried in order until one matches. *)
Record DateRule : Type := MkRule {
  rule_name : string;
  matcher : str -> option MatchResult;
  resolver : MatchResult -> Z -> Date
}.

Definition date_rules : list DateRule :=
  [ MkRule "today" (exec re_today) (fun _ => resolve_today);
    MkRule "tomorrow" (exec re_tomorrow) (fun _ => resolve_tomorrow);
    MkRule "next weekday" (exec re_nextDay) resolve_nextDay;
    MkRule "bare weekday" (exec re_day) resolve_day;
    MkRule "month-name day" (exec re_monthDay) resolve_monthDay;
    MkRule "in N units" (exec re_relative) resolve_relative;
    MkRule "numeric M/D/Y" (exec re_numeric) resolve_numeric ].

Fixpoint first_match (rules : list DateRule) (text : str) (now : Z) : option Date :=
  match rules with
  | [] => None
  | r :: rules' =>
      match matcher r text with
      | Some mr => Some (resolver r mr now)
      | None => first_match rules' text now
      end
  end.

(** ** The days of the week and the months, as the calendar has them

    These tables are written from the calendar, not from the tables of the
    parser: the statements say with them which day or month a name
    stands for. *)

Inductive Weekday : Type :=
| Sunday | Monday | Tuesday | Wednesday | Thursday | Friday | Saturday.

(** The number [getDay()] gives the day: 0 is Sunday. *)
Definition weekday_number (d : Weekday) : Z :=
  match d with
  | Sunday => 0 | Monday => 1 | Tuesday => 2 | Wednesday => 3
  | Thursday => 4 | Friday => 5 | Saturday => 6
  end%Z.

Definition weekday_name (d : Weekday) : string :=
  match d with
  | Sunday => "sunday" | Monday => "monday" | Tuesday => "tuesday"
  | Wednesday => "wednesday" | Thursday => "thursday" | Friday => "friday"
  | Saturday => "saturday"
  end.

Definition weekday_abbrev (d : Weekday) : string :=
  match d with
  | Sunday => "sun" | Monday => "mon" | Tuesday => "tue" | Wednesday => "wed"
  | Thursday => "thu" | Friday => "fri" | Saturday => "sat"
  end.

(** [name] is the English name of the day, or its first three letters. *)
Definition names_weekday (name : string) (d : Weekday) : Prop :=
  name = weekday_name d \/ name = weekday_abbrev d.

Inductive Month : Type :=
| January | February | March | April | May | June
| July | August | September | October | November | December.

(** The number [getMonth()] gives the month: 0 is January. *)
Definition month_number (mo : Month) : Z :=
  match mo with
  | January => 0 | February => 1 | March => 2 | April => 3 | May => 4
  | June => 5 | July => 6 | August => 7 | September => 8 | October => 9
  | November => 10 | December => 11
  end%Z.

Definition month_name (mo : Month) : string :=
  match mo with
  | January => "january" | February => "february" | March => "march"
  | April => "april" | May => "may" | June => "june" | July => "july"
  | August => "august" | September => "september" | October => "october"
  | November => "november" | December => "december"
  end.

Definition month_abbrev (mo : Month) : string :=
  match mo with
  | January => "jan" | February => "feb" | March => "mar" | April => "apr"
  | May => "may" | June => "jun" | July => "jul" | August => "aug"
  | September => "sep" | October => "oct" | November => "nov"
  | December => "dec"
  end.

(** [name] is the English name of the month, or its first three letters. *)
Definition names_month (name : string) (mo : Month) : Prop :=
  name = month_name mo \/ name = month_abbrev mo.

(** The days of the month in a common year or in a leap year. *)
Definition days_in_month (mo : Month) (leap : bool) : Z :=
  match mo with
  | February => if leap then 29 else 28
  | April | June | September | November => 30
  | _ => 31
  end%Z.

(** 29 February, the day that only a leap year has. *)
Definition is_leap_day (mo : Month) (d : nat) : bool :=
  match mo with
  | February => (d =? 29)%nat
  | _ => false
  end.

(** ** The local clock of a zone *)

Section ZoneVocabulary.
Local Open Scope Z_scope.

(** Every local midnight exists in the zone: read as a local time and
    turned back, it is the same midnight.  (Where the clocks are moved
    forward at midnight, the midnight of that day fails this.) *)
Definition keeps_midnight (z : Zone) : Prop :=
  forall m, m mod msPerDay = 0 -> LocalTime z (UTC z m) = m.

(** The date reads 00:00:00.000 on the local clock of the zone. *)
Definition at_local_midnight_in (z : Zone) (d : Date) : Prop :=
  getHours_in z d = Some 0 /\ getMinutes_in z d = Some 0 /\
  getSeconds_in z d = Some 0 /\ getMilliseconds_in z d = Some 0.

End ZoneVocabulary.

(** ** A task in a list *)

(** The task [t] with its list set to [l], every other field as it is. *)
Definition with_list (t : Task.t) (l : option str) : Task.t :=
  Task.Mk (Task.title t) (Task.date t) (Task.time t) (Task.tags t)
    (Task.rawInput t) (Task.id t) (Task.createdAt t) (Task.completedAt t)
    (Task.completed t) (Task.description t) (Task.priority t)
    (Task.recurrence t) l.

(** ** Normal form, order and checks by evaluation *)

(** A set of tags in normal form: no tag twice, no empty tag, no capital
    letter. *)
Definition normal_tags (l : list str) : Prop :=
  NoDup l /\ Forall (fun t => t <> [] /\ no_upper t) l.

(** The order of [sort()]: by code units. *)
Definition str_lt (a b : str) : Prop := str_ltb a b = true.

Definition num_eqb (a b : num) : bool :=
  match a, b with
  | Some x, Some y => (x =? y)%Z
  | None, None => true
  | _, _ => false
  end.

Definition is_none {A : Type} (o : option A) : bool :=
  match o with Some _ => false | None => true end.

(** Every way of writing the clock time is read as that time. *)
Definition clock_time_ok (h m : nat) (mer : Meridiem) : bool :=
  forallb
    (fun ht =>
       forallb
         (fun mt =>
            match parseTime (ht ++ (":" : str) ++ two_digits m ++ mt) with
            | Some t => str_eqb t (two_digits (hour24 h mer) ++ (":" : str) ++ two_digits m)
            | None => false
            end)
         (meridiem_texts mer))
    (hour_texts h).

(** The text reaches the month-and-day rule, which reads from it the month
    name and the day. *)
Definition month_day_read (name : string) (d : nat) : bool :=
  let text := month_day_text name d in
  negb (test re_today text) && negb (test re_tomorrow text)
  && is_none (exec re_nextDay text) && is_none (exec re_day text)
  && match exec re_monthDay text with
     | Some mr =>
         str_eqb (toLowerCase (capture 1 mr)) name
         && num_eqb (parseInt (capture 2 mr)) (Some (Z.of_nat d))
     | None => false
     end.

(** The text reaches the relative rule, which reads from it the amount
    and the unit. *)
Definition relative_read (n : nat) (u : string) : bool :=
  let text := relative_text n u in
  negb (test re_today text) && negb (test re_tomorrow text)
  && is_none (exec re_nextDay text) && is_none (exec re_day text)
  && is_none (exec re_monthDay text)
  && match exec re_relative text with
     | Some mr =>
         num_eqb (parseInt (capture 1 mr)) (Some (Z.of_nat n))
         && str_eqb (toLowerCase (capture 2 mr)) u
     | None => false
     end.

(** * Properties *)

(** ** The matcher reads a prefix of the text *)

Lemma suffix_of_refl (a : str) : suffix_of a a.
Proof. exists []; reflexivity. Qed.

Lemma suffix_of_trans (a b c : str) :
  suffix_of a b -> suffix_of b c -> suffix_of a c.
Proof.
  intros [p Hp] [q Hq]. exists (q ++ p). subst. now rewrite app_assoc.
Qed.

Lemma suffix_of_cons (c : ascii) (a : str) : suffix_of a (c :: a).
Proof. exists [c]; reflexivity. Qed.

Lemma consumed_app (p a : str) : consumed (p ++ a) a = p.
Proof.
  unfold consumed. rewrite length_app.
  replace (length p + length a - length a)%nat with (length p) by lia.
  rewrite firstn_app, Nat.sub_diag, firstn_all. simpl. apply app_nil_r.
Qed.

Lemma m_reads_prefix (ci : bool) (r : regex) :
  forall k st res,
    m ci r k st = Some res ->
    exists st', suffix_of (rest st') (rest st) /\ k st' = Some res.
Proof.
  induction r as [ | p | rs | r1 IH1 r2 IH2 | r1 IH1 r2 IH2 | r IH | n r IH
                 | r IH | | | ]; intros k st res H; simpl in H.
  - exists st; split; [apply suffix_of_refl | exact H].
  - unfold step_char in H. destruct (rest st) as [ | c s'] eqn:E; [discriminate | ].
    destruct (chr_match ci p c); [ | discriminate].
    eexists; split; [ | exact H]. simpl. apply suffix_of_cons.
  - unfold step_char in H. destruct (rest st) as [ | c s'] eqn:E; [discriminate | ].
    destruct (class_match ci rs c); [ | discriminate].
    eexists; split; [ | exact H]. simpl. apply suffix_of_cons.
  - apply IH1 in H. destruct H as (st1 & S1 & H).
    apply IH2 in H. destruct H as (st2 & S2 & H).
    exists st2; split; [eapply suffix_of_trans; eassumption | exact H].
  - unfold or_else in H. destruct (m ci r1 k st) eqn:E.
    + inversion H; subst. apply IH1 in E. exact E.
    + apply IH2 in H. exact H.
  - revert H. generalize (length (rest st)). intros n. revert st res.
    induction n as [ | n IHn]; intros st res H; cbn [star_loop] in H.
    + exists st; split; [apply suffix_of_refl | exact H].
    + unfold or_else in H.
      match type of H with
      | match ?X with _ => _ end = _ => destruct X as [x | ] eqn:E
      end.
      * inversion H; subst x. apply IH in E. destruct E as (st1 & S1 & E).
        destruct (length (rest st1) <? length (rest st))%nat; [ | discriminate].
        apply IHn in E. destruct E as (st2 & S2 & E).
        exists st2; split; [eapply suffix_of_trans; eassumption | exact E].
      * exists st; split; [apply suffix_of_refl | exact H].
  - apply IH in H. destruct H as (st1 & S1 & H).
    eexists; split; [ | exact H]. exact S1.
  - apply IH in H. exact H.
  - destruct (at_word_boundary st); [ | discriminate].
    exists st; split; [apply suffix_of_refl | exact H].
  - destruct (prev st); [discriminate | ].
    exists st; split; [apply suffix_of_refl | exact H].
  - destruct (rest st) eqn:E; [ | discriminate].
    exists st; split; [rewrite E; apply suffix_of_refl | exact H].
Qed.

Lemma match_here_suffix (p : RegExp) (pv : option ascii) (s : str) (st : mstate) :
  match_here p pv s = Some st -> consumed s (rest st) ++ rest st = s.
Proof.
  intros H. apply m_reads_prefix in H. destruct H as (st' & [q Hq] & E).
  inversion E; subst st'. simpl in Hq. rewrite Hq at 1. now rewrite consumed_app.
Qed.

(** ** The greedy star *)

Lemma m_ext (ci : bool) (r : regex) :
  forall k1 k2 st,
    (forall st', k1 st' = k2 st') -> m ci r k1 st = m ci r k2 st.
Proof.
  induction r as [ | p | rs | r1 IH1 r2 IH2 | r1 IH1 r2 IH2 | r IH | n r IH
                 | r IH | | | ]; intros k1 k2 st E; simpl.
  - apply E.
  - unfold step_char. destruct (rest st); [reflexivity | ].
    destruct (chr_match ci p a); [apply E | reflexivity].
  - unfold step_char. destruct (rest st); [reflexivity | ].
    destruct (class_match ci rs a); [apply E | reflexivity].
  - apply IH1. intros st'. apply IH2, E.
  - rewrite (IH1 k1 k2 st E), (IH2 k1 k2 st E). reflexivity.
  - generalize (length (rest st)). intros n. revert st.
    induction n as [ | n IHn]; intros st; cbn [star_loop]; [apply E | ].
    rewrite E. f_equal. apply IH. intros st'. now rewrite IHn.
  - apply IH. intros st'. apply E.
  - apply IH, E.
  - now rewrite E.
  - now rewrite E.
  - now rewrite E.
Qed.

Lemma m_no_continuation (ci : bool) (r : regex) (k : mstate -> option mstate)
    (st : mstate) :
  (forall st', k st' = None) -> m ci r k st = None.
Proof.
  intros E. destruct (m ci r k st) as [res | ] eqn:M; [ | reflexivity].
  apply m_reads_prefix in M. destruct M as (st' & _ & M). now rewrite E in M.
Qed.

(** Any bound not below the length of the text left gives the same
    iterations. *)
Lemma star_loop_fuel (ci : bool) (r : regex) (k : mstate -> option mstate) :
  forall n1 n2 st,
    (length (rest st) <= n1)%nat -> (length (rest st) <= n2)%nat ->
    star_loop (m ci r) k n1 st = star_loop (m ci r) k n2 st.
Proof.
  assert (Z0 : forall n st, length (rest st) = 0%nat ->
                 star_loop (m ci r) k n st = k st).
  { intros [ | n] st L; cbn [star_loop]; [reflexivity | ].
    rewrite m_no_continuation; [reflexivity | ].
    intros st'. rewrite L. reflexivity. }
  induction n1 as [ | n1 IH]; intros n2 st L1 L2.
  - rewrite (Z0 n2) by lia. reflexivity.
  - destruct n2 as [ | n2].
    + rewrite (Z0 (S n1)) by lia. reflexivity.
    + cbn [star_loop]. f_equal. apply m_ext. intros st'.
      destruct (Nat.ltb_spec (length (rest st')) (length (rest st)));
        [ | reflexivity].
      apply IH; lia.
Qed.

(** The greedy star unfolds as in the ECMAScript semantics of [r*]. *)
Lemma m_Star (ci : bool) (r : regex) (k : mstate -> option mstate) (st : mstate) :
  m ci (Star r) k st =
  or_else
    (m ci r
       (fun st' =>
          if (length (rest st') <? length (rest st))%nat
          then m ci (Star r) k st' else None) st)
    (fun _ => k st).
Proof.
  cbn [m]. destruct (length (rest st)) as [ | n] eqn:L; cbn [star_loop].
  - rewrite m_no_continuation; reflexivity.
  - f_equal. apply m_ext. intros st'. rewrite L.
    destruct (Nat.ltb_spec (length (rest st')) (S n)); [ | reflexivity].
    apply star_loop_fuel; lia.
Qed.

(** ** Leftmost match *)

Lemma last_or_app (pv : option ascii) (a b : str) :
  last_or pv (a ++ b) = last_or (last_or pv a) b.
Proof. revert pv; induction a as [ | c a IH]; intros pv; simpl; auto. Qed.

Lemma exec_from_none (p : RegExp) :
  forall s pre_rev pv,
    exec_from p pre_rev pv s = None ->
    forall a b, s = a ++ b -> match_here p (last_or pv a) b = None.
Proof.
  induction s as [ | c s IH]; intros pre_rev pv H a b E; simpl in H.
  - destruct (match_here p pv []) eqn:M; [discriminate | ].
    destruct a; [ | discriminate]. simpl in E; subst b. exact M.
  - destruct (match_here p pv (c :: s)) eqn:M; [discriminate | ].
    destruct a as [ | c' a'].
    + simpl in E; subst b. exact M.
    + simpl in E. inversion E; subst c' s. simpl. eapply IH; eauto.
Qed.

Lemma exec_from_some (p : RegExp) :
  forall s pre_rev pv r,
    exec_from p pre_rev pv s = Some r ->
    exists a st,
      before r = rev pre_rev ++ a /\
      s = a ++ matched r ++ after r /\
      match_here p (last_or pv a) (matched r ++ after r) = Some st /\
      after r = rest st /\ groups r = caps st /\
      (forall a' b', s = a' ++ b' -> (length a' < length a)%nat ->
                     match_here p (last_or pv a') b' = None).
Proof.
  induction s as [ | c s IH]; intros pre_rev pv r H; simpl in H.
  - destruct (match_here p pv []) as [st | ] eqn:M; [ | discriminate].
    inversion H; subst r. exists [], st.
    pose proof (match_here_suffix _ _ _ _ M) as S.
    cbn [before matched after groups app last_or length].
    rewrite app_nil_r, S. repeat split; auto. intros; lia.
  - destruct (match_here p pv (c :: s)) as [st | ] eqn:M.
    + inversion H; subst r. exists [], st.
      pose proof (match_here_suffix _ _ _ _ M) as S.
      cbn [before matched after groups app last_or length].
      rewrite app_nil_r, S. repeat split; auto. intros; lia.
    + apply IH in H. destruct H as (a & st & Hb & Hs & Hm & Ha & Hg & Hl).
      exists (c :: a), st. simpl in Hb. rewrite <- app_assoc in Hb. simpl in Hb.
      repeat split; auto.
      * simpl. now rewrite <- Hs.
      * intros a' b' E L. destruct a' as [ | c' a'].
        -- simpl in E; subst b'. exact M.
        -- simpl in E. inversion E; subst c'. simpl. apply Hl; auto.
           simpl in L. lia.
Qed.

Lemma test_true_iff (p : RegExp) (s : str) :
  test p s = true <->
  exists a b st, s = a ++ b /\ match_here p (last_or None a) b = Some st.
Proof.
  unfold test, exec. split.
  - destruct (exec_from p [] None s) as [r | ] eqn:E; [ | discriminate].
    intros _. apply exec_from_some in E.
    destruct E as (a & st & _ & Hs & Hm & _).
    exists a, (matched r ++ after r), st. auto.
  - intros (a & b & st & Hs & Hm).
    destruct (exec_from p [] None s) as [r | ] eqn:E; [reflexivity | ].
    rewrite (exec_from_none _ _ _ _ E a b Hs) in Hm. discriminate.
Qed.

(** ** Whole words *)

Lemma all_chars_complete (c : ascii) : In c all_chars.
Proof.
  rewrite <- (ascii_nat_embedding c). apply in_map, in_seq.
  pose proof (nat_ascii_bounded c). lia.
Qed.

Lemma for_all_chars (P : ascii -> bool) :
  forallb P all_chars = true -> forall c, P c = true.
Proof.
  intros H c. rewrite forallb_forall in H. apply H, all_chars_complete.
Qed.

Lemma for_all_char_pairs (P : ascii -> ascii -> bool) :
  forallb (fun p => forallb (P p) all_chars) all_chars = true ->
  forall p c, P p c = true.
Proof.
  intros H p c.
  apply (for_all_chars (P p)).
  apply (for_all_chars (fun p => forallb (P p) all_chars) H).
Qed.

Lemma m_Lit (ci : bool) (w : str) :
  forall k st,
    m ci (Lit w) k st =
    match read_lit ci w st with Some st' => k st' | None => None end.
Proof.
  induction w as [ | p w IH]; intros k st; simpl; [reflexivity | ].
  unfold step_char. destruct (rest st) as [ | c s']; [reflexivity | ].
  destruct (chr_match ci p c); [apply IH | reflexivity].
Qed.

Lemma read_lit_exact (w : str) :
  forall pv s cs st',
    read_lit false w (MState pv s cs) = Some st' <->
    exists post, s = w ++ post /\ st' = MState (last_or pv w) post cs.
Proof.
  induction w as [ | p w IH]; intros pv s cs st'; simpl.
  - split.
    + intros H; inversion H; subst. exists s; auto.
    + intros (post & -> & ->). reflexivity.
  - destruct s as [ | c s'].
    + split; [discriminate | intros (post & H & _); discriminate].
    + unfold chr_match. destruct (Ascii.eqb_spec p c) as [-> | N].
      * rewrite IH. split; intros (post & H1 & H2); exists post.
        -- subst; auto.
        -- inversion H1; subst; auto.
      * split; [discriminate | ].
        intros (post & H & _). inversion H; subst. now elim N.
Qed.

Lemma match_here_word (ci : bool) (w : str) (pv : option ascii) (s : str) :
  match_here (word_re w ci) pv s =
  if xorb (word_before pv) (word_after s) then
    match read_lit ci w (MState pv s []) with
    | Some st' => if at_word_boundary st' then Some st' else None
    | None => None
    end
  else None.
Proof.
  unfold match_here, word_re. cbn [re ignoreCase Cat m].
  unfold at_word_boundary at 1. cbn [prev rest].
  destruct (xorb (word_before pv) (word_after s)); [ | reflexivity].
  rewrite m_Lit. destruct (read_lit ci w (MState pv s [])); reflexivity.
Qed.

Lemma test_word_iff (w s : str) :
  test (word_re w false) s = true <-> contains_word w s.
Proof.
  rewrite test_true_iff. unfold contains_word. split.
  - intros (a & b & st & Hs & Hm). rewrite match_here_word in Hm.
    destruct (xorb (word_before (last_or None a)) (word_after b)) eqn:B1;
      [ | discriminate].
    destruct (read_lit false w (MState (last_or None a) b [])) as [st' | ] eqn:R;
      [ | discriminate].
    destruct (at_word_boundary st') eqn:B2; [ | discriminate].
    apply read_lit_exact in R. destruct R as (post & Hb & Hst).
    exists a, post. subst b st'. split; [exact Hs | ]. split; [exact B1 | ].
    rewrite last_or_app. exact B2.
  - intros (pre & post & Hs & B1 & B2).
    exists pre, (w ++ post), (MState (last_or (last_or None pre) w) post []).
    split; [exact Hs | ]. rewrite match_here_word, B1.
    destruct (read_lit false w (MState (last_or None pre) (w ++ post) []))
      as [st' | ] eqn:R.
    + apply read_lit_exact in R. destruct R as (post' & E & ->).
      apply app_inv_head in E. subst post'.
      unfold at_word_boundary. cbn [prev rest].
      rewrite <- last_or_app, B2. reflexivity.
    + assert (X : exists post', w ++ post = w ++ post' /\
                 MState (last_or (last_or None pre) w) post [] =
                 MState (last_or (last_or None pre) w) post' [])
        by (exists post; auto).
      apply read_lit_exact in X. congruence.
Qed.

Lemma chr_match_lower (p c : ascii) :
  is_lower p = true -> is_upper c = false ->
  chr_match true p c = chr_match false p c.
Proof.
  intros Hp Hc.
  pose proof (for_all_char_pairs
    (fun p c => implb (is_lower p && negb (is_upper c))
                      (Bool.eqb (chr_match true p c) (chr_match false p c)))) as H.
  specialize (H ltac:(vm_compute; reflexivity) p c). cbv beta in H.
  rewrite Hp, Hc in H. simpl in H. now apply Bool.eqb_prop.
Qed.

Lemma toLowerCase_no_upper (s : str) : no_upper (toLowerCase s).
Proof.
  unfold no_upper, toLowerCase. apply Forall_map, Forall_forall. intros c _.
  pose proof (for_all_chars (fun c => negb (is_upper (lower_char c)))) as H.
  specialize (H ltac:(vm_compute; reflexivity) c). cbv beta in H.
  now apply negb_true_iff.
Qed.

Lemma read_lit_lower (w : str) :
  lower_word w ->
  forall st, no_upper (rest st) -> read_lit true w st = read_lit false w st.
Proof.
  induction 1 as [ | p w Hp Hw IH]; intros st Hs; cbn [read_lit];
    [reflexivity | ].
  destruct (rest st) as [ | c s'] eqn:E; [reflexivity | ].
  inversion Hs; subst. rewrite chr_match_lower by assumption.
  destruct (chr_match false p c); [ | reflexivity]. apply IH. assumption.
Qed.

Lemma exec_from_word_lower (w : str) :
  lower_word w ->
  forall s pre_rev pv,
    no_upper s ->
    exec_from (word_re w true) pre_rev pv s
    = exec_from (word_re w false) pre_rev pv s.
Proof.
  intros Hw. induction s as [ | c s IH]; intros pre_rev pv Hs; simpl;
    rewrite !match_here_word, read_lit_lower by assumption.
  - reflexivity.
  - inversion Hs; subst. rewrite IH by assumption. reflexivity.
Qed.

Lemma test_word_lower (w : str) (input : str) :
  lower_word w ->
  test (word_re w true) (toLowerCase input) = true <->
  contains_word w (toLowerCase input).
Proof.
  intros Hw. rewrite <- test_word_iff. unfold test, exec.
  rewrite exec_from_word_lower by (auto using toLowerCase_no_upper).
  reflexivity.
Qed.

(** ** Dates: day arithmetic *)

Section DayArithmetic.
Local Open Scope Z_scope.

Lemma TimeClip_valid (t : Z) : valid_time t -> TimeClip t = DateAt t.
Proof.
  unfold valid_time, TimeClip. intros H.
  destruct (Z.leb_spec (Z.abs t) 8640000000000000); [reflexivity | lia].
Qed.

Lemma TimeClip_cases (t : Z) :
  TimeClip t = InvalidDate \/ TimeClip t = DateAt t.
Proof. unfold TimeClip. destruct (Z.abs t <=? 8640000000000000); auto. Qed.

Lemma startOfDay_valid (t : Z) : valid_time t -> valid_time (startOfDay t).
Proof.
  unfold valid_time, startOfDay, Day, msPerDay. intros H.
  pose proof (Z.div_mod t 86400000 ltac:(lia)).
  pose proof (Z.mod_pos_bound t 86400000 ltac:(lia)). lia.
Qed.

Lemma startOfDay_multiple (t : Z) : startOfDay t mod msPerDay = 0.
Proof. unfold startOfDay. apply Z.mod_mul. discriminate. Qed.

Lemma startOfDay_shift (t n : Z) :
  startOfDay (t + n * msPerDay) = startOfDay t + n * msPerDay.
Proof.
  unfold startOfDay, Day. rewrite Z.div_add by discriminate. ring.
Qed.

Lemma midnight_reads_zero (t : Z) :
  t mod msPerDay = 0 -> at_local_midnight (DateAt t).
Proof.
  unfold at_local_midnight, getHours, getMinutes, getSeconds, getMilliseconds,
    HourFromTime, MinFromTime, SecFromTime, msFromTime,
    msPerDay, msPerHour, msPerMinute, msPerSecond. simpl.
  intros H. repeat split; f_equal; Z.to_euclidean_division_equations; lia.
Qed.

(** The calendar: [YearFromTime t] is the year the day of [t] lies in,
    leap years are the years of 366 days, and the day of the month is
    between 1 and 31. *)
Lemma YearFromTime_spec (t : Z) :
  DayFromYear (YearFromTime t) <= Day t < DayFromYear (YearFromTime t + 1).
Proof.
  unfold YearFromTime. set (d := Day t). clearbody d.
  set (y := 1970 + d * 400 / 146097).
  assert (B : DayFromYear (y - 1) <= d < DayFromYear (y + 2)).
  { subst y. unfold DayFromYear. Z.to_euclidean_division_equations. lia. }
  destruct (Z.leb_spec (DayFromYear (y + 1)) d).
  - replace (y + 1 + 1) with (y + 2) by ring. lia.
  - destruct (Z.leb_spec (DayFromYear y) d).
    + lia.
    + replace (y - 1 + 1) with y by ring. lia.
Qed.

Lemma DayFromYear_step (y : Z) :
  DayFromYear (y + 1) = DayFromYear y + (if InLeapYear y then 366 else 365).
Proof.
  unfold DayFromYear, InLeapYear.
  destruct (Z.eqb_spec (y mod 4) 0), (Z.eqb_spec (y mod 100) 0),
    (Z.eqb_spec (y mod 400) 0); cbn [negb orb andb];
    Z.to_euclidean_division_equations; lia.
Qed.

Lemma DayWithinYear_range (t : Z) :
  0 <= DayWithinYear t < (if InLeapYear (YearFromTime t) then 366 else 365).
Proof.
  unfold DayWithinYear. pose proof (YearFromTime_spec t) as S.
  rewrite DayFromYear_step in S. lia.
Qed.

Lemma DateFromTime_range (t : Z) : 1 <= DateFromTime t <= 31.
Proof.
  unfold DateFromTime, MonthFromTime.
  pose proof (DayWithinYear_range t) as R.
  set (d := DayWithinYear t) in *. clearbody d.
  destruct (InLeapYear (YearFromTime t));
    repeat match goal with
           | |- context [if ?a <? ?b then _ else _] => destruct (Z.ltb_spec a b)
           end; cbn in *; lia.
Qed.

Lemma MonthFromTime_range (t : Z) : 0 <= MonthFromTime t <= 11.
Proof.
  unfold MonthFromTime.
  repeat match goal with
         | |- context [if ?b then _ else _] => destruct b
         end; lia.
Qed.

(** [date.setDate(date.getDate() + n)] moves the date by [n] days. *)
Lemma setDate_getDate (t n : Z) :
  setDate (DateAt t) (nadd (getDate (DateAt t)) (Some n))
  = TimeClip (t + n * msPerDay).
Proof.
  unfold setDate, getDate, nadd, lift2, getTime, option_map.
  f_equal. unfold MakeDate, MakeDay, DateFromTime, DayWithinYear.
  pose proof (MonthFromTime_range t) as R.
  rewrite (Z.div_small (MonthFromTime t) 12) by lia.
  rewrite (Z.mod_small (MonthFromTime t) 12) by lia.
  rewrite Z.add_0_r. unfold TimeWithinDay, Day.
  pose proof (Z.div_mod t msPerDay ltac:(discriminate)) as D.
  set (q := t / msPerDay) in *. set (r := t mod msPerDay) in *.
  set (a := DayFromYear _). set (b := DaysBeforeMonth _ _).
  clearbody a b q r. clear R. subst t. ring.
Qed.

(** [date.setHours(0, 0, 0, 0)] *)
Lemma setHours4_zero (t : Z) :
  setHours4 (DateAt t) 0 0 0 0 = TimeClip (startOfDay t).
Proof.
  unfold setHours4, MakeDate, MakeTime, startOfDay. f_equal. ring.
Qed.

Lemma resolve_today_eq (now : Z) :
  valid_time now -> resolve_today now = DateAt (startOfDay now).
Proof.
  intros V. unfold resolve_today. rewrite setHours4_zero.
  apply TimeClip_valid, startOfDay_valid, V.
Qed.

(** Moving by [n] days and cutting the time of day. *)
Lemma days_later (now n : Z) :
  valid_time (now + n * msPerDay) ->
  setHours4 (setDate (DateAt now) (nadd (getDate (DateAt now)) (Some n))) 0 0 0 0
  = DateAt (startOfDay now + n * msPerDay).
Proof.
  intros V. rewrite setDate_getDate, (TimeClip_valid _ V), setHours4_zero.
  rewrite startOfDay_shift. rewrite <- startOfDay_shift.
  apply TimeClip_valid, startOfDay_valid, V.
Qed.

End DayArithmetic.

(** ** Worked inputs *)

(** C1: the input "Review report tomorrow at 2pm #work" should give the time
    "14:00", an hour with am/pm and no colon standing for H:00.  [parseTime]
    returns no time for it (nor for "2pm" alone): its clock pattern requires
    the colon, although the third pattern of [TIME_PATTERNS], used by the
    title clean-up, does recognise "at 2pm". *)
Theorem parseTime_hour_with_meridiem_and_no_colon :
  parseTime "Review report tomorrow at 2pm #work" = None /\
  parseTime "2pm" = None /\
  option_map matched (exec (nth 2 TIME_PATTERNS re_spaces) "tomorrow at 2pm #work")
  = Some ("at 2pm" : str).
Proof. vm_compute. repeat split; reflexivity. Qed.

(** C2: the input "today at 9:30am #urgent" gives today's local midnight,
    the time "09:30" and the tag "urgent", and its title should be the
    placeholder "New Task".  The title returned is "at": the first time
    pattern removes "9:30am" and leaves the word "at" behind. *)
Theorem parseTaskInput_today_at_930am (now : Z) :
  parseTaskInput "today at 9:30am #urgent" now
  = MkParsedTask "at" (Some (resolve_today now)) (Some ("09:30" : str))
      (strs ["urgent"]) "today at 9:30am #urgent".
Proof.
  unfold parseTaskInput, parseDate.
  replace (test re_today (toLowerCase "today at 9:30am #urgent")) with true
    by (vm_compute; reflexivity).
  f_equal; vm_compute; reflexivity.
Qed.

(** C9: a [tag:] list separated by semicolons should contribute every item,
    as one separated by commas does.  On "tag: urgent; critical" only
    "urgent" is returned: the pattern that delimits the list stops at the
    semicolon, before [split] can see it. *)
Theorem extractTags_semicolon_list :
  extractTags "tag: urgent; critical" = strs ["urgent"] /\
  extractTags "tag: urgent, critical" = strs ["urgent"; "critical"].
Proof. vm_compute. split; reflexivity. Qed.

(** ** The title is never empty *)

(** C7: for every input the title returned by the parser is not empty, and
    it is exactly "New Task" when stripping the recognised fragments and
    collapsing white space leaves nothing. *)
Theorem title_never_empty (input : str) (now : Z) :
  title (parseTaskInput input now) <> [] /\
  (cleaned_text input = [] -> title (parseTaskInput input now) = ("New Task" : str)).
Proof.
  unfold parseTaskInput, cleanInput. cbn [title].
  destruct (cleaned_text input) as [ | c s] eqn:E; cbn [is_empty].
  - split; [discriminate | reflexivity].
  - split; [discriminate | discriminate].
Qed.

Lemma title_never_empty_witness :
  cleaned_text "#work tomorrow" = [] /\
  title (parseTaskInput "#work tomorrow" 0) = ("New Task" : str).
Proof.
  split; [vm_compute; reflexivity | ].
  apply (proj2 (title_never_empty "#work tomorrow" 0)). vm_compute. reflexivity.
Defined.

(** ** Weekdays *)

Ltac run_patterns :=
  repeat match goal with
         | |- context [test ?p ?s] =>
             let v := eval vm_compute in (test p s) in
             replace (test p s) with v by (vm_compute; reflexivity)
         | |- context [exec ?p ?s] =>
             let v := eval vm_compute in (exec p s) in
             replace (exec p s) with v by (vm_compute; reflexivity)
         end;
  cbv beta iota.

Section Weekdays.
Local Open Scope Z_scope.

Lemma days_until_same (d : Z) :
  nrem (nadd (nsub (Some d) (Some d)) (Some 7)) (Some 7) = Some 0.
Proof. unfold nsub, nadd, nrem, lift2. rewrite Z.sub_diag. reflexivity. Qed.

Lemma resolve_day_today (mr : MatchResult) (now : Z) :
  DAYS_OF_WEEK (toLowerCase (capture 1 mr)) = getDay (DateAt now) ->
  valid_time now ->
  resolve_day mr now = DateAt (startOfDay now).
Proof.
  intros T V. unfold resolve_day. rewrite T. cbn [getDay getTime option_map].
  rewrite days_until_same. change (nlt (Some 0) (Some 0)) with false. cbv iota.
  rewrite (days_later now 0); rewrite ?Z.mul_0_l, ?Z.add_0_r; trivial.
Qed.

Lemma resolve_nextDay_week (mr : MatchResult) (now : Z) :
  DAYS_OF_WEEK (toLowerCase (capture 1 mr)) = getDay (DateAt now) ->
  valid_time (now + 7 * msPerDay) ->
  resolve_nextDay mr now = DateAt (startOfDay now + 7 * msPerDay).
Proof.
  intros T V. unfold resolve_nextDay. rewrite T. cbn [getDay getTime option_map].
  rewrite days_until_same. change (neq (Some 0) (Some 0)) with true. cbv iota.
  apply days_later, V.
Qed.



End Weekdays.

(** ** Every date returned is cut to midnight *)

Section Midnight.
Local Open Scope Z_scope.

Lemma fixed_offset_keeps_midnight (c : Z) : keeps_midnight (fixed_offset c).
Proof. intros m _. unfold LocalTime, UTC, fixed_offset. cbn [LocalTZA]. ring. Qed.

(** At offset zero the functions in a zone are the functions on the local
    clock. *)
Lemma local_field_utc (f : Z -> Z) (d : Date) :
  local_field (fixed_offset 0) f d = option_map f (getTime d).
Proof.
  destruct d; unfold local_field, LocalTime; cbn [getTime option_map LocalTZA fixed_offset];
    rewrite ?Z.add_0_r; reflexivity.
Qed.

Ltac at_utc :=
  unfold LocalTime, UTC; cbn [LocalTZA fixed_offset];
  rewrite ?Z.add_0_r, ?Z.sub_0_r; reflexivity.

Lemma newDate_in_utc (y mo d : num) : newDate_in (fixed_offset 0) y mo d = newDate y mo d.
Proof. destruct y, mo, d; unfold newDate_in, newDate; try reflexivity. at_utc. Qed.

Lemma setDate_in_utc (d : Date) (n : num) : setDate_in (fixed_offset 0) d n = setDate d n.
Proof. destruct d, n; unfold setDate_in, setDate; try reflexivity. at_utc. Qed.

Lemma setMonth_in_utc (d : Date) (n : num) : setMonth_in (fixed_offset 0) d n = setMonth d n.
Proof. destruct d, n; unfold setMonth_in, setMonth; try reflexivity. at_utc. Qed.

Lemma setFullYear_in_utc (d : Date) (n : num) :
  setFullYear_in (fixed_offset 0) d n = setFullYear d n.
Proof. destruct d, n; unfold setFullYear_in, setFullYear; try reflexivity; at_utc. Qed.

Lemma setHours_in_utc (d : Date) (n : num) : setHours_in (fixed_offset 0) d n = setHours d n.
Proof. destruct d, n; unfold setHours_in, setHours; try reflexivity. at_utc. Qed.

Lemma setMinutes_in_utc (d : Date) (n : num) :
  setMinutes_in (fixed_offset 0) d n = setMinutes d n.
Proof. destruct d, n; unfold setMinutes_in, setMinutes; try reflexivity. at_utc. Qed.

Lemma setHours4_in_utc (d : Date) (h mi s ms : Z) :
  setHours4_in (fixed_offset 0) d h mi s ms = setHours4 d h mi s ms.
Proof. destruct d; unfold setHours4_in, setHours4; try reflexivity. at_utc. Qed.

Ltac to_local_clock :=
  unfold getFullYear_in, getMonth_in, getDate_in, getDay_in, getHours_in,
    getMinutes_in;
  rewrite ?local_field_utc, ?newDate_in_utc, ?setDate_in_utc, ?setMonth_in_utc,
    ?setFullYear_in_utc, ?setHours_in_utc, ?setMinutes_in_utc, ?setHours4_in_utc.

Lemma parseDate_in_utc (input : str) (now : Z) :
  parseDate_in (fixed_offset 0) input now = parseDate input now.
Proof.
  unfold parseDate_in, parseDate.
  repeat match goal with
         | |- (if ?b then _ else _) = _ => destruct b
         | |- match ?x with _ => _ end = _ => destruct x
         end; try reflexivity; f_equal.
  - unfold resolve_today_in, resolve_today. now to_local_clock.
  - unfold resolve_tomorrow_in, resolve_tomorrow. now to_local_clock.
  - unfold resolve_nextDay_in, resolve_nextDay. now to_local_clock.
  - unfold resolve_day_in, resolve_day. now to_local_clock.
  - unfold resolve_monthDay_in, resolve_monthDay. to_local_clock.
    destruct (date_lt _ _); now to_local_clock.
  - unfold resolve_relative_in, resolve_relative.
    repeat match goal with
           | |- context [startsWith ?a ?b] => destruct (startsWith a b)
           end; now to_local_clock.
  - unfold resolve_numeric_in, resolve_numeric. now to_local_clock.
Qed.

Lemma setHours4_in_zero_cases (z : Zone) (d : Date) :
  keeps_midnight z ->
  setHours4_in z d 0 0 0 0 = InvalidDate \/
  exists t, setHours4_in z d 0 0 0 0 = DateAt t /\ LocalTime z t mod msPerDay = 0.
Proof.
  intros K. destruct d as [tv | ]; [ | now left]. unfold setHours4_in. cbv zeta.
  set (m := MakeDate (Day (LocalTime z tv)) (MakeTime 0 0 0 0)).
  assert (M : m mod msPerDay = 0).
  { subst m. unfold MakeDate, MakeTime. cbn [Z.mul]. rewrite !Z.add_0_r.
    apply Z.mod_mul. discriminate. }
  destruct (TimeClip_cases (UTC z m)) as [E | E]; rewrite E; [now left | right].
  exists (UTC z m). split; [reflexivity | ]. now rewrite (K m M).
Qed.

(** The rules are compared as calls of [setHours], not through what the
    call computes. *)
Opaque setHours4_in.

Lemma parseDate_in_ends_with_setHours (z : Zone) (input : str) (now : Z) (r : Date) :
  parseDate_in z input now = Some r -> exists d, r = setHours4_in z d 0 0 0 0.
Proof.
  intros H. unfold parseDate_in in H.
  repeat match type of H with
         | (if ?b then _ else _) = _ => destruct b
         | match ?x with _ => _ end = _ => destruct x
         end;
    try discriminate; injection H as <-; eexists; reflexivity.
Qed.

Transparent setHours4_in.

Lemma parseDate_in_at_midnight (z : Zone) (input : str) (now t : Z) :
  keeps_midnight z ->
  parseDate_in z input now = Some (DateAt t) ->
  at_local_midnight_in z (DateAt t) /\ LocalTime z t mod msPerDay = 0.
Proof.
  intros K H. apply parseDate_in_ends_with_setHours in H. destruct H as (d & E).
  destruct (setHours4_in_zero_cases z d K) as [I | (t' & D & M)].
  - rewrite I in E. discriminate.
  - rewrite D in E. injection E as ->.
    split; [ | exact M].
    apply (midnight_reads_zero (LocalTime z t') M).
Qed.

(** On the local clock of a zone with a constant offset, the functions
    without a zone: the dates they return are whole days. *)
Lemma parseDate_at_midnight_on_local_clock (input : str) (now t : Z) :
  parseDate input now = Some (DateAt t) ->
  at_local_midnight (DateAt t) /\ t mod msPerDay = 0.
Proof.
  intros H. rewrite <- parseDate_in_utc in H.
  destruct (parseDate_in_at_midnight _ _ _ _ (fixed_offset_keeps_midnight 0) H)
    as (_ & M).
  unfold LocalTime in M. cbn [LocalTZA fixed_offset] in M.
  rewrite Z.add_0_r in M. split; [now apply midnight_reads_zero | exact M].
Qed.

(** C6, as the code has it: in a time zone where every local midnight
    exists (any zone with a constant offset is one), whenever the parser
    returns a date whose time value is a number, under any of the seven
    rules, that date reads 00:00:00.000 on the local clock and its local
    time is a whole number of days; amounts of hours or minutes only move
    the day.  (A date beyond the range of time values comes back as the
    invalid date, and where the clocks skip midnight the date of that day
    reads 01:00.) *)
Theorem parseDate_valid_date_at_midnight (z : Zone) (input : str) (now t : Z) :
  keeps_midnight z ->
  parseDate_in z input now = Some (DateAt t) ->
  at_local_midnight_in z (DateAt t) /\ LocalTime z t mod msPerDay = 0.
Proof. exact (parseDate_in_at_midnight z input now t). Qed.

Lemma parseDate_valid_date_at_midnight_witness :
  at_local_midnight_in (fixed_offset (2 * msPerHour)) (DateAt 1793656800000) /\
  LocalTime (fixed_offset (2 * msPerHour)) 1793656800000 mod msPerDay = 0.
Proof.
  apply (parseDate_valid_date_at_midnight (fixed_offset (2 * msPerHour))
           "call in 90 minutes" 1793653200000).
  - intros m _. unfold LocalTime, UTC. simpl. lia.
  - vm_compute. reflexivity.
Defined.

(** C6 as stated fails: "in 99999999999999 days" returns a date, the
    invalid one, whose clock fields are NaN rather than zero. *)
Lemma parseDate_date_not_at_midnight :
  exists d,
    parseDate "in 99999999999999 days" 1793653200000 = Some d /\
    ~ at_local_midnight d.
Proof.
  exists InvalidDate. split; [vm_compute; reflexivity | ].
  intros (H & _). discriminate H.
Qed.

(** The zone condition is needed: in Cairo the clocks skipped the midnight
    of 24 April 2026, and "today", asked at 10:00 of that day, is a valid
    date that reads 01:00. *)
Lemma parseDate_where_midnight_is_skipped :
  ~ keeps_midnight cairo_april_2026 /\
  parseDate_in cairo_april_2026 "today" 1777014000000 = Some (DateAt 1776981600000) /\
  getHours_in cairo_april_2026 (DateAt 1777014000000) = Some 10 /\
  getDate_in cairo_april_2026 (DateAt 1776981600000) = Some 24 /\
  getHours_in cairo_april_2026 (DateAt 1776981600000) = Some 1.
Proof.
  split; [ | vm_compute; repeat split; reflexivity].
  intros K. specialize (K 1776988800000 ltac:(reflexivity)).
  vm_compute in K. discriminate.
Qed.

End Midnight.

(** ** Date suggestions for the empty input *)

Section Suggestions.
Local Open Scope Z_scope.



End Suggestions.

(** ** Priority of the date rules *)

Lemma first_match_at (rules : list DateRule) (text : str) (now : Z) :
  forall i rule mr,
    nth_error rules i = Some rule ->
    matcher rule text = Some mr ->
    (forall j rule', (j < i)%nat -> nth_error rules j = Some rule' ->
                     matcher rule' text = None) ->
    first_match rules text now = Some (resolver rule mr now).
Proof.
  induction rules as [ | r rules IH]; intros i rule mr Hn Hm Hb.
  - destruct i; discriminate.
  - destruct i as [ | i]; simpl in Hn |- *.
    + injection Hn as ->. now rewrite Hm.
    + rewrite (Hb 0%nat r ltac:(lia) eq_refl).
      apply IH with (i := i); auto.
      intros j rule' L E. apply (Hb (S j)); [lia | exact E].
Qed.

Lemma parseDate_is_first_match (input : str) (now : Z) :
  parseDate input now = first_match date_rules (toLowerCase input) now.
Proof.
  unfold parseDate, first_match, date_rules, test. cbn [matcher resolver].
  repeat match goal with
         | |- context [match exec ?p ?s with _ => _ end] => destruct (exec p s)
         end; reflexivity.
Qed.

(** C3: date extraction is first-match-wins over the order today, tomorrow,
    next weekday, bare weekday, month-name day, in N units, numeric M/D/Y:
    the rule that matches with no rule before it matching decides the
    result, whatever the rules after it would do; and an input that holds
    both the word "today" and a weekday name resolves to today's date. *)
Theorem parseDate_first_match_wins (input : str) (now : Z) :
  parseDate input now = first_match date_rules (toLowerCase input) now /\
  (forall i rule mr,
     nth_error date_rules i = Some rule ->
     matcher rule (toLowerCase input) = Some mr ->
     (forall j rule', (j < i)%nat -> nth_error date_rules j = Some rule' ->
                      matcher rule' (toLowerCase input) = None) ->
     parseDate input now = Some (resolver rule mr now)) /\
  (forall w : string,
     In w (weekday_names ++ weekday_abbrevs) ->
     mentions "today" input ->
     mentions w input ->
     valid_time now ->
     parseDate input now = Some (DateAt (startOfDay now))).
Proof.
  split; [apply parseDate_is_first_match | split].
  - intros i rule mr Hn Hm Hb. rewrite parseDate_is_first_match.
    eapply first_match_at; eassumption.
  - intros w _ Ht _ V. unfold parseDate.
    apply test_word_iff in Ht. fold re_today in Ht. rewrite Ht.
    now rewrite resolve_today_eq.
Qed.

Lemma parseDate_first_match_wins_witness :
  parseDate "Friday or today" 1793653200000 = Some (DateAt 1793577600000).
Proof.
  refine (proj2 (proj2 (parseDate_first_match_wins "Friday or today" 1793653200000))
            "friday" _ _ _ _).
  - simpl. auto 10.
  - exists ("friday or " : str), ([] : str). vm_compute. auto.
  - exists ([] : str), (" or today" : str). vm_compute. auto.
  - vm_compute. discriminate.
Defined.

(** ** Priority of the period words *)

Lemma lower_word_literal (w : str) :
  forallb is_lower w = true -> lower_word w.
Proof.
  intros H. unfold lower_word. rewrite forallb_forall in H.
  apply Forall_forall. exact H.
Qed.

Ltac decide_word w s H :=
  let T := fresh "T" in
  let L := constr:(lower_word_literal w ltac:(vm_compute; reflexivity)) in
  destruct (test (word_re w true) (toLowerCase s)) eqn:T;
  [ apply (proj1 (test_word_lower w s L)) in T
  | assert (H : ~ contains_word w (toLowerCase s)) by
      (let C := fresh in
       intros C; apply (proj2 (test_word_lower w s L)) in C; congruence) ].

(** C8, as the code has it: when no H:MM clock time is present, the period
    word is chosen by a fixed priority, morning, afternoon, evening, night,
    tonight, wherever the words stand in the text. *)
Theorem parseTime_period_word_priority (input : str) :
  exec re_standard (toLowerCase input) = None ->
  (mentions "morning" input -> parseTime input = Some ("09:00" : str)) /\
  (~ mentions "morning" input -> mentions "afternoon" input ->
   parseTime input = Some ("14:00" : str)) /\
  (~ mentions "morning" input -> ~ mentions "afternoon" input ->
   mentions "evening" input -> parseTime input = Some ("18:00" : str)) /\
  (~ mentions "morning" input -> ~ mentions "afternoon" input ->
   ~ mentions "evening" input -> mentions "night" input ->
   parseTime input = Some ("21:00" : str)) /\
  (~ mentions "morning" input -> ~ mentions "afternoon" input ->
   ~ mentions "evening" input -> ~ mentions "night" input ->
   mentions "tonight" input -> parseTime input = Some ("20:00" : str)) /\
  (~ mentions "morning" input -> ~ mentions "afternoon" input ->
   ~ mentions "evening" input -> ~ mentions "night" input ->
   ~ mentions "tonight" input -> parseTime input = None).
Proof.
  intros S. unfold parseTime, mentions. rewrite S.
  decide_word ("morning" : str) input N1.
  { repeat split; intros; (reflexivity || contradiction). }
  decide_word ("afternoon" : str) input N2.
  { repeat split; intros; (reflexivity || contradiction). }
  decide_word ("evening" : str) input N3.
  { repeat split; intros; (reflexivity || contradiction). }
  decide_word ("night" : str) input N4.
  { repeat split; intros; (reflexivity || contradiction). }
  decide_word ("tonight" : str) input N5.
  { repeat split; intros; (reflexivity || contradiction). }
  repeat split; intros; (reflexivity || contradiction).
Qed.

Lemma parseTime_period_word_priority_witness :
  parseTime "night shift, report in the morning" = Some ("09:00" : str).
Proof.
  refine (proj1 (parseTime_period_word_priority
                   "night shift, report in the morning" _) _).
  - vm_compute. reflexivity.
  - exists ("night shift, report in the " : str), ([] : str). vm_compute. auto.
Defined.

(** C8 as stated fails: in "night then morning" the word "night" comes
    first in the text, and the time returned is that of "morning". *)
Lemma parseTime_not_first_in_text :
  parseTime "night then morning" = Some ("09:00" : str) /\
  parseTime "night then morning" <> Some ("21:00" : str).
Proof. vm_compute. split; [reflexivity | discriminate]. Qed.

(** ** What the title clean-up removes *)

Lemma remove_first_only (p : RegExp) (s : str) :
  global p = false -> removes_first_match p s (remove p s).
Proof.
  intros G. unfold remove, replace, test, exec. rewrite G. cbn [app].
  destruct (exec_from p [] None s) as [r | ] eqn:E.
  - right. apply exec_from_some in E.
    destruct E as (a & st & Hb & Hs & Hm & Ha & _ & Hl).
    simpl in Hb. subst a.
    exists (before r), (matched r), (after r), st. auto.
  - left. split; [unfold test, exec; now rewrite E | reflexivity].
Qed.

(** C5, as the code has it: the title clean-up goes through the date
    patterns and then the time patterns in list order, and removes for each
    pattern its leftmost match only from the text left by the removals
    before it - not every occurrence.  So of two full weekday names
    separated by a space the second one remains as the title.  Two equal
    fragments can still both go when two different patterns of the list
    match them, as in "tonight tonight" and "9:30am 10:30am". *)
Theorem cleanInput_removes_first_match_per_pattern :
  (forall p s, In p (DATE_PATTERNS ++ TIME_PATTERNS) ->
               removes_first_match p s (remove p s)) /\
  (forall input tags,
     cleanInput input tags =
     let stripped :=
       fold_left (fun text p => remove p text) (DATE_PATTERNS ++ TIME_PATTERNS)
         (remove re_tagList_strip (remove re_hashtag_strip input)) in
     let tidy := trim (replace re_spaces " " (trim stripped)) in
     if is_empty tidy then "New Task" : str else tidy) /\
  (forall w1 w2 : string,
     In w1 weekday_names -> In w2 weekday_names ->
     cleanInput (w1 ++ (" " : str) ++ w2) [] = w2) /\
  cleanInput "tonight tonight" [] = ("New Task" : str) /\
  cleanInput "9:30am 10:30am" [] = ("New Task" : str).
Proof.
  split; [ | split; [ | split; [ | split]]].
  - intros p s Hin. apply remove_first_only.
    cbn [DATE_PATTERNS TIME_PATTERNS app In] in Hin.
    repeat (destruct Hin as [<- | Hin]); try contradiction; reflexivity.
  - intros input tags. unfold cleanInput, cleaned_text.
    rewrite fold_left_app. reflexivity.
  - intros w1 w2 H1 H2. cbn [weekday_names In] in H1, H2.
    repeat (destruct H1 as [<- | H1]); try contradiction;
      repeat (destruct H2 as [<- | H2]); try contradiction;
      vm_compute; reflexivity.
  - vm_compute. reflexivity.
  - vm_compute. reflexivity.
Qed.

Lemma cleanInput_removes_first_match_per_pattern_witness :
  cleanInput ("friday" ++ (" " : str) ++ "sunday") [] = ("sunday" : str) /\
  removes_first_match (nth 5 DATE_PATTERNS re_spaces) "friday sunday"
    (remove (nth 5 DATE_PATTERNS re_spaces) "friday sunday").
Proof.
  split.
  - apply (proj1 (proj2 (proj2 cleanInput_removes_first_match_per_pattern))
             "friday" "sunday"); simpl; auto 10.
  - apply (proj1 cleanInput_removes_first_match_per_pattern).
    simpl. auto 10.
Defined.

(** C5 as stated fails: of the two weekday names in "monday tuesday" only
    the first is removed, and the other one is the title. *)
Lemma cleanInput_keeps_second_weekday :
  cleanInput "monday tuesday" [] = ("tuesday" : str) /\
  test (nth 5 DATE_PATTERNS re_spaces) (cleanInput "monday tuesday" []) = true.
Proof. vm_compute. split; reflexivity. Qed.

(** * Further properties of the parser *)

(** ** The tags returned *)

Lemma str_eqb_eq (a b : str) : str_eqb a b = true <-> a = b.
Proof.
  unfold str_eqb. destruct (list_eq_dec ascii_dec a b); split; intros;
    (reflexivity || assumption || discriminate || contradiction).
Qed.

Lemma existsb_str_eqb_false (x : str) (l : list str) :
  existsb (str_eqb x) l = false -> ~ In x l.
Proof.
  intros H I.
  assert (E : existsb (str_eqb x) l = true)
    by (apply existsb_exists; exists x; split; [exact I | now apply str_eqb_eq]).
  congruence.
Qed.

Lemma add_if_nonempty_normal (l : list str) (tag : str) :
  normal_tags l -> no_upper tag -> normal_tags (add_if_nonempty l tag).
Proof.
  intros [N F] U. unfold add_if_nonempty, set_add.
  destruct tag as [ | c tag]; cbn [is_empty]; [split; assumption | ].
  destruct (existsb (str_eqb (c :: tag)) l) eqn:E; [split; assumption | ].
  apply existsb_str_eqb_false in E. split.
  - apply NoDup_app; [exact N | repeat constructor; intros [] | ].
    intros x Hx [<- | []]. contradiction.
  - apply Forall_app. split; [exact F | ].
    constructor; [ | constructor]. split; [discriminate | exact U].
Qed.

Lemma fold_add_normal {A : Type} (f : A -> str) (xs : list A) :
  (forall x, no_upper (f x)) ->
  forall l, normal_tags l ->
            normal_tags (fold_left (fun tags x => add_if_nonempty tags (f x)) xs l).
Proof.
  intros U. induction xs as [ | x xs IH]; intros l N; simpl; [exact N | ].
  apply IH, add_if_nonempty_normal; [exact N | apply U].
Qed.

Lemma extractTags_normal_tags (input : str) : normal_tags (extractTags input).
Proof.
  unfold extractTags.
  assert (N0 : normal_tags []) by (split; constructor).
  assert (N1 : normal_tags
    match match_global re_hashtag input with
    | Some hashtagMatches =>
        fold_left
          (fun tags mt => add_if_nonempty tags (toLowerCase (skipn 1 mt)))
          hashtagMatches []
    | None => []
    end).
  { destruct (match_global re_hashtag input) as [ms | ]; [ | exact N0].
    apply (fold_add_normal (fun mt => toLowerCase (skipn 1 mt)));
      [intros; apply toLowerCase_no_upper | exact N0]. }
  revert N1. generalize
    match match_global re_hashtag input with
    | Some hashtagMatches =>
        fold_left
          (fun tags mt => add_if_nonempty tags (toLowerCase (skipn 1 mt)))
          hashtagMatches []
    | None => []
    end.
  intros l N1. destruct (match_global re_tagList input) as [ms | ]; [ | exact N1].
  revert l N1. induction ms as [ | mt ms IH]; intros l N1; simpl; [exact N1 | ].
  apply IH.
  set (parts := split re_separator (trim (remove re_tagWord mt))).
  clearbody parts. revert l N1.
  induction parts as [ | t parts IHp]; intros l N1; simpl; [exact N1 | ].
  apply IHp, add_if_nonempty_normal; [exact N1 | apply toLowerCase_no_upper].
Qed.

(** X1: whatever the input, [extractTags] returns each tag once, returns
    no empty tag, and returns tags without capital letters. *)
Theorem extractTags_normal (input : str) :
  NoDup (extractTags input) /\
  Forall (fun t => t <> [] /\ no_upper t) (extractTags input).
Proof. exact (extractTags_normal_tags input). Qed.

(** ** Clock times *)

Lemma clock_times_checked :
  forallb
    (fun h =>
       forallb
         (fun m => forallb (clock_time_ok h m) [NoMeridiem; AM; PM])
         (seq 0 60))
    (seq 0 24) = true.
Proof. vm_cast_no_check (eq_refl true). Qed.

(** X2: a clock text H:MM, the hour from 0 to 23 written with or without
    a leading zero and the minutes from 00 to 59, with no marker or with
    am/pm after it (lower or upper case, or after a space), is read as HH:MM on
    the 24-hour clock: am turns hour 12 into 00, pm adds 12 to every hour
    but 12 - also to the hours 13 to 23, so that "23:30pm" gives
    "35:30". *)
Theorem parseTime_clock_text (h m : nat) (mer : Meridiem) (ht mt : str) :
  (h < 24)%nat -> (m < 60)%nat ->
  In ht (hour_texts h) -> In mt (meridiem_texts mer) ->
  parseTime (ht ++ (":" : str) ++ two_digits m ++ mt)
  = Some (two_digits (hour24 h mer) ++ (":" : str) ++ two_digits m).
Proof.
  intros Hh Hm Iht Imt.
  pose proof clock_times_checked as C.
  rewrite forallb_forall in C. specialize (C h ltac:(apply in_seq; lia)).
  rewrite forallb_forall in C. specialize (C m ltac:(apply in_seq; lia)).
  rewrite forallb_forall in C.
  specialize (C mer ltac:(destruct mer; simpl; auto)).
  unfold clock_time_ok in C.
  rewrite forallb_forall in C. specialize (C ht Iht).
  rewrite forallb_forall in C. specialize (C mt Imt). cbv beta in C.
  destruct (parseTime (ht ++ (":" : str) ++ two_digits m ++ mt)) as [t | ];
    [ | discriminate].
  apply str_eqb_eq in C. now subst t.
Qed.

Lemma parseTime_clock_text_witness :
  parseTime "23:30pm" = Some ("35:30" : str) /\
  parseTime "12:05 am" = Some ("00:05" : str).
Proof.
  split.
  - apply (parseTime_clock_text 23 30 PM "23" "pm"); simpl; auto; lia.
  - apply (parseTime_clock_text 12 5 AM "12" " am"); simpl; auto 10; lia.
Defined.

(** ** Weekdays, in general *)

Section WeekdaysAhead.
Local Open Scope Z_scope.

Lemma valid_time_between (a b t : Z) :
  valid_time a -> valid_time b -> a <= t <= b -> valid_time t.
Proof. unfold valid_time. lia. Qed.

Lemma WeekDay_shift (now k : Z) :
  WeekDay (startOfDay now + k * msPerDay) = (WeekDay now + k) mod 7.
Proof.
  rewrite <- startOfDay_shift. unfold WeekDay, startOfDay, Day.
  rewrite Z.div_mul by discriminate. rewrite Z.div_add by discriminate.
  rewrite <- Z.add_assoc, (Z.add_comm k 4), Z.add_assoc.
  rewrite Zplus_mod_idemp_l. reflexivity.
Qed.

Lemma days_until (target w : Z) :
  0 <= target <= 6 -> 0 <= w <= 6 ->
  nrem (nadd (nsub (Some target) (Some w)) (Some 7)) (Some 7)
  = Some ((target - w) mod 7).
Proof.
  intros Ht Hw. unfold nrem, nadd, nsub, lift2. cbn [Z.eqb]. f_equal.
  rewrite Z.rem_mod_nonneg by lia.
  rewrite <- (Z_mod_plus_full (target - w) 1 7). f_equal; ring.
Qed.

Lemma resolve_day_ahead (mr : MatchResult) (now target : Z) :
  DAYS_OF_WEEK (toLowerCase (capture 1 mr)) = Some target ->
  0 <= target <= 6 ->
  valid_time now -> valid_time (now + 7 * msPerDay) ->
  exists k, 0 <= k <= 6 /\
    resolve_day mr now = DateAt (startOfDay now + k * msPerDay) /\
    getDay (DateAt (startOfDay now + k * msPerDay)) = Some target.
Proof.
  intros T Ht V V7.
  assert (Hw : 0 <= WeekDay now <= 6)
    by (unfold WeekDay; pose proof (Z.mod_pos_bound (Day now + 4) 7); lia).
  pose proof (Z.mod_pos_bound (target - WeekDay now) 7 ltac:(lia)) as Hk.
  exists ((target - WeekDay now) mod 7). split; [lia | ].
  unfold resolve_day. rewrite T. cbn [getDay getTime option_map].
  rewrite days_until by assumption.
  set (k := (target - WeekDay now) mod 7) in *.
  replace (nlt (Some k) (Some 0)) with false
    by (symmetry; apply Z.ltb_ge; lia).
  split.
  - apply days_later. apply (valid_time_between now (now + 7 * msPerDay));
      unfold msPerDay in *; auto; lia.
  - rewrite WeekDay_shift. f_equal. subst k.
    rewrite Zplus_mod_idemp_r.
    replace (WeekDay now + (target - WeekDay now)) with target by ring.
    apply Z.mod_small. lia.
Qed.

Lemma resolve_nextDay_ahead (mr : MatchResult) (now target : Z) :
  DAYS_OF_WEEK (toLowerCase (capture 1 mr)) = Some target ->
  0 <= target <= 6 ->
  valid_time now -> valid_time (now + 7 * msPerDay) ->
  exists k, 1 <= k <= 7 /\
    resolve_nextDay mr now = DateAt (startOfDay now + k * msPerDay) /\
    getDay (DateAt (startOfDay now + k * msPerDay)) = Some target.
Proof.
  intros T Ht V V7.
  assert (Hw : 0 <= WeekDay now <= 6)
    by (unfold WeekDay; pose proof (Z.mod_pos_bound (Day now + 4) 7); lia).
  pose proof (Z.mod_pos_bound (target - WeekDay now) 7 ltac:(lia)) as Hk.
  unfold resolve_nextDay. rewrite T. cbn [getDay getTime option_map].
  rewrite days_until by assumption.
  set (k := (target - WeekDay now) mod 7) in *.
  assert (W : (WeekDay now + k) mod 7 = target).
  { subst k. rewrite Zplus_mod_idemp_r.
    replace (WeekDay now + (target - WeekDay now)) with target by ring.
    apply Z.mod_small. lia. }
  unfold neq. destruct (Z.eqb_spec k 0) as [E | N].
  - exists 7. split; [lia | ]. split; [apply days_later, V7 | ].
    cbn [getDay getTime option_map]. rewrite WeekDay_shift. f_equal.
    rewrite E, Z.add_0_r in W.
    replace (WeekDay now + 7) with (WeekDay now + 1 * 7) by ring.
    rewrite Z_mod_plus_full. exact W.
  - exists k. split; [lia | ]. split.
    + apply days_later. apply (valid_time_between now (now + 7 * msPerDay));
        unfold msPerDay in *; auto; lia.
    + cbn [getDay getTime option_map]. rewrite WeekDay_shift. now f_equal.
Qed.



Lemma tomorrow_rule (input : str) (now : Z) :
  mentions "tomorrow" input ->
  ~ mentions "today" input ->
  valid_time (now + 1 * msPerDay) ->
  parseDate input now = Some (DateAt (startOfDay now + 1 * msPerDay)).
Proof.
  intros Tm Td V. unfold parseDate.
  apply test_word_iff in Tm. fold re_tomorrow in Tm.
  destruct (test re_today (toLowerCase input)) eqn:E.
  - apply test_word_iff in E. contradiction.
  - rewrite Tm. unfold resolve_tomorrow. now rewrite days_later.
Qed.



End WeekdaysAhead.

(** ** Text without fragments *)

Lemma replace_all_none (p : RegExp) (by_ : str) :
  forall s pv,
    (forall a b, s = a ++ b -> match_here p (last_or pv a) b = None) ->
    replace_all_from p by_ pv s 0 = s.
Proof.
  induction s as [ | c s IH]; intros pv H; cbn [replace_all_from].
  - pose proof (H [] [] eq_refl) as E. cbn [last_or] in E. now rewrite E.
  - pose proof (H [] (c :: s) eq_refl) as E. cbn [last_or] in E. rewrite E.
    f_equal. apply IH.
    intros a b Eab. apply (H (c :: a) b). simpl. now rewrite Eab.
Qed.

Lemma remove_no_match (p : RegExp) (s : str) :
  test p s = false -> remove p s = s.
Proof.
  unfold remove, replace, test, exec. intros H.
  destruct (exec_from p [] None s) eqn:E; [discriminate | ].
  destruct (global p); [ | reflexivity].
  apply replace_all_none. apply (exec_from_none _ _ _ _ E).
Qed.

Lemma remove_each_no_match (ps : list RegExp) (s : str) :
  (forall p, In p ps -> test p s = false) ->
  fold_left (fun cleaned pattern => remove pattern cleaned) ps s = s.
Proof.
  induction ps as [ | p ps IH]; intros H; simpl; [reflexivity | ].
  rewrite remove_no_match by (apply H; simpl; auto).
  apply IH. intros q Hq. apply H. simpl; auto.
Qed.

(** X5: when none of the patterns of the title clean-up (hashtag, tag
    list, date patterns, time patterns) matches anywhere in the input, the
    title is the input with its ends trimmed and every run of white space
    turned into one space, or "New Task" when nothing is left. *)
Theorem cleanInput_plain_text (input : str) (tags : list str) :
  (forall p, In p strip_patterns -> test p input = false) ->
  cleanInput input tags =
  (let tidy := trim (replace re_spaces " " (trim input)) in
   if is_empty tidy then "New Task" : str else tidy).
Proof.
  intros H. unfold cleanInput, cleaned_text. cbv zeta.
  rewrite (remove_no_match re_hashtag_strip input)
    by (apply H; unfold strip_patterns; simpl; auto).
  rewrite (remove_no_match re_tagList_strip input)
    by (apply H; unfold strip_patterns; simpl; auto).
  rewrite (remove_each_no_match DATE_PATTERNS input).
  - rewrite (remove_each_no_match TIME_PATTERNS input); [reflexivity | ].
    intros p Hp. apply H. unfold strip_patterns. right. right.
    apply in_or_app. now right.
  - intros p Hp. apply H. unfold strip_patterns. right. right.
    apply in_or_app. now left.
Qed.

Lemma cleanInput_plain_text_witness :
  cleanInput "  Buy   oat milk " [] = ("Buy oat milk" : str).
Proof.
  rewrite cleanInput_plain_text; [vm_compute; reflexivity | ].
  intros p Hp. unfold strip_patterns in Hp.
  cbn [DATE_PATTERNS TIME_PATTERNS app In] in Hp.
  repeat (destruct Hp as [<- | Hp]); try contradiction; vm_compute; reflexivity.
Defined.

(** ** White space in the title *)

Lemma space_class (c : ascii) :
  class_match false [("009", "013"); (" ", " "); ("160", "160")]%char c = is_space c.
Proof.
  apply Bool.eqb_prop.
  apply (for_all_chars
    (fun c => Bool.eqb
       (class_match false [("009", "013"); (" ", " "); ("160", "160")]%char c)
       (is_space c))).
  vm_compute. reflexivity.
Qed.

Lemma star_space_reads_run :
  forall s pv cs,
    exists st,
      m false (Star space) (fun st => Some st) (MState pv s cs) = Some st /\
      (length (rest st) + leading_spaces s = length s)%nat.
Proof.
  induction s as [ | c s IH]; intros pv cs.
  - eexists. split; [reflexivity | reflexivity].
  - rewrite m_Star. unfold space at 1. cbn [m]. unfold step_char. cbn [rest caps].
    rewrite space_class. cbn [leading_spaces].
    destruct (is_space c).
    + destruct (IH (Some c) cs) as (st & E & L).
      cbn [length].
      replace (length s <? S (length s))%nat with true
        by (symmetry; apply Nat.ltb_lt; lia).
      cbn [m rest] in E. rewrite E.
      exists st. split; [reflexivity | ]. lia.
    + eexists. split; [reflexivity | ]. cbn [rest length]. lia.
Qed.

Lemma match_spaces (pv : option ascii) (s : str) :
  match match_here re_spaces pv s with
  | Some st => (length s - length (rest st) = leading_spaces s)%nat
  | None => True
  end /\
  (match_here re_spaces pv s = None <-> leading_spaces s = 0%nat).
Proof.
  unfold match_here, re_spaces, Plus. cbn [re ignoreCase].
  change (m false (Seq space (Star space)) (fun st => Some st) (MState pv s []))
    with (step_char (class_match false
                       [("009", "013"); (" ", " "); ("160", "160")]%char)
            (m false (Star space) (fun st => Some st)) (MState pv s [])).
  unfold step_char. cbn [rest caps].
  destruct s as [ | c s]; [split; [exact I | split; reflexivity] | ].
  rewrite space_class. cbn [leading_spaces]. destruct (is_space c).
  - destruct (star_space_reads_run s (Some c) []) as (st & E & L).
    rewrite E. cbn [length]. split; [lia | split; discriminate].
  - split; [exact I | split; reflexivity].
Qed.

Lemma collapse_no_run (s : str) :
  leading_spaces s = 0%nat -> collapse true s = collapse false s.
Proof.
  destruct s as [ | c s]; [reflexivity | ]. cbn [leading_spaces collapse].
  destruct (is_space c); [discriminate | reflexivity].
Qed.

(** [replace(/\s+/g, ' ')] computes [collapse]. *)
Lemma replace_spaces_collapse :
  forall s pv,
    replace_all_from re_spaces " " pv s (leading_spaces s) = collapse true s /\
    replace_all_from re_spaces " " pv s 0 = collapse false s.
Proof.
  induction s as [ | c s IH]; intros pv.
  - cbn [leading_spaces replace_all_from collapse].
    destruct (match_spaces pv []) as (_ & N).
    rewrite (proj2 N eq_refl). split; reflexivity.
  - destruct (IH (Some c)) as (IH1 & IH0).
    destruct (match_spaces pv (c :: s)) as (M & N).
    cbn [leading_spaces collapse] in *.
    destruct (is_space c).
    + split.
      * cbn [replace_all_from]. exact IH1.
      * cbn [replace_all_from].
        destruct (match_here re_spaces pv (c :: s)) as [st | ].
        -- rewrite M. rewrite IH1. reflexivity.
        -- exfalso. destruct N as (N & _). specialize (N eq_refl). discriminate.
    + assert (E : match_here re_spaces pv (c :: s) = None) by now apply N.
      cbn [replace_all_from]. rewrite E, IH0. split; reflexivity.
Qed.

Lemma collapse_spaces_single (s : str) :
  forall b, spaces_single b (collapse b s) = true.
Proof.
  induction s as [ | c s IH]; intros b; cbn [collapse]; [reflexivity | ].
  destruct (is_space c) eqn:E.
  - destruct b; [apply IH | ]. cbn [spaces_single].
    change (is_space " ") with true. cbn [negb andb]. apply IH.
  - cbn [spaces_single]. rewrite E. apply IH.
Qed.

Lemma spaces_single_weaken (s : str) (b : bool) :
  spaces_single b s = true -> spaces_single false s = true.
Proof.
  destruct s as [ | c s]; [reflexivity | ]. cbn [spaces_single].
  destruct (is_space c); [ | auto]. destruct b; [discriminate | auto].
Qed.

Lemma spaces_single_suffix (a s : str) :
  forall b, spaces_single b (a ++ s) = true -> spaces_single false s = true.
Proof.
  induction a as [ | c a IH]; intros b H.
  - eapply spaces_single_weaken, H.
  - cbn [app spaces_single] in H. destruct (is_space c).
    + apply andb_true_iff in H. destruct H as (_ & H). eapply IH, H.
    + eapply IH, H.
Qed.

Lemma spaces_single_prefix (s a : str) :
  forall b, spaces_single b (s ++ a) = true -> spaces_single b s = true.
Proof.
  induction s as [ | c s IH]; intros b H; [reflexivity | ].
  cbn [app spaces_single] in *. destruct (is_space c).
  - apply andb_true_iff in H. destruct H as (H1 & H).
    rewrite H1. apply IH, H.
  - apply IH, H.
Qed.

Lemma trimStart_suffix (s : str) : exists sp, s = sp ++ trimStart s.
Proof.
  induction s as [ | c s (sp & IH)]; [exists []; reflexivity | ].
  cbn [trimStart]. destruct (is_space c).
  - exists (c :: sp). simpl. now rewrite <- IH.
  - exists []. reflexivity.
Qed.

Lemma trimStart_first (s : str) : no_space_first (trimStart s).
Proof.
  induction s as [ | c s IH]; [exact I | ]. cbn [trimStart].
  destruct (is_space c) eqn:E; [exact IH | exact E].
Qed.

Lemma trimEnd_prefix (s : str) : exists sp, s = trimEnd s ++ sp.
Proof.
  unfold trimEnd. destruct (trimStart_suffix (rev s)) as (sp & E).
  exists (rev sp). rewrite <- rev_app_distr, <- E. symmetry. apply rev_involutive.
Qed.

Lemma trim_single_spaced (s : str) :
  spaces_single false s = true -> single_spaced (trim s).
Proof.
  intros H. unfold single_spaced, trim.
  destruct (trimStart_suffix s) as (sp & E).
  destruct (trimEnd_prefix (trimStart s)) as (sq & F).
  repeat split.
  - pose proof (trimStart_first s) as W. rewrite F in W.
    destruct (trimEnd (trimStart s)); [exact I | exact W].
  - unfold trimEnd. rewrite rev_involutive. apply trimStart_first.
  - rewrite E in H. apply spaces_single_suffix in H. rewrite F in H.
    eapply spaces_single_prefix, H.
Qed.

(** X6: whatever the input, the title has no white space at its ends, and
    the only white space inside it is single spaces: no tab, no line
    break, no two spaces in a row. *)
Theorem title_single_spaced (input : str) (now : Z) :
  single_spaced (title (parseTaskInput input now)).
Proof.
  unfold parseTaskInput, cleanInput. cbn [title].
  destruct (is_empty (cleaned_text input)) eqn:E.
  - repeat split.
  - unfold cleaned_text, replace. cbn [global re_spaces].
    apply trim_single_spaced.
    rewrite (proj2 (replace_spaces_collapse _ None)).
    apply collapse_spaces_single.
Qed.

(** * Display and suggestions *)

Section DisplayProperties.
Local Open Scope Z_scope.

Variable intlFormat : Z -> str.

Lemma setHours4_zero_valid (t : Z) :
  valid_time t -> setHours4 (DateAt t) 0 0 0 0 = DateAt (startOfDay t).
Proof.
  intros V. rewrite setHours4_zero. apply TimeClip_valid, startOfDay_valid, V.
Qed.

Lemma startOfDay_idem (t : Z) : startOfDay (startOfDay t) = startOfDay t.
Proof.
  unfold startOfDay at 1 3. f_equal. unfold startOfDay, Day.
  apply Z.div_mul. discriminate.
Qed.

Lemma startOfDay_eq_iff (t u : Z) : startOfDay t = startOfDay u <-> Day t = Day u.
Proof.
  unfold startOfDay, msPerDay. split; intros H; [ | now rewrite H]. lia.
Qed.

Lemma display_cases (t now : Z) :
  valid_time t -> valid_time now -> valid_time (now + 1 * msPerDay) ->
  formatDateForDisplay intlFormat (DateAt t) now =
  if Day t =? Day now then Returned ("Today" : str)
  else if Day t =? Day now + 1 then Returned ("Tomorrow" : str)
  else Returned (intlFormat t).
Proof.
  intros Vt Vn V1. unfold formatDateForDisplay.
  rewrite (setHours4_zero_valid now Vn), (setHours4_zero_valid t Vt).
  rewrite setDate_getDate.
  rewrite TimeClip_valid
    by (rewrite <- startOfDay_shift; apply startOfDay_valid, V1).
  cbn [getTime neq].
  destruct (Z.eqb_spec (Day t) (Day now)) as [E | N].
  - rewrite (proj2 (startOfDay_eq_iff t now) E), Z.eqb_refl. reflexivity.
  - destruct (Z.eqb_spec (startOfDay t) (startOfDay now)) as [E | _];
      [apply startOfDay_eq_iff in E; contradiction | ].
    rewrite <- startOfDay_shift.
    assert (D : Day (now + 1 * msPerDay) = Day now + 1)
      by (unfold Day; now rewrite Z.div_add by discriminate).
    destruct (Z.eqb_spec (Day t) (Day now + 1)) as [E1 | N1].
    + rewrite <- D in E1.
      rewrite (proj2 (startOfDay_eq_iff _ _) E1), Z.eqb_refl. reflexivity.
    + destruct (Z.eqb_spec (startOfDay t) (startOfDay (now + 1 * msPerDay)))
        as [E | _]; [ | reflexivity].
      apply startOfDay_eq_iff in E. rewrite D in E. contradiction.
Qed.

(** X7: for a date with a time value, [formatDateForDisplay] gives "Today"
    when the date lies on today's local day, at any time of that day,
    "Tomorrow" when it lies on the next day, and what the platform's date
    formatter gives in every other case. *)
Theorem formatDateForDisplay_cases (t now : Z) :
  valid_time t -> valid_time now -> valid_time (now + 1 * msPerDay) ->
  formatDateForDisplay intlFormat (DateAt t) now =
  if Day t =? Day now then Returned ("Today" : str)
  else if Day t =? Day now + 1 then Returned ("Tomorrow" : str)
  else Returned (intlFormat t).
Proof. exact (display_cases t now). Qed.

(** X8: on an invalid date [formatDateForDisplay] throws the formatter's
    RangeError, at every moment; and the date the parser returns for
    "in 99999999999999 days" is such a date, so that displaying the result
    of that parse throws. *)
Theorem formatDateForDisplay_invalid_date (now : Z) :
  formatDateForDisplay intlFormat InvalidDate now = RangeError /\
  (valid_time now ->
   exists d, date (parseTaskInput "in 99999999999999 days" now) = Some d /\
             formatDateForDisplay intlFormat d now = RangeError).
Proof.
  assert (F : formatDateForDisplay intlFormat InvalidDate now = RangeError).
  { unfold formatDateForDisplay. cbn [setHours4 getTime neq]. reflexivity. }
  split; [exact F | ]. intros V. exists InvalidDate. split; [ | exact F].
  unfold parseTaskInput. cbn [date]. unfold parseDate. run_patterns.
  f_equal. unfold resolve_relative.
  match goal with
  | |- context [parseInt ?x] =>
      replace (parseInt x) with (Some 99999999999999) by (vm_compute; reflexivity)
  end.
  match goal with
  | |- context [startsWith ?x ?y] =>
      replace (startsWith x y) with true by (vm_compute; reflexivity)
  end.
  cbv iota. rewrite setDate_getDate.
  assert (I : TimeClip (now + 99999999999999 * msPerDay) = InvalidDate).
  { unfold TimeClip, valid_time, msPerDay in *.
    destruct (Z.leb_spec (Z.abs (now + 99999999999999 * 86400000))
                8640000000000000); [lia | reflexivity]. }
  rewrite I. reflexivity.
Qed.

(** X9: the date parsed from an input that holds the word "today" is
    displayed as "Today", and the date parsed from an input that holds
    "tomorrow" and not "today" is displayed as "Tomorrow". *)
Theorem parse_then_display (input : str) (now : Z) :
  valid_time now -> valid_time (now + 1 * msPerDay) ->
  (mentions "today" input ->
   exists d, parseDate input now = Some d /\
             formatDateForDisplay intlFormat d now = Returned ("Today" : str)) /\
  (mentions "tomorrow" input -> ~ mentions "today" input ->
   exists d, parseDate input now = Some d /\
             formatDateForDisplay intlFormat d now = Returned ("Tomorrow" : str)).
Proof.
  intros V V1.
  assert (Vs : valid_time (startOfDay now)) by now apply startOfDay_valid.
  assert (Vs1 : valid_time (startOfDay now + 1 * msPerDay))
    by (rewrite <- startOfDay_shift; now apply startOfDay_valid).
  split.
  - intros T. exists (DateAt (startOfDay now)). split.
    + unfold parseDate. apply test_word_iff in T. fold re_today in T.
      rewrite T. now rewrite resolve_today_eq.
    + rewrite display_cases by assumption.
      replace (Day (startOfDay now)) with (Day now)
        by (unfold startOfDay, Day; now rewrite Z.div_mul by discriminate).
      now rewrite Z.eqb_refl.
  - intros T N. exists (DateAt (startOfDay now + 1 * msPerDay)). split.
    + now apply tomorrow_rule.
    + rewrite display_cases by assumption.
      replace (Day (startOfDay now + 1 * msPerDay)) with (Day now + 1).
      * destruct (Z.eqb_spec (Day now + 1) (Day now)); [lia | ].
        now rewrite Z.eqb_refl.
      * unfold startOfDay, Day.
        rewrite Z.div_add by discriminate. now rewrite Z.div_mul by discriminate.
Qed.

End DisplayProperties.

Lemma formatDateForDisplay_cases_witness :
  formatDateForDisplay String_of (DateAt 1793746800000) 1793653200000
  = Returned ("Tomorrow" : str).
Proof.
  rewrite formatDateForDisplay_cases; try (vm_compute; discriminate).
  vm_compute. reflexivity.
Defined.

Lemma formatDateForDisplay_invalid_date_witness :
  exists d, date (parseTaskInput "in 99999999999999 days" 1793653200000) = Some d /\
            formatDateForDisplay String_of d 1793653200000 = RangeError.
Proof.
  apply (proj2 (formatDateForDisplay_invalid_date String_of 1793653200000)).
  vm_compute. discriminate.
Defined.

Lemma parse_then_display_witness :
  exists d, parseDate "call Ann today" 1793653200000 = Some d /\
            formatDateForDisplay String_of d 1793653200000 = Returned ("Today" : str).
Proof.
  refine (proj1 (parse_then_display String_of "call Ann today" 1793653200000 _ _) _).
  - vm_compute. discriminate.
  - vm_compute. discriminate.
  - exists ("call ann " : str), ([] : str). vm_compute. auto.
Defined.

Section SuggestionProperties.
Local Open Scope Z_scope.

Lemma tomorrow_of_midnight (now : Z) :
  valid_time now -> valid_time (now + 1 * msPerDay) ->
  setDate (setHours4 (DateAt now) 0 0 0 0)
    (nadd (getDate (setHours4 (DateAt now) 0 0 0 0)) (Some 1))
  = DateAt (startOfDay now + 1 * msPerDay).
Proof.
  intros V V1. rewrite setHours4_zero_valid by assumption.
  rewrite setDate_getDate. apply TimeClip_valid.
  rewrite <- startOfDay_shift. now apply startOfDay_valid.
Qed.



End SuggestionProperties.

(** X11: every time suggestion, whatever the input it is asked for, has a
    label that the time extractor reads as the suggested time, and the
    four suggested times are different. *)
Theorem getTimeSuggestions_labels_parse (input : str) :
  Forall (fun s => parseTime (TimeSuggestion.text s) = Some (TimeSuggestion.time s))
         (getTimeSuggestions input) /\
  NoDup (map TimeSuggestion.time (getTimeSuggestions input)).
Proof.
  split.
  - unfold getTimeSuggestions.
    repeat (apply Forall_cons; [vm_compute; reflexivity | ]). apply Forall_nil.
  - cbn [map getTimeSuggestions TimeSuggestion.time].
    repeat (apply NoDup_cons; [cbn [In]; intuition discriminate | ]).
    apply NoDup_nil.
Qed.

(** X12: every common tag, typed as a hashtag, is extracted as exactly
    that tag - the common tags are in the form [extractTags] returns - and
    no common tag is listed twice. *)
Theorem getCommonTags_extract_as_hashtags :
  Forall (fun s => extractTags ("#"%char :: TagSuggestion.text s) = [TagSuggestion.text s])
         getCommonTags /\
  NoDup (map TagSuggestion.text getCommonTags).
Proof.
  split.
  - unfold getCommonTags.
    repeat (apply Forall_cons; [vm_compute; reflexivity | ]). apply Forall_nil.
  - cbn [map getCommonTags TagSuggestion.text].
    repeat (apply NoDup_cons; [cbn [In]; intuition discriminate | ]).
    apply NoDup_nil.
Qed.

(** * The month and day of today *)

Section MonthDayOfToday.
Local Open Scope Z_scope.

Lemma month_day_read_all :
  forallb (fun name => forallb (month_day_read name) (seq 1 31)) month_names = true.
Proof. vm_cast_no_check (eq_refl true). Qed.

Lemma Day_startOfDay (t : Z) : Day (startOfDay t) = Day t.
Proof. unfold startOfDay, Day. apply Z.div_mul. discriminate. Qed.

Lemma calendar_of_day (a b : Z) :
  Day a = Day b ->
  YearFromTime a = YearFromTime b /\ MonthFromTime a = MonthFromTime b /\
  DateFromTime a = DateFromTime b.
Proof.
  intros E.
  assert (Y : YearFromTime a = YearFromTime b) by (unfold YearFromTime; now rewrite E).
  assert (W : DayWithinYear a = DayWithinYear b) by (unfold DayWithinYear; now rewrite E, Y).
  assert (M : MonthFromTime a = MonthFromTime b) by (unfold MonthFromTime; now rewrite W, Y).
  repeat split; trivial. unfold DateFromTime. now rewrite W, M, Y.
Qed.

Lemma MakeDay_of_date (t : Z) :
  MakeDay (YearFromTime t) (MonthFromTime t) (DateFromTime t) = Day t.
Proof.
  unfold MakeDay, DateFromTime, DayWithinYear.
  pose proof (MonthFromTime_range t) as R.
  rewrite (Z.div_small (MonthFromTime t) 12) by lia.
  rewrite (Z.mod_small (MonthFromTime t) 12) by lia.
  rewrite Z.add_0_r. ring.
Qed.

Lemma DayFromYear_mono (a b : Z) : a <= b -> DayFromYear a <= DayFromYear b.
Proof.
  intros H. unfold DayFromYear. Z.to_euclidean_division_equations. lia.
Qed.

Lemma YearFromTime_since_epoch (t : Z) : 0 <= t -> 1970 <= YearFromTime t.
Proof.
  intros H. pose proof (YearFromTime_spec t) as (_ & U).
  assert (D : 0 <= Day t) by (unfold Day; apply Z.div_pos; [exact H | reflexivity]).
  destruct (Z.le_gt_cases 1970 (YearFromTime t)) as [ | L]; [assumption | ].
  pose proof (DayFromYear_mono (YearFromTime t + 1) 1970 ltac:(lia)) as M.
  change (DayFromYear 1970) with 0 in M. lia.
Qed.

Lemma leap_years_apart (y : Z) : InLeapYear y = true -> InLeapYear (y + 1) = false.
Proof.
  unfold InLeapYear. intros H. apply andb_true_iff in H. destruct H as (H & _).
  apply Z.eqb_eq in H. apply andb_false_iff. left. apply Z.eqb_neq.
  Z.to_euclidean_division_equations. lia.
Qed.

(** The same month and day one year later is 365 or 366 days away. *)
Lemma MakeDay_next_year (y mo d : Z) :
  0 <= mo <= 11 ->
  365 <= MakeDay (y + 1) mo d - MakeDay y mo d <= 366.
Proof.
  intros R. unfold MakeDay.
  rewrite (Z.div_small mo 12) by lia. rewrite (Z.mod_small mo 12) by lia.
  rewrite !Z.add_0_r, DayFromYear_step.
  pose proof (leap_years_apart y) as A.
  unfold DaysBeforeMonth.
  destruct (InLeapYear y); [rewrite (A eq_refl) | destruct (InLeapYear (y + 1))];
    repeat match goal with
           | |- context [if ?a <=? ?b then _ else _] => destruct (Z.leb_spec a b)
           | |- context [if ?a =? ?b then _ else _] => destruct (Z.eqb_spec a b)
           end; lia.
Qed.

Lemma newDate_of_today (now : Z) :
  0 <= now -> valid_time now ->
  newDate (Some (YearFromTime now)) (Some (MonthFromTime now))
          (Some (DateFromTime now))
  = DateAt (startOfDay now).
Proof.
  intros P Vn. pose proof (YearFromTime_since_epoch now P) as Y.
  unfold newDate.
  replace ((0 <=? YearFromTime now) && (YearFromTime now <=? 99)) with false
    by (symmetry; apply andb_false_iff; right; apply Z.leb_gt; lia).
  rewrite MakeDay_of_date.
  replace (MakeDate (Day now) (MakeTime 0 0 0 0)) with (startOfDay now)
    by (unfold MakeDate, MakeTime, startOfDay; ring).
  apply TimeClip_valid, startOfDay_valid, Vn.
Qed.

Lemma YearFromTime_unique (t y : Z) :
  DayFromYear y <= Day t < DayFromYear (y + 1) -> YearFromTime t = y.
Proof.
  intros B. pose proof (YearFromTime_spec t) as S.
  destruct (Z.lt_trichotomy (YearFromTime t) y) as [L | [E | G]]; [ | exact E | ].
  - pose proof (DayFromYear_mono (YearFromTime t + 1) y ltac:(lia)). lia.
  - pose proof (DayFromYear_mono (y + 1) (YearFromTime t) ltac:(lia)). lia.
Qed.

Lemma month_number_inj (a b : Month) : month_number a = month_number b -> a = b.
Proof. destruct a, b; cbn; intros H; try reflexivity; discriminate H. Qed.

Ltac days_before :=
  repeat match goal with
         | |- context [DaysBeforeMonth ?a ?b] =>
             let v := eval vm_compute in (DaysBeforeMonth a b) in
             change (DaysBeforeMonth a b) with v
         | H : context [DaysBeforeMonth ?a ?b] |- _ =>
             let v := eval vm_compute in (DaysBeforeMonth a b) in
             change (DaysBeforeMonth a b) with v in H
         end.

(** The day count of a calendar date reads back as that date. *)
Lemma calendar_of_MakeDay (t y : Z) (mo : Month) (d : Z) :
  1 <= d <= days_in_month mo (InLeapYear y) ->
  Day t = MakeDay y (month_number mo) d ->
  YearFromTime t = y /\ MonthFromTime t = month_number mo /\ DateFromTime t = d.
Proof.
  intros R E.
  assert (M : MakeDay y (month_number mo) d
              = DayFromYear y + DaysBeforeMonth (month_number mo) (InLeapYear y) + d - 1).
  { assert (B : 0 <= month_number mo <= 11) by (destruct mo; cbn; lia).
    unfold MakeDay. rewrite (Z.div_small _ 12), (Z.mod_small _ 12) by lia.
    now rewrite Z.add_0_r. }
  rewrite M in E. clear M.
  assert (Y : YearFromTime t = y).
  { apply YearFromTime_unique. rewrite DayFromYear_step, E.
    destruct (InLeapYear y), mo; cbn [month_number days_in_month] in *;
      days_before; lia. }
  assert (W : DayWithinYear t
              = DaysBeforeMonth (month_number mo) (InLeapYear y) + d - 1)
    by (unfold DayWithinYear; rewrite Y; lia).
  assert (Mo : MonthFromTime t = month_number mo).
  { unfold MonthFromTime. rewrite W, Y.
    destruct (InLeapYear y), mo; cbn [month_number days_in_month] in R |- *;
      days_before;
      repeat match goal with
             | |- context [if ?a <? ?b then _ else _] => destruct (Z.ltb_spec a b)
             end; lia. }
  repeat split; trivial.
  unfold DateFromTime. rewrite W, Mo, Y. ring.
Qed.

(** Every moment lies on a day of its month. *)
Lemma date_within_month (t : Z) :
  exists mo, MonthFromTime t = month_number mo /\
             1 <= DateFromTime t <= days_in_month mo (InLeapYear (YearFromTime t)).
Proof.
  unfold DateFromTime, MonthFromTime.
  pose proof (DayWithinYear_range t) as R.
  set (d := DayWithinYear t) in *. clearbody d.
  destruct (InLeapYear (YearFromTime t));
    repeat match goal with
           | |- context [if ?a <? ?b then _ else _] => destruct (Z.ltb_spec a b)
           end; days_before;
    [ exists January | exists February | exists March | exists April | exists May
    | exists June | exists July | exists August | exists September
    | exists October | exists November | exists December
    | exists January | exists February | exists March | exists April | exists May
    | exists June | exists July | exists August | exists September
    | exists October | exists November | exists December ];
    cbn [month_number days_in_month]; days_before; lia.
Qed.

(** 29 February, the day a year can lack. *)
Lemma next_year_calendar (t r : Z) (mo : Month) (d : nat) :
  MonthFromTime t = month_number mo ->
  DateFromTime t = Z.of_nat d ->
  Day r = MakeDay (YearFromTime t + 1) (month_number mo) (Z.of_nat d) ->
  YearFromTime r = YearFromTime t + 1 /\
  (MonthFromTime r, DateFromTime r)
  = if is_leap_day mo d then (month_number March, 1)
    else (month_number mo, Z.of_nat d).
Proof.
  intros Hm Hd E.
  destruct (date_within_month t) as (mo' & Hm' & R).
  rewrite Hm in Hm'. apply month_number_inj in Hm'. subst mo'. rewrite Hd in R.
  pose proof (leap_years_apart (YearFromTime t)) as A.
  destruct (is_leap_day mo d) eqn:L.
  - assert (F : mo = February /\ d = 29%nat).
    { unfold is_leap_day in L. destruct mo; try discriminate.
      apply Nat.eqb_eq in L. auto. }
    destruct F as (-> & ->).
    assert (Lp : InLeapYear (YearFromTime t) = true).
    { destruct (InLeapYear (YearFromTime t)); [reflexivity | ].
      cbn [days_in_month] in R. lia. }
    specialize (A Lp).
    assert (E' : Day r = MakeDay (YearFromTime t + 1) (month_number March) 1).
    { rewrite E. unfold MakeDay. cbn [month_number].
      change (1 / 12) with 0. change (2 / 12) with 0.
      change (1 mod 12) with 1. change (2 mod 12) with 2.
      rewrite Z.add_0_r, A. days_before. change (Z.of_nat 29) with 29. ring. }
    destruct (calendar_of_MakeDay r _ March 1 ltac:(cbn; lia) E') as (Y & M & D).
    split; [exact Y | ]. now rewrite M, D.
  - assert (R' : 1 <= Z.of_nat d
                 <= days_in_month mo (InLeapYear (YearFromTime t + 1))).
    { unfold is_leap_day in L.
      destruct mo; cbn [days_in_month] in R |- *; try lia.
      apply Nat.eqb_neq in L.
      destruct (InLeapYear (YearFromTime t)), (InLeapYear (YearFromTime t + 1));
        lia. }
    destruct (calendar_of_MakeDay r _ mo _ R' E) as (Y & M & D).
    split; [exact Y | ]. now rewrite M, D.
Qed.

Lemma setFullYear_next (now : Z) :
  valid_time now -> valid_time (now + 367 * msPerDay) ->
  exists k, 365 <= k <= 366 /\
    setFullYear (DateAt (startOfDay now)) (Some (YearFromTime now + 1))
    = DateAt (startOfDay now + k * msPerDay) /\
    Day now + k
    = MakeDay (YearFromTime now + 1) (MonthFromTime now) (DateFromTime now).
Proof.
  intros Vn V. unfold setFullYear.
  destruct (calendar_of_day _ _ (Day_startOfDay now)) as (_ & Em & Ed).
  rewrite Em, Ed.
  replace (TimeWithinDay (startOfDay now)) with 0
    by (symmetry; apply startOfDay_multiple).
  pose proof (MakeDay_next_year (YearFromTime now) (MonthFromTime now)
                (DateFromTime now) (MonthFromTime_range now)) as K.
  rewrite MakeDay_of_date in K.
  generalize dependent (MakeDay (YearFromTime now + 1) (MonthFromTime now)
                          (DateFromTime now)).
  intros next K. exists (next - Day now). split; [exact K | ].
  split; [ | ring].
  replace (MakeDate next 0) with (startOfDay now + (next - Day now) * msPerDay)
    by (unfold MakeDate, startOfDay; ring).
  apply TimeClip_valid.
  pose proof (Z.div_mod now msPerDay ltac:(discriminate)) as DM.
  pose proof (Z.mod_pos_bound now msPerDay ltac:(reflexivity)) as MB.
  apply (valid_time_between now (now + 367 * msPerDay)); trivial.
  unfold startOfDay, Day, msPerDay in *. lia.
Qed.

Lemma resolve_monthDay_of_today (mr : MatchResult) (now : Z) :
  MONTHS (toLowerCase (capture 1 mr)) = Some (MonthFromTime now) ->
  parseInt (capture 2 mr) = Some (DateFromTime now) ->
  0 <= now -> valid_time (now + 367 * msPerDay) ->
  (now mod msPerDay = 0 -> resolve_monthDay mr now = DateAt now) /\
  (now mod msPerDay <> 0 ->
   exists k, 365 <= k <= 366 /\
     resolve_monthDay mr now = DateAt (startOfDay now + k * msPerDay) /\
     Day now + k
     = MakeDay (YearFromTime now + 1) (MonthFromTime now) (DateFromTime now)).
Proof.
  intros Hm Hd P V.
  assert (Vn : valid_time now) by (unfold valid_time, msPerDay in *; lia).
  unfold resolve_monthDay. rewrite Hm, Hd.
  unfold getFullYear, getTime, option_map.
  rewrite (newDate_of_today now P Vn).
  unfold date_lt, getTime, nlt.
  pose proof (Z.div_mod now msPerDay ltac:(discriminate)) as DM.
  pose proof (Z.mod_pos_bound now msPerDay ltac:(reflexivity)) as MB.
  assert (S : now = startOfDay now + now mod msPerDay)
    by (unfold startOfDay, Day; lia).
  split.
  - intros Z0. replace (startOfDay now <? now) with false
      by (symmetry; apply Z.ltb_ge; lia).
    rewrite setHours4_zero, startOfDay_idem.
    rewrite (TimeClip_valid _ (startOfDay_valid now Vn)). f_equal. lia.
  - intros NZ. replace (startOfDay now <? now) with true
      by (symmetry; apply Z.ltb_lt; lia).
    unfold nadd, lift2.
    destruct (setFullYear_next now Vn V) as (k & K & E & N).
    exists k. split; [exact K | ]. split; [ | exact N]. rewrite E.
    rewrite setHours4_zero, startOfDay_shift, startOfDay_idem.
    apply TimeClip_valid.
    apply (valid_time_between now (now + 367 * msPerDay)); trivial.
    unfold startOfDay, Day, msPerDay in *. lia.
Qed.

Lemma names_month_listed (name : string) (mo : Month) :
  names_month name mo -> In name month_names.
Proof. intros [-> | ->]; destruct mo; cbn; auto 30. Qed.

(** X13: an input that is a month name and a day naming today's own date
    resolves to today only when the clock stands at local midnight
    exactly; at every later moment of the day the date counts as past and
    the input resolves to next year, 365 or 366 days ahead: to the same
    month and day, or to 1 March when today is 29 February, a day next
    year lacks.  Which month a name stands for is read from the
    calendar's table, not from the parser's. *)
Theorem month_day_of_today (mo : Month) (name : string) (d : nat) (now : Z)
    (input : str) :
  names_month name mo ->
  getMonth (DateAt now) = Some (month_number mo) ->
  getDate (DateAt now) = Some (Z.of_nat d) ->
  toLowerCase input = month_day_text name d ->
  0 <= now -> valid_time (now + 367 * msPerDay) ->
  (now mod msPerDay = 0 -> parseDate input now = Some (DateAt now)) /\
  (now mod msPerDay <> 0 ->
   exists k, 365 <= k <= 366 /\
     parseDate input now = Some (DateAt (startOfDay now + k * msPerDay)) /\
     getFullYear (DateAt (startOfDay now + k * msPerDay))
     = nadd (getFullYear (DateAt now)) (Some 1) /\
     (getMonth (DateAt (startOfDay now + k * msPerDay)),
      getDate (DateAt (startOfDay now + k * msPerDay)))
     = if is_leap_day mo d then (Some (month_number March), Some 1)
       else (Some (month_number mo), Some (Z.of_nat d))).
Proof.
  intros Hn Hmo Hg L P V.
  pose proof (names_month_listed name mo Hn) as Hin.
  cbn [getDate getMonth getTime option_map] in Hg, Hmo.
  injection Hg as Hg. injection Hmo as Hmo.
  assert (Hd : (1 <= d <= 31)%nat)
    by (pose proof (DateFromTime_range now); lia).
  pose proof month_day_read_all as C.
  rewrite forallb_forall in C. specialize (C name Hin).
  rewrite forallb_forall in C. specialize (C d ltac:(apply in_seq; lia)).
  unfold month_day_read in C. cbv zeta in C.
  repeat (apply andb_true_iff in C; destruct C as (C & ?)).
  unfold parseDate. rewrite L.
  repeat match goal with
         | H : negb ?b = true |- _ => apply negb_true_iff in H; rewrite H; clear H
         | H : is_none ?o = true |- _ =>
             destruct o eqn:?; [discriminate H | clear H]
         end.
  destruct (exec re_monthDay (month_day_text name d)) as [mr | ]; [ | discriminate].
  match goal with
  | H : _ && _ = true |- _ => apply andb_true_iff in H; destruct H as (H1 & H2)
  end.
  apply str_eqb_eq in H1.
  assert (H3 : parseInt (capture 2 mr) = Some (DateFromTime now)).
  { destruct (parseInt (capture 2 mr)); [ | discriminate].
    apply Z.eqb_eq in H2. rewrite Hg. now subst. }
  assert (H4 : MONTHS (toLowerCase (capture 1 mr)) = Some (MonthFromTime now)).
  { rewrite H1, Hmo. destruct Hn as [-> | ->]; destruct mo; reflexivity. }
  destruct (resolve_monthDay_of_today mr now H4 H3 P V) as (A & B).
  split.
  - intros Z0. now rewrite (A Z0).
  - intros NZ. destruct (B NZ) as (k & K & R & N). exists k.
    split; [exact K | ]. split; [now rewrite R | ].
    assert (E : Day (startOfDay now + k * msPerDay)
                = MakeDay (YearFromTime now + 1) (month_number mo) (Z.of_nat d)).
    { rewrite <- Hmo, <- Hg, <- N. rewrite <- startOfDay_shift, Day_startOfDay.
      unfold Day. apply Z.div_add. discriminate. }
    destruct (next_year_calendar now _ mo d Hmo Hg E) as (Y & MD).
    cbn [getFullYear getMonth getDate getTime option_map nadd lift2].
    split; [now rewrite Y | ].
    destruct (is_leap_day mo d); injection MD as M D; now rewrite M, D.
Qed.

Lemma month_day_of_today_witness :
  (exists k, 365 <= k <= 366 /\
     parseDate "November 2" 1793653200000
     = Some (DateAt (startOfDay 1793653200000 + k * msPerDay)) /\
     getFullYear (DateAt (startOfDay 1793653200000 + k * msPerDay)) = Some 2027 /\
     (getMonth (DateAt (startOfDay 1793653200000 + k * msPerDay)),
      getDate (DateAt (startOfDay 1793653200000 + k * msPerDay)))
     = (Some 10, Some 2)) /\
  (exists k, 365 <= k <= 366 /\
     parseDate "feb 29" 1835438400000
     = Some (DateAt (startOfDay 1835438400000 + k * msPerDay)) /\
     getFullYear (DateAt (startOfDay 1835438400000 + k * msPerDay)) = Some 2029 /\
     (getMonth (DateAt (startOfDay 1835438400000 + k * msPerDay)),
      getDate (DateAt (startOfDay 1835438400000 + k * msPerDay)))
     = (Some 2, Some 1)).
Proof.
  split.
  - refine (proj2 (month_day_of_today November "november" 2 1793653200000
                     "November 2" _ _ _ _ _ _) _).
    + left. reflexivity.
    + vm_compute. reflexivity.
    + vm_compute. reflexivity.
    + vm_compute. reflexivity.
    + lia.
    + vm_compute. discriminate.
    + vm_compute. discriminate.
  - refine (proj2 (month_day_of_today February "feb" 29 1835438400000
                     "feb 29" _ _ _ _ _ _) _).
    + right. reflexivity.
    + vm_compute. reflexivity.
    + vm_compute. reflexivity.
    + vm_compute. reflexivity.
    + lia.
    + vm_compute. discriminate.
    + vm_compute. discriminate.
Defined.

End MonthDayOfToday.

(** * The task store *)

Section StoreDates.
Local Open Scope Z_scope.

Lemma same_day_iff (x now : Z) :
  (startOfDay now <=? x) && (x <? startOfDay now + 1 * msPerDay) = true
  <-> Day x = Day now.
Proof.
  rewrite andb_true_iff, Z.leb_le, Z.ltb_lt.
  unfold startOfDay, Day, msPerDay.
  pose proof (Z.div_mod x 86400000 ltac:(lia)).
  pose proof (Z.mod_pos_bound x 86400000 ltac:(lia)).
  split; intros; nia.
Qed.

Lemma earlier_day_iff (x now : Z) : x < startOfDay now <-> Day x < Day now.
Proof.
  unfold startOfDay, Day, msPerDay.
  pose proof (Z.div_mod x 86400000 ltac:(lia)).
  pose proof (Z.mod_pos_bound x 86400000 ltac:(lia)).
  split; intros; nia.
Qed.

Lemma todays_tasks_iff (tasks : list Task.t) (now : Z) (t : Task.t) :
  valid_time now -> valid_time (now + 1 * msPerDay) ->
  (In t (getTodaysTasks tasks now) <->
   In t tasks /\ exists x, Task.date t = Some (DateAt x) /\ Day x = Day now).
Proof.
  intros V V1. unfold getTodaysTasks.
  rewrite tomorrow_of_midnight, setHours4_zero_valid by assumption.
  rewrite filter_In. cbn [getTime].
  destruct (Task.date t) as [[x | ] | ]; cbn [getTime nge nlt].
  - rewrite same_day_iff. split.
    + intros (I & D). split; [exact I | ]. exists x. auto.
    + intros (I & y & E & D). injection E as <-. auto.
  - split; [intros (_ & F); discriminate | intros (_ & y & E & _); discriminate].
  - split; [intros (_ & F); discriminate | intros (_ & y & E & _); discriminate].
Qed.

(** X14: [getTodaysTasks] returns exactly the tasks whose date lies on
    today's local day, at whatever time of that day and whether they are
    completed or not; a task without a date or with an invalid date is
    never returned. *)
Theorem getTodaysTasks_same_day (tasks : list Task.t) (now : Z) (t : Task.t) :
  valid_time now -> valid_time (now + 1 * msPerDay) ->
  (In t (getTodaysTasks tasks now) <->
   In t tasks /\ exists x, Task.date t = Some (DateAt x) /\ Day x = Day now).
Proof. exact (todays_tasks_iff tasks now t). Qed.

Lemma getTodaysTasks_same_day_witness :
  In (new_task (parseTaskInput "call Ann today" 1793653200000) "task-1"
        1793653200000)
     (getTodaysTasks
        [new_task (parseTaskInput "call Ann today" 1793653200000) "task-1"
           1793653200000] 1793660000000).
Proof.
  apply (proj2 (getTodaysTasks_same_day _ 1793660000000 _
                  ltac:(vm_compute; discriminate) ltac:(vm_compute; discriminate))).
  split; [left; reflexivity | ].
  exists 1793577600000. split; vm_compute; reflexivity.
Defined.

Lemma overdue_upcoming_iff (tasks : list Task.t) (now : Z) (t : Task.t) :
  valid_time now ->
  (In t (getOverdueTasks tasks now) <->
   In t tasks /\ Task.completed t = false /\
   exists x, Task.date t = Some (DateAt x) /\ Day x < Day now) /\
  (In t (getUpcomingTasks tasks now) <->
   In t tasks /\ Task.completed t = false /\
   exists x, Task.date t = Some (DateAt x) /\ Day now <= Day x) /\
  ~ (In t (getOverdueTasks tasks now) /\ In t (getUpcomingTasks tasks now)).
Proof.
  intros V.
  assert (O : In t (getOverdueTasks tasks now) <->
              In t tasks /\ Task.completed t = false /\
              exists x, Task.date t = Some (DateAt x) /\ Day x < Day now).
  { unfold getOverdueTasks. rewrite setHours4_zero_valid by assumption.
    rewrite filter_In. cbn [getTime].
    destruct (Task.date t) as [[x | ] | ], (Task.completed t);
      cbn [getTime nlt]; try rewrite Z.ltb_lt, earlier_day_iff;
      split; try (intros (_ & F); discriminate);
      try (intros (_ & F & _); discriminate);
      try (intros (_ & _ & y & E & _); discriminate).
    - intros (I & D). split; [exact I | ]. split; [reflexivity | ]. exists x. auto.
    - intros (I & _ & y & E & D). injection E as <-. auto. }
  assert (U : In t (getUpcomingTasks tasks now) <->
              In t tasks /\ Task.completed t = false /\
              exists x, Task.date t = Some (DateAt x) /\ Day now <= Day x).
  { unfold getUpcomingTasks. rewrite setHours4_zero_valid by assumption.
    rewrite filter_In. cbn [getTime].
    destruct (Task.date t) as [[x | ] | ], (Task.completed t);
      cbn [getTime nge]; try rewrite Z.leb_le;
      split; try (intros (_ & F); discriminate);
      try (intros (_ & F & _); discriminate);
      try (intros (_ & _ & y & E & _); discriminate).
    - intros (I & D). split; [exact I | ]. split; [reflexivity | ]. exists x.
      split; [reflexivity | ].
      pose proof (earlier_day_iff x now). lia.
    - intros (I & _ & y & E & D). injection E as <-. split; [exact I | ].
      pose proof (earlier_day_iff x now). lia. }
  split; [exact O | split; [exact U | ]].
  rewrite O, U. intros ((_ & _ & x & E & L) & (_ & _ & y & F & G)).
  rewrite E in F. injection F as <-. lia.
Qed.

(** X15: a task is overdue exactly when it is not completed and its date
    lies on a local day before today, and upcoming exactly when it is not
    completed and its date lies on today or a later day.  So no task is
    both, a task dated today is never overdue, and a task without a date
    or with an invalid date is neither. *)
Theorem overdue_and_upcoming (tasks : list Task.t) (now : Z) (t : Task.t) :
  valid_time now ->
  (In t (getOverdueTasks tasks now) <->
   In t tasks /\ Task.completed t = false /\
   exists x, Task.date t = Some (DateAt x) /\ Day x < Day now) /\
  (In t (getUpcomingTasks tasks now) <->
   In t tasks /\ Task.completed t = false /\
   exists x, Task.date t = Some (DateAt x) /\ Day now <= Day x) /\
  ~ (In t (getOverdueTasks tasks now) /\ In t (getUpcomingTasks tasks now)).
Proof. exact (overdue_upcoming_iff tasks now t). Qed.

Lemma overdue_and_upcoming_witness :
  In (new_task (parseTaskInput "call Ann today" 1793653200000) "task-1"
        1793653200000)
     (getOverdueTasks
        [new_task (parseTaskInput "call Ann today" 1793653200000) "task-1"
           1793653200000] 1793750000000).
Proof.
  apply (proj2 (proj1 (overdue_and_upcoming _ 1793750000000 _
                         ltac:(vm_compute; discriminate)))).
  split; [left; reflexivity | ]. split; [reflexivity | ].
  exists 1793577600000. split; vm_compute; reflexivity.
Defined.

(** X16: a task made from an input that holds the word "today" and added
    to the store is among today's tasks and among the upcoming ones at
    every later moment of the same local day, and is overdue from the next
    day on. *)
Theorem today_task_through_store (input id : str) (now later : Z)
    (tasks : list Task.t) :
  mentions "today" input ->
  valid_time now -> valid_time later -> valid_time (later + 1 * msPerDay) ->
  (Day later = Day now ->
   In (new_task (parseTaskInput input now) id now)
      (getTodaysTasks (addTask (parseTaskInput input now) id now tasks) later) /\
   In (new_task (parseTaskInput input now) id now)
      (getUpcomingTasks (addTask (parseTaskInput input now) id now tasks) later)) /\
  (Day now < Day later ->
   In (new_task (parseTaskInput input now) id now)
      (getOverdueTasks (addTask (parseTaskInput input now) id now tasks) later)).
Proof.
  intros T V Vl Vl1.
  set (task := new_task (parseTaskInput input now) id now).
  set (stored := addTask (parseTaskInput input now) id now tasks).
  assert (D : Task.date task = Some (DateAt (startOfDay now))).
  { subst task. unfold new_task, parseTaskInput. cbn [Task.date date].
    unfold parseDate. apply test_word_iff in T. fold re_today in T.
    rewrite T. now rewrite resolve_today_eq. }
  assert (C : Task.completed task = false) by reflexivity.
  assert (I : In task stored) by (left; reflexivity).
  pose proof (Day_startOfDay now) as DS.
  split.
  - intros E. split.
    + apply todays_tasks_iff; trivial.
      split; [exact I | ]. exists (startOfDay now). split; [exact D | lia].
    + apply (proj1 (proj2 (overdue_upcoming_iff stored later task Vl))).
      split; [exact I | ]. split; [exact C | ].
      exists (startOfDay now). split; [exact D | lia].
  - intros L. apply (proj1 (overdue_upcoming_iff stored later task Vl)).
    split; [exact I | ]. split; [exact C | ].
    exists (startOfDay now). split; [exact D | lia].
Qed.

Lemma today_task_through_store_witness :
  In (new_task (parseTaskInput "call Ann today" 1793653200000) "task-1"
        1793653200000)
     (getOverdueTasks
        (addTask (parseTaskInput "call Ann today" 1793653200000) "task-1"
           1793653200000 []) 1793750000000).
Proof.
  refine (proj2 (today_task_through_store "call Ann today" "task-1"
                   1793653200000 1793750000000 [] _ _ _ _) _).
  - exists ("call ann " : str), ([] : str). vm_compute. auto.
  - vm_compute. discriminate.
  - vm_compute. discriminate.
  - vm_compute. discriminate.
  - vm_compute. reflexivity.
Defined.

End StoreDates.

(** ** Adding, deleting, toggling, moving *)

Lemma str_eqb_refl (a : str) : str_eqb a a = true.
Proof. now apply str_eqb_eq. Qed.

Lemma str_eqb_neq (a b : str) : str_eqb a b = false <-> a <> b.
Proof.
  split.
  - intros H E. apply str_eqb_eq in E. congruence.
  - intros N. destruct (str_eqb a b) eqn:E; [ | reflexivity].
    apply str_eqb_eq in E. contradiction.
Qed.

(** X17: deleting a task removes every task with that id and nothing
    else; and a task added under an id that no stored task has is removed
    again by deleting that id, which gives back the list as it was. *)
Theorem deleteTask_removes (id : str) (tasks : list Task.t) :
  (forall t, In t (deleteTask id tasks) <-> In t tasks /\ Task.id t <> id) /\
  (forall parsed now,
     (forall t, In t tasks -> Task.id t <> id) ->
     deleteTask id (addTask parsed id now tasks) = tasks).
Proof.
  split.
  - intros t. unfold deleteTask. rewrite filter_In, negb_true_iff, str_eqb_neq.
    reflexivity.
  - intros parsed now F. unfold addTask, deleteTask, new_task.
    cbn [filter Task.id]. rewrite str_eqb_refl. cbn [negb].
    induction tasks as [ | t tasks IH]; [reflexivity | ]. cbn [filter].
    rewrite (proj2 (str_eqb_neq _ _) (F t (or_introl eq_refl))). cbn [negb].
    f_equal. apply IH. intros u Hu. apply F. now right.
Qed.

Lemma deleteTask_removes_witness :
  deleteTask "task-2"
    (addTask (parseTaskInput "Buy milk" 0) "task-2" 0
       [new_task (parseTaskInput "Call Ann" 0) "task-1" 0])
  = [new_task (parseTaskInput "Call Ann" 0) "task-1" 0].
Proof.
  refine (proj2 (deleteTask_removes "task-2" _) _ _ _).
  intros t [<- | []]. discriminate.
Defined.

(** X18: after [toggleTask], every task with the toggled id carries a
    completion time exactly when it is completed (the moment of the
    toggle), every other task is untouched, and toggling the same id twice
    gives every task its completion flag back. *)
Theorem toggleTask_completion (id : str) (now later : Z) (tasks : list Task.t) :
  Forall (fun t => Task.id t = id ->
                   Task.completedAt t
                   = if Task.completed t then Some (DateAt now) else None)
         (toggleTask id now tasks) /\
  (forall t, In t tasks -> Task.id t <> id -> In t (toggleTask id now tasks)) /\
  map Task.completed (toggleTask id later (toggleTask id now tasks))
  = map Task.completed tasks /\
  map Task.id (toggleTask id now tasks) = map Task.id tasks.
Proof.
  repeat split.
  - unfold toggleTask. apply Forall_forall. intros t' Hin.
    apply in_map_iff in Hin. destruct Hin as (t & E & _). subst t'.
    destruct (str_eqb (Task.id t) id) eqn:Q.
    + intros _. unfold apply_updates. cbn [Task.completedAt Task.completed
        TaskUpdates.completedAt TaskUpdates.completed or_keep].
      destruct (Task.completed t); reflexivity.
    + intros E. apply str_eqb_neq in Q. contradiction.
  - intros t Hin N. unfold toggleTask. apply in_map_iff. exists t.
    split; [ | exact Hin]. now rewrite (proj2 (str_eqb_neq _ _) N).
  - unfold toggleTask. rewrite !map_map. apply map_ext. intros t.
    destruct (str_eqb (Task.id t) id) eqn:Q.
    + cbn [apply_updates Task.id Task.completed TaskUpdates.id
             TaskUpdates.completed or_keep].
      rewrite Q.
      cbn [apply_updates Task.id Task.completed TaskUpdates.id
             TaskUpdates.completed or_keep].
      apply negb_involutive.
    + rewrite Q. reflexivity.
  - unfold toggleTask. rewrite map_map. apply map_ext. intros t.
    destruct (str_eqb (Task.id t) id); reflexivity.
Qed.

(** X19: moving a task to a list (a list id that is not empty) keeps every
    stored task and its place, puts each stored task with that id in the
    list - with its other fields as before - and leaves no task with that
    id in the inbox; moving it to no list ([null] or the empty id) puts it
    in the inbox; the other tasks stay as they are, and nothing else comes
    into the store. *)
Theorem moveTaskToList_moves (taskId : str) (listId : option str)
    (tasks : list Task.t) :
  map Task.id (moveTaskToList taskId listId tasks) = map Task.id tasks /\
  (forall t, In t tasks -> Task.id t = taskId ->
     match listId with
     | Some (c :: l) =>
         In (with_list t (Some (c :: l)))
            (getTasksByList (c :: l) (moveTaskToList taskId listId tasks))
     | _ =>
         In (with_list t None)
            (getInboxTasks (moveTaskToList taskId listId tasks))
     end) /\
  (forall t, In t tasks -> Task.id t <> taskId ->
     In t (moveTaskToList taskId listId tasks)) /\
  (forall t, In t (moveTaskToList taskId listId tasks) ->
     (Task.id t = taskId ->
      match listId with
      | Some (c :: l) =>
          In t (getTasksByList (c :: l) (moveTaskToList taskId listId tasks)) /\
          ~ In t (getInboxTasks (moveTaskToList taskId listId tasks))
      | _ => In t (getInboxTasks (moveTaskToList taskId listId tasks))
      end) /\
     (Task.id t <> taskId -> In t tasks)).
Proof.
  assert (Moved : forall t, str_eqb (Task.id t) taskId = true ->
            apply_updates t
              (TaskUpdates.Mk None None None None None None None None None None
                 None None (Some (if truthy listId then listId else None)))
            = with_list t (if truthy listId then listId else None))
    by reflexivity.
  split; [ | split; [ | split]].
  - unfold moveTaskToList, updateTask. rewrite map_map. apply map_ext.
    intros t. destruct (str_eqb (Task.id t) taskId); reflexivity.
  - intros t Hin I. apply str_eqb_eq in I.
    assert (R : In (with_list t (if truthy listId then listId else None))
                   (moveTaskToList taskId listId tasks)).
    { unfold moveTaskToList, updateTask. apply in_map_iff. exists t.
      rewrite I. split; [apply Moved, I | exact Hin]. }
    destruct listId as [[ | c l] | ]; cbn [truthy] in R.
    + unfold getInboxTasks. apply filter_In. split; [exact R | reflexivity].
    + unfold getTasksByList. apply filter_In. split; [exact R | ].
      unfold in_list, with_list. cbn [Task.listId]. apply str_eqb_refl.
    + unfold getInboxTasks. apply filter_In. split; [exact R | reflexivity].
  - intros t Hin N. unfold moveTaskToList, updateTask. apply in_map_iff.
    exists t. split; [ | exact Hin].
    destruct (str_eqb (Task.id t) taskId) eqn:Q; [ | reflexivity].
    apply str_eqb_eq in Q. contradiction.
  - intros t Hin. pose proof Hin as Hin'.
    unfold moveTaskToList, updateTask in Hin'. apply in_map_iff in Hin'.
    destruct Hin' as (t0 & E & Hin0).
    destruct (str_eqb (Task.id t0) taskId) eqn:Q.
    + assert (I : Task.id t = taskId).
      { subst t. unfold apply_updates. cbn [Task.id TaskUpdates.id or_keep].
        now apply str_eqb_eq. }
      assert (L : Task.listId t = if truthy listId then listId else None).
      { subst t. reflexivity. }
      split; [intros _ | intros N; contradiction].
      destruct listId as [[ | c l] | ]; cbn [truthy] in L.
      * unfold getInboxTasks. apply filter_In. split; [exact Hin | ].
        now rewrite L.
      * split.
        -- unfold getTasksByList. apply filter_In. split; [exact Hin | ].
           unfold in_list. rewrite L. apply str_eqb_refl.
        -- unfold getInboxTasks. rewrite filter_In. intros (_ & F).
           rewrite L in F. discriminate.
      * unfold getInboxTasks. apply filter_In. split; [exact Hin | ].
        now rewrite L.
    + subst t. split; [ | intros _; exact Hin0].
      intros I. apply str_eqb_neq in Q. contradiction.
Qed.

Lemma moveTaskToList_moves_witness :
  In (Task.Mk "Call Ann" None None [] "Call Ann" "task-1" (DateAt 0) None false
        None None None (Some ("list-7" : str)))
     (getTasksByList "list-7"
        (moveTaskToList "task-1" (Some ("list-7" : str))
           [new_task (parseTaskInput "Call Ann" 0) "task-1" 0])).
Proof.
  refine (proj1 (proj2 (moveTaskToList_moves "task-1" (Some ("list-7" : str))
                          [new_task (parseTaskInput "Call Ann" 0) "task-1" 0]))
            (new_task (parseTaskInput "Call Ann" 0) "task-1" 0) _ _).
  - left. reflexivity.
  - reflexivity.
Defined.

(** X20: deleting a list removes it from the lists, keeps every task, and
    leaves no task in the deleted list: each task that was in it is in the
    inbox afterwards, with its other fields as before. *)
Theorem deleteList_moves_to_inbox (id : str) (lists : list TaskList.t)
    (tasks : list Task.t) :
  (forall l, In l (fst (deleteList id lists tasks)) <->
             In l lists /\ TaskList.id l <> id) /\
  length (snd (deleteList id lists tasks)) = length tasks /\
  getTasksByList id (snd (deleteList id lists tasks)) = [] /\
  (forall t, In t tasks -> in_list id t = true ->
     In (apply_updates t
           (TaskUpdates.Mk None None None None None None None None None None
              None None (Some None)))
        (getInboxTasks (snd (deleteList id lists tasks)))) /\
  (forall t, In t tasks -> in_list id t = false ->
             In t (snd (deleteList id lists tasks))).
Proof.
  unfold deleteList. cbn [fst snd]. repeat split.
  - rewrite filter_In, negb_true_iff, str_eqb_neq in H. tauto.
  - rewrite filter_In, negb_true_iff, str_eqb_neq in H. tauto.
  - intros (I & N). rewrite filter_In, negb_true_iff, str_eqb_neq. tauto.
  - apply length_map.
  - unfold getTasksByList. induction tasks as [ | t tasks IH]; [reflexivity | ].
    cbn [map filter]. destruct (in_list id t) eqn:Q.
    + unfold in_list at 1, apply_updates at 1.
      cbn [Task.listId TaskUpdates.listId or_keep]. exact IH.
    + rewrite Q. exact IH.
  - intros t Hin Q. unfold getInboxTasks. apply filter_In. split.
    + apply in_map_iff. exists t. split; [now rewrite Q | exact Hin].
    + reflexivity.
  - intros t Hin Q. apply in_map_iff. exists t. split; [now rewrite Q | exact Hin].
Qed.

Lemma deleteList_moves_to_inbox_witness :
  In (Task.Mk "Call Ann" None None [] "Call Ann" "task-1" (DateAt 0) None false
        None None None None)
     (getInboxTasks
        (snd (deleteList "list-7" []
                [Task.Mk "Call Ann" None None [] "Call Ann" "task-1" (DateAt 0)
                   None false None None None (Some ("list-7" : str))]))).
Proof.
  refine (proj1 (proj2 (proj2 (proj2
            (deleteList_moves_to_inbox "list-7" []
               [Task.Mk "Call Ann" None None [] "Call Ann" "task-1" (DateAt 0)
                  None false None None None (Some ("list-7" : str))]))))
            (Task.Mk "Call Ann" None None [] "Call Ann" "task-1" (DateAt 0)
               None false None None None (Some ("list-7" : str)))
            _ _).
  - left. reflexivity.
  - vm_compute. reflexivity.
Defined.

(** ** All the tags, sorted *)

Lemma code_inj (x y : ascii) : code x = code y -> x = y.
Proof.
  unfold code. intros H.
  rewrite <- (ascii_N_embedding x), <- (ascii_N_embedding y). now rewrite H.
Qed.

Lemma str_ltb_trans (a : str) :
  forall b c, str_ltb a b = true -> str_ltb b c = true -> str_ltb a c = true.
Proof.
  induction a as [ | x a IH]; intros [ | y b] [ | z c]; cbn [str_ltb];
    try discriminate; try reflexivity.
  destruct (N.ltb_spec (code x) (code y)), (N.ltb_spec (code y) (code x)),
    (N.ltb_spec (code y) (code z)), (N.ltb_spec (code z) (code y)),
    (N.ltb_spec (code x) (code z)), (N.ltb_spec (code z) (code x));
    try discriminate; try reflexivity; try lia.
  apply IH.
Qed.

Lemma str_ltb_total (a : str) :
  forall b, str_ltb a b = false -> str_ltb b a = false -> a = b.
Proof.
  induction a as [ | x a IH]; intros [ | y b]; cbn [str_ltb];
    try discriminate; try reflexivity.
  destruct (N.ltb_spec (code x) (code y)), (N.ltb_spec (code y) (code x));
    try discriminate; try lia.
  intros H1 H2. f_equal; [apply code_inj; lia | now apply IH].
Qed.

Lemma insert_sorted_In (x : str) (l : list str) (y : str) :
  In y (insert_sorted x l) <-> y = x \/ In y l.
Proof.
  induction l as [ | z l IH]; cbn [insert_sorted].
  - cbn [In]. intuition.
  - destruct (str_ltb x z); cbn [In]; [intuition | ]. rewrite IH. intuition.
Qed.

Lemma insert_sorted_sorted (x : str) (l : list str) :
  StronglySorted str_lt l -> ~ In x l -> StronglySorted str_lt (insert_sorted x l).
Proof.
  induction 1 as [ | z l S IH F]; intros N; cbn [insert_sorted].
  - repeat constructor.
  - destruct (str_ltb x z) eqn:Q.
    + constructor; [now constructor | ]. constructor; [exact Q | ].
      apply Forall_forall. intros w Hw. rewrite Forall_forall in F.
      eapply str_ltb_trans; [exact Q | now apply F].
    + assert (ZX : str_lt z x).
      { destruct (str_ltb z x) eqn:R; [exact R | ].
        exfalso. apply N. left. symmetry. now apply str_ltb_total. }
      constructor.
      * apply IH. intros Hx. apply N. now right.
      * apply Forall_forall. intros w Hw. apply insert_sorted_In in Hw.
        destruct Hw as [-> | Hw]; [exact ZX | ].
        rewrite Forall_forall in F. now apply F.
Qed.

Lemma sort_In (l : list str) (y : str) : In y (sort l) <-> In y l.
Proof.
  induction l as [ | x l IH]; cbn [sort fold_right]; [reflexivity | ].
  fold (sort l). rewrite insert_sorted_In, IH. cbn [In]. intuition.
Qed.

Lemma sort_sorted (l : list str) : NoDup l -> StronglySorted str_lt (sort l).
Proof.
  induction 1 as [ | x l N D IH]; cbn [sort fold_right]; [constructor | ].
  fold (sort l). apply insert_sorted_sorted; [exact IH | ]. now rewrite sort_In.
Qed.

Lemma set_add_spec (x : str) (l : list str) :
  NoDup l -> NoDup (set_add x l) /\ (forall y, In y (set_add x l) <-> y = x \/ In y l).
Proof.
  intros N. unfold set_add. destruct (existsb (str_eqb x) l) eqn:E.
  - split; [exact N | ]. intros y. split; [auto | ].
    intros [-> | H]; [ | exact H].
    apply existsb_exists in E. destruct E as (z & Hz & Q).
    apply str_eqb_eq in Q. now subst.
  - apply existsb_str_eqb_false in E. split.
    + apply NoDup_app; [exact N | repeat constructor; intros [] | ].
      intros y Hy [<- | []]. contradiction.
    + intros y. rewrite in_app_iff. cbn [In]. intuition.
Qed.

Lemma collect_tags_spec (tasks : list Task.t) :
  forall acc,
    NoDup acc ->
    let all := fold_left
                 (fun tags task =>
                    fold_left (fun tags tag => set_add tag tags) (Task.tags task) tags)
                 tasks acc in
    NoDup all /\
    (forall y, In y all <->
               In y acc \/ exists t, In t tasks /\ In y (Task.tags t)).
Proof.
  assert (Inner : forall ts acc, NoDup acc ->
            NoDup (fold_left (fun tags tag => set_add tag tags) ts acc) /\
            (forall y, In y (fold_left (fun tags tag => set_add tag tags) ts acc)
                       <-> In y acc \/ In y ts)).
  { induction ts as [ | x ts IH]; intros acc N; cbn [fold_left].
    - split; [exact N | ]. intros y. cbn [In]. intuition.
    - destruct (set_add_spec x acc N) as (N' & M).
      destruct (IH _ N') as (N2 & M2). split; [exact N2 | ].
      intros y. rewrite M2, M. cbn [In]. intuition. }
  induction tasks as [ | t tasks IH]; intros acc N; cbn [fold_left].
  - split; [exact N | ]. intros y. split; [auto | ].
    intros [H | (t & [] & _)]. exact H.
  - destruct (Inner (Task.tags t) acc N) as (N' & M).
    destruct (IH _ N') as (N2 & M2). split; [exact N2 | ].
    intros y. cbv zeta in M2. rewrite M2, M. cbn [In]. split.
    + intros [[H | H] | (u & Hu & H)]; eauto.
    + intros [H | (u & [<- | Hu] & H)]; eauto.
Qed.

(** X21: [getAllTags] returns exactly the tags that some stored task
    carries, each once, in strictly increasing order of their code
    units. *)
Theorem getAllTags_sorted (tasks : list Task.t) :
  StronglySorted str_lt (getAllTags tasks) /\
  (forall tag, In tag (getAllTags tasks) <->
               exists t, In t tasks /\ In tag (Task.tags t)).
Proof.
  unfold getAllTags.
  destruct (collect_tags_spec tasks [] (NoDup_nil _)) as (N & M). cbv zeta in *.
  split; [apply sort_sorted, N | ].
  intros tag. rewrite sort_In, M. cbn [In]. intuition.
Qed.

(** ** Editing tags keeps them in normal form *)

Lemma trim_no_upper (s : str) : no_upper (toLowerCase (trim s)).
Proof. apply toLowerCase_no_upper. Qed.

(** X22: tags in normal form (each once, none empty, no capital letter),
    as [extractTags] returns them, stay in normal form when a typed tag is
    added in the task dialog, when a tag is removed, and when a common tag
    is picked in the quick-add form; a removed tag is gone, and a tag typed
    with capitals or spaces around it is stored trimmed and in lower
    case. *)
Theorem tag_edits_keep_normal_form (tags : list str) :
  NoDup tags /\ Forall (fun t => t <> [] /\ no_upper t) tags ->
  (forall tagInput,
     normal_tags (handleAddTag tagInput tags) /\
     (trim tagInput <> [] ->
      In (toLowerCase (trim tagInput)) (handleAddTag tagInput tags))) /\
  (forall tag,
     normal_tags (handleRemoveTag tag tags) /\ ~ In tag (handleRemoveTag tag tags)) /\
  (forall s, In s getCommonTags ->
             normal_tags (handleTagSelect (TagSuggestion.text s) tags)).
Proof.
  intros (N & F). repeat split.
  - unfold handleAddTag, includes.
    destruct (trim tagInput) as [ | c r] eqn:T; cbn [is_empty negb andb];
      [exact N | ].
    destruct (existsb (str_eqb (toLowerCase (c :: r))) tags) eqn:E;
      cbn [negb]; [exact N | ].
    apply existsb_str_eqb_false in E.
    apply NoDup_app; [exact N | repeat constructor; intros [] | ].
    intros y Hy [<- | []]. contradiction.
  - unfold handleAddTag, includes.
    destruct (trim tagInput) as [ | c r] eqn:T; cbn [is_empty negb andb];
      [exact F | ].
    destruct (existsb (str_eqb (toLowerCase (c :: r))) tags) eqn:E;
      cbn [negb]; [exact F | ].
    apply Forall_app. split; [exact F | ]. constructor; [ | constructor].
    split; [discriminate | apply toLowerCase_no_upper].
  - intros NE. unfold handleAddTag, includes.
    destruct (trim tagInput) as [ | c r] eqn:T; [contradiction | ].
    cbn [is_empty negb andb].
    destruct (existsb (str_eqb (toLowerCase (c :: r))) tags) eqn:E; cbn [negb].
    + apply existsb_exists in E. destruct E as (z & Hz & Q).
      apply str_eqb_eq in Q. now subst.
    + apply in_or_app. right. now left.
  - unfold handleRemoveTag. now apply NoDup_filter.
  - unfold handleRemoveTag. apply Forall_forall. intros t Ht.
    apply filter_In in Ht. rewrite Forall_forall in F. now apply F.
  - unfold handleRemoveTag. rewrite filter_In, negb_true_iff, str_eqb_neq.
    intros (_ & X). now apply X.
  - unfold handleTagSelect, includes.
    destruct (existsb (str_eqb (TagSuggestion.text s)) tags) eqn:E;
      cbn [negb]; [exact N | ].
    apply existsb_str_eqb_false in E.
    apply NoDup_app; [exact N | repeat constructor; intros [] | ].
    intros y Hy [<- | []]. contradiction.
  - unfold handleTagSelect, includes.
    destruct (existsb (str_eqb (TagSuggestion.text s)) tags) eqn:E;
      cbn [negb]; [exact F | ].
    apply Forall_app. split; [exact F | ]. constructor; [ | constructor].
    unfold getCommonTags in H. cbn [In] in H.
    repeat (destruct H as [<- | H]); try contradiction;
      (split; [discriminate | repeat constructor]).
Qed.

Lemma tag_edits_keep_normal_form_witness :
  normal_tags (handleAddTag "  Home " (extractTags "Buy milk #Shopping #urgent")) /\
  In ("home" : str) (handleAddTag "  Home " (extractTags "Buy milk #Shopping #urgent")).
Proof.
  pose proof (proj1 (tag_edits_keep_normal_form
                       (extractTags "Buy milk #Shopping #urgent")
                       (extractTags_normal_tags _)) "  Home ") as (A & B).
  split; [exact A | ].
  apply B. vm_compute. discriminate.
Defined.

(** * Every hashtag is extracted *)

Lemma star_class_reads_run (ci : bool) (rs : list (ascii * ascii))
    (k : mstate -> option mstate) :
  (forall st, k st <> None) ->
  forall s pv cs,
    exists st,
      rest st = skipn (leading (class_match ci rs) s) s /\ caps st = cs /\
      m ci (Star (Class rs)) k (MState pv s cs) = k st.
Proof.
  intros K. induction s as [ | c s IH]; intros pv cs.
  - exists (MState pv [] cs). repeat split.
  - rewrite m_Star.
    match goal with
    | |- context [m ci (Class rs) ?kk ?st0] =>
        assert (X : m ci (Class rs) kk st0
                    = if class_match ci rs c
                      then m ci (Star (Class rs)) k (MState (Some c) s cs)
                      else None);
        [ change (m ci (Class rs) kk st0)
            with (step_char (class_match ci rs) kk st0);
          unfold step_char; cbn [rest caps length];
          destruct (class_match ci rs c); [ | reflexivity];
          replace (length s <? S (length s))%nat with true
            by (symmetry; apply Nat.ltb_lt; lia);
          reflexivity
        | rewrite X; clear X ]
    end.
    cbn [leading]. destruct (class_match ci rs c).
    + destruct (IH (Some c) cs) as (st & R & C & E). rewrite E.
      exists st. repeat split; trivial. cbn [skipn].
      destruct (k st) eqn:Q; [reflexivity | now apply K in Q].
    + exists (MState pv (c :: s) cs). repeat split.
Qed.

Lemma leading_skipn_length (p : ascii -> bool) (s : str) :
  (length (skipn (leading p s) s) + leading p s = length s)%nat.
Proof.
  induction s as [ | c s IH]; cbn [leading]; [reflexivity | ].
  destruct (p c); cbn [skipn length]; lia.
Qed.

Lemma leading_firstn (p : ascii -> bool) (s : str) :
  forallb p (firstn (leading p s) s) = true.
Proof.
  induction s as [ | c s IH]; cbn [leading]; [reflexivity | ].
  destruct (p c) eqn:E; cbn [firstn forallb]; [now rewrite E | reflexivity].
Qed.

Lemma leading_app (p : ascii -> bool) (w post : str) :
  forallb p w = true ->
  match post with c :: _ => p c = false | [] => True end ->
  leading p (w ++ post) = length w.
Proof.
  intros F P. induction w as [ | c w IH]; cbn [app leading length].
  - destruct post as [ | c post]; [reflexivity | ]. cbn [leading]. now rewrite P.
  - cbn [forallb] in F. apply andb_true_iff in F. destruct F as (-> & F).
    f_equal. now apply IH.
Qed.

(** What the hashtag pattern matches at a position: a [#] and all the
    hashtag characters after it, when there is at least one. *)
Lemma hashtag_here (pv : option ascii) (s : str) :
  match s with
  | c :: s1 =>
      if Ascii.eqb "#" c && (0 <? leading tag_char s1)%nat
      then exists st, match_here re_hashtag pv s = Some st /\
                      (length s - length (rest st) = S (leading tag_char s1))%nat
      else match_here re_hashtag pv s = None
  | [] => match_here re_hashtag pv s = None
  end.
Proof.
  assert (U : match_here re_hashtag pv s
              = step_char (chr_match false "#")
                  (fun st1 =>
                     step_char tag_char
                       (m false
                          (Star (Class [("a", "z"); ("A", "Z"); ("0", "9");
                                        ("_", "_"); ("-", "-")]%char))
                          (fun st' =>
                             Some (MState (prev st') (rest st')
                                     ((1%nat, consumed (rest st1) (rest st'))
                                        :: caps st'))))
                       st1)
                  (MState pv s [])) by reflexivity.
  rewrite U. clear U. unfold step_char. cbn [rest caps].
  destruct s as [ | c s1]; [reflexivity | ].
  unfold chr_match. destruct (Ascii.eqb "#" c); cbn [andb]; [ | reflexivity].
  destruct s1 as [ | d s2]; [reflexivity | ].
  cbn [leading]. destruct (tag_char d); [ | reflexivity].
  change (0 <? S (leading tag_char s2))%nat with true. cbv iota.
  match goal with
  | |- context [m false (Star (Class ?rs)) ?k ?st0] =>
      destruct (star_class_reads_run false rs k ltac:(intros st; discriminate)
                  s2 (Some d) []) as (st & R & C & E);
      rewrite E
  end.
  eexists. split; [reflexivity | ]. cbn [rest length]. rewrite R.
  match goal with
  | |- context [leading ?f s2] => change (leading f s2) with (leading tag_char s2)
  end.
  pose proof (leading_skipn_length tag_char s2). lia.
Qed.

(** While the scan passes over a match, the characters it skips are
    hashtag characters: the [#] of a later hashtag is never among them. *)
Lemma match_all_finds_hashtag (w post : str) :
  w <> [] -> forallb tag_char w = true ->
  match post with c :: _ => tag_char c = false | [] => True end ->
  forall pre pv skip,
    forallb tag_char (firstn skip (pre ++ "#"%char :: w ++ post)) = true ->
    (skip <= length pre)%nat ->
    In ("#"%char :: w) (match_all_from re_hashtag pv (pre ++ "#"%char :: w ++ post) skip).
Proof.
  intros NE F P.
  assert (L : leading tag_char (w ++ post) = length w) by now apply leading_app.
  induction pre as [ | c pre IH]; intros pv skip S B.
  - assert (skip = 0)%nat by (cbn [length] in B; lia). subst skip.
    cbn [app match_all_from].
    pose proof (hashtag_here pv ("#"%char :: w ++ post)) as H. cbv beta iota in H.
    rewrite L in H. change (Ascii.eqb "#" "#") with true in H.
    replace (0 <? length w)%nat with true in H
      by (destruct w; [contradiction | reflexivity]).
    cbn [andb] in H. destruct H as (st & E & K). rewrite E. left.
    unfold consumed. rewrite K. cbn [firstn]. f_equal.
    rewrite firstn_app, Nat.sub_diag, firstn_all. cbn [firstn]. apply app_nil_r.
  - cbn [app]. destruct skip as [ | n]; cbn [match_all_from].
    + pose proof (hashtag_here pv (c :: pre ++ "#"%char :: w ++ post)) as H.
      cbv beta iota in H.
      destruct (Ascii.eqb "#" c && (0 <? leading tag_char (pre ++ "#"%char :: w ++ post))%nat).
      * destruct H as (st & E & K). rewrite E. right. rewrite K.
        cbn [Nat.sub]. rewrite Nat.sub_0_r. apply IH.
        -- apply leading_firstn.
        -- clear. induction pre as [ | x pre IHp]; cbn [app leading length].
           ++ change (tag_char "#") with false. cbv iota. lia.
           ++ destruct (tag_char x); lia.
      * rewrite H. apply IH; [reflexivity | lia].
    + cbn [app firstn forallb] in S. apply andb_true_iff in S.
      apply IH; [apply S | cbn [length] in B; lia].
Qed.

Lemma fold_add_keeps (xs : list str) :
  forall acc tag, In tag acc ->
    In tag (fold_left add_if_nonempty xs acc).
Proof.
  induction xs as [ | x xs IH]; intros acc tag H; cbn [fold_left]; [exact H | ].
  apply IH. unfold add_if_nonempty, set_add.
  destruct (is_empty x); [exact H | ].
  destruct (existsb (str_eqb x) acc); [exact H | ]. apply in_or_app. now left.
Qed.

Lemma add_if_nonempty_In (acc : list str) (x : str) :
  x <> [] -> In x (add_if_nonempty acc x).
Proof.
  intros NE. unfold add_if_nonempty, set_add.
  destruct x as [ | c x]; [contradiction | ]. cbn [is_empty].
  destruct (existsb (str_eqb (c :: x)) acc) eqn:E.
  - apply existsb_exists in E. destruct E as (z & Hz & Q).
    apply str_eqb_eq in Q. now subst.
  - apply in_or_app. right. now left.
Qed.

(** X23: every hashtag of the input is extracted: where a [#] is followed
    by one or more hashtag characters (letters, digits, [_], [-]), those
    characters, taken as far as they reach and put in lower case, are among
    the tags returned - wherever the hashtag stands and whatever else the
    input holds. *)
Theorem extractTags_finds_hashtag (w input : str) :
  hashtag_in w input -> In (toLowerCase w) (extractTags input).
Proof.
  intros (pre & post & -> & NE & F & P). unfold extractTags.
  assert (M : In ("#"%char :: w)
                (match_all_from re_hashtag None (pre ++ "#"%char :: w ++ post) 0))
    by (apply match_all_finds_hashtag; trivial; lia).
  unfold match_global.
  destruct (match_all_from re_hashtag None (pre ++ "#"%char :: w ++ post) 0)
    as [ | m0 ms] eqn:E; [contradiction | ].
  assert (H : In (toLowerCase w)
                (fold_left
                   (fun tags mt => add_if_nonempty tags (toLowerCase (skipn 1 mt)))
                   (m0 :: ms) [])).
  { revert M. generalize (m0 :: ms). generalize (@nil str).
    intros acc l. revert acc. induction l as [ | x l IH]; intros acc [ ]; cbn [fold_left].
    - subst x. cbn [skipn].
      assert (G : forall l' acc', In (toLowerCase w) acc' ->
                In (toLowerCase w)
                  (fold_left
                     (fun tags mt => add_if_nonempty tags (toLowerCase (skipn 1 mt)))
                     l' acc')).
      { induction l' as [ | y l' IH']; intros acc' I; cbn [fold_left]; [exact I | ].
        apply IH'. unfold add_if_nonempty, set_add.
        destruct (is_empty (toLowerCase (skipn 1 y))); [exact I | ].
        destruct (existsb _ acc'); [exact I | ]. apply in_or_app. now left. }
      apply G, add_if_nonempty_In.
      destruct w; [contradiction | discriminate].
    - now apply IH. }
  revert H. generalize (fold_left
     (fun tags mt => add_if_nonempty tags (toLowerCase (skipn 1 mt)))
     (m0 :: ms) []).
  intros acc H. destruct (match_all_from re_tagList None _ 0) as [ | t0 ts];
    [exact H | ].
  generalize (t0 :: ts). intros l. revert acc H.
  induction l as [ | x l IH]; intros acc H; cbn [fold_left]; [exact H | ].
  apply IH. now apply fold_add_keeps.
Qed.

Lemma extractTags_finds_hashtag_witness :
  In ("q3-report" : str) (extractTags "Send #Q3-Report, then #rest").
Proof.
  apply (extractTags_finds_hashtag "Q3-Report" "Send #Q3-Report, then #rest").
  exists ("Send " : str), (", then #rest" : str).
  repeat split; try reflexivity. discriminate.
Defined.

(** * Relative amounts *)

Section RelativeAmounts.
Local Open Scope Z_scope.

Lemma relative_read_all :
  forallb (fun n => forallb (fun um => relative_read n (fst um)) relative_units)
          (seq 0 367) = true.
Proof. vm_cast_no_check (eq_refl true). Qed.

Lemma time_of_day_parts (t : Z) :
  MakeDate (Day t)
    (MakeTime (HourFromTime t) (MinFromTime t) (SecFromTime t) (msFromTime t)) = t.
Proof.
  unfold MakeDate, MakeTime, Day, HourFromTime, MinFromTime, SecFromTime,
    msFromTime, msPerDay, msPerHour, msPerMinute, msPerSecond.
  Z.to_euclidean_division_equations. lia.
Qed.

Lemma setHours_add (t n : Z) :
  setHours (DateAt t) (nadd (getHours (DateAt t)) (Some n))
  = TimeClip (t + n * msPerHour).
Proof.
  unfold setHours, getHours, getTime, option_map, nadd, lift2. f_equal.
  pose proof (time_of_day_parts t) as P.
  unfold MakeDate, MakeTime, msPerDay, msPerHour, msPerMinute, msPerSecond in *.
  lia.
Qed.

Lemma setMinutes_add (t n : Z) :
  setMinutes (DateAt t) (nadd (getMinutes (DateAt t)) (Some n))
  = TimeClip (t + n * msPerMinute).
Proof.
  unfold setMinutes, getMinutes, getTime, option_map, nadd, lift2. f_equal.
  pose proof (time_of_day_parts t) as P.
  unfold MakeDate, MakeTime, msPerDay, msPerHour, msPerMinute, msPerSecond in *.
  lia.
Qed.

Lemma cut_to_day (t : Z) :
  valid_time t -> setHours4 (TimeClip t) 0 0 0 0 = DateAt (startOfDay t).
Proof.
  intros V. rewrite (TimeClip_valid _ V). now apply setHours4_zero_valid.
Qed.

Lemma resolve_relative_by (mr : MatchResult) (n : nat) (u : string) (ms now : Z) :
  parseInt (capture 1 mr) = Some (Z.of_nat n) ->
  toLowerCase (capture 2 mr) = u ->
  In (u, ms) relative_units ->
  valid_time (now + Z.of_nat n * ms) ->
  resolve_relative mr now = DateAt (startOfDay (now + Z.of_nat n * ms)).
Proof.
  intros Hn Hu Hin V. unfold resolve_relative. rewrite Hn, Hu.
  unfold relative_units in Hin. cbn [In] in Hin.
  repeat (destruct Hin as [Hin | Hin]; [injection Hin as <- <- | ]);
    try contradiction;
    repeat match goal with
           | |- context [startsWith ?a ?b] =>
               let v := eval vm_compute in (startsWith a b) in
               replace (startsWith a b) with v by (vm_compute; reflexivity)
           end; cbv iota.
  - rewrite setDate_getDate. now apply cut_to_day.
  - rewrite setDate_getDate. now apply cut_to_day.
  - unfold nmul, lift2. rewrite setDate_getDate.
    replace (Z.of_nat n * 7 * msPerDay) with (Z.of_nat n * (7 * msPerDay)) by ring.
    now apply cut_to_day.
  - unfold nmul, lift2. rewrite setDate_getDate.
    replace (Z.of_nat n * 7 * msPerDay) with (Z.of_nat n * (7 * msPerDay)) by ring.
    now apply cut_to_day.
  - rewrite setHours_add. now apply cut_to_day.
  - rewrite setHours_add. now apply cut_to_day.
  - rewrite setMinutes_add. now apply cut_to_day.
  - rewrite setMinutes_add. now apply cut_to_day.
Qed.



End RelativeAmounts.
